(** * Membership lifecycle and payment verification of the gym back end

    A shallow embedding of the membership and payment operations of
    [storage.ts] (classes [DatabaseStorage] and [MemStorage]), of the
    constraints the schema puts on their tables and of the routes over
    them, together with the part of the ECMAScript [Date] object these
    operations call, and the properties of the specification settled
    against it. *)

From Stdlib Require Import ZArith Lia Sorted Permutation.
From stdpp Require Import gmap strings list fin_maps pretty.

Local Open Scope Z_scope.

(** ** The ECMAScript Date arithmetic used by the storage layer

    A [Date] is its time value: milliseconds since 1970-01-01T00:00Z, an
    integer.  The definitions follow the abstract operations of the language
    specification (Day, TimeWithinDay, DayFromYear, YearFromTime,
    MonthFromTime, DateFromTime, MakeDay, MakeDate, LocalTime, UTC).  The
    local time zone is a fixed offset [tz] in milliseconds (LocalTZA); the
    range limit of time values (TimeClip) is not part of the model. *)
Module JSDate.

Definition msPerDay : Z := 86400000.

Definition Day (t : Z) : Z := t / msPerDay.

Definition TimeWithinDay (t : Z) : Z := t mod msPerDay.

Definition DaysInYear (y : Z) : Z :=
  if negb (y mod 4 =? 0) then 365
  else if negb (y mod 100 =? 0) then 366
  else if negb (y mod 400 =? 0) then 365
  else 366.

Definition DayFromYear (y : Z) : Z :=
  365 * (y - 1970) + (y - 1969) / 4 - (y - 1901) / 100 + (y - 1601) / 400.

(** The largest year [y] with [DayFromYear y <= d]: an estimate from the
    mean length of a Gregorian year (146097 days in 400 years), corrected by
    at most one year either way. *)
Definition YearFromDay (d : Z) : Z :=
  let y := 1970 + (400 * d) / 146097 in
  if d <? DayFromYear y then y - 1
  else if DayFromYear (y + 1) <=? d then y + 1
  else y.

Definition YearFromTime (t : Z) : Z := YearFromDay (Day t).

(** 1 in a leap year, 0 otherwise. *)
Definition InLeapYear (t : Z) : Z := DaysInYear (YearFromTime t) - 365.

Definition DayWithinYear (t : Z) : Z := Day t - DayFromYear (YearFromTime t).

Definition MonthFromTime (t : Z) : Z :=
  let d := DayWithinYear t in
  let leap := InLeapYear t in
  if d <? 31 then 0
  else if d <? 59 + leap then 1
  else if d <? 90 + leap then 2
  else if d <? 120 + leap then 3
  else if d <? 151 + leap then 4
  else if d <? 181 + leap then 5
  else if d <? 212 + leap then 6
  else if d <? 243 + leap then 7
  else if d <? 273 + leap then 8
  else if d <? 304 + leap then 9
  else if d <? 334 + leap then 10
  else 11.

Definition DateFromTime (t : Z) : Z :=
  let d := DayWithinYear t in
  let leap := InLeapYear t in
  match MonthFromTime t with
  | 0 => d + 1
  | 1 => d - 30
  | 2 => d - 58 - leap
  | 3 => d - 89 - leap
  | 4 => d - 119 - leap
  | 5 => d - 150 - leap
  | 6 => d - 180 - leap
  | 7 => d - 211 - leap
  | 8 => d - 242 - leap
  | 9 => d - 272 - leap
  | 10 => d - 303 - leap
  | _ => d - 333 - leap
  end.

(** Day number, within its year, of the first day of month [mn] (0..11). *)
Definition monthOffset (mn leap : Z) : Z :=
  match mn with
  | 0 => 0
  | 1 => 31
  | 2 => 59 + leap
  | 3 => 90 + leap
  | 4 => 120 + leap
  | 5 => 151 + leap
  | 6 => 181 + leap
  | 7 => 212 + leap
  | 8 => 243 + leap
  | 9 => 273 + leap
  | 10 => 304 + leap
  | _ => 334 + leap
  end.

(** MakeDay: months outside 0..11 carry into the year, days outside the
    month carry into the following (or preceding) months. *)
Definition MakeDay (year month date : Z) : Z :=
  let ym := year + month / 12 in
  let mn := month mod 12 in
  DayFromYear ym + monthOffset mn (DaysInYear ym - 365) + date - 1.

Definition MakeDate (day time : Z) : Z := day * msPerDay + time.

Definition LocalTime (tz t : Z) : Z := t + tz.

Definition UTC (tz t : Z) : Z := t - tz.

Definition getFullYear (tz t : Z) : Z := YearFromTime (LocalTime tz t).

Definition getMonth (tz t : Z) : Z := MonthFromTime (LocalTime tz t).

Definition getDate (tz t : Z) : Z := DateFromTime (LocalTime tz t).

Definition setDate (tz t date : Z) : Z :=
  let lt := LocalTime tz t in
  UTC tz (MakeDate (MakeDay (YearFromTime lt) (MonthFromTime lt) date)
                   (TimeWithinDay lt)).

Definition setMonth (tz t month : Z) : Z :=
  let lt := LocalTime tz t in
  UTC tz (MakeDate (MakeDay (YearFromTime lt) month (DateFromTime lt))
                   (TimeWithinDay lt)).

Definition setFullYear (tz t year : Z) : Z :=
  let lt := LocalTime tz t in
  UTC tz (MakeDate (MakeDay year (MonthFromTime lt) (DateFromTime lt))
                   (TimeWithinDay lt)).

(** [setHours(0, 0, 0, 0)]: local midnight of the same local day. *)
Definition setHoursZero (tz t : Z) : Z :=
  UTC tz (MakeDate (Day (LocalTime tz t)) 0).

(** Day number of the first day of month [k mod 12] of year [k / 12]. *)
Definition monthStart (k : Z) : Z :=
  DayFromYear (k / 12) + monthOffset (k mod 12) (DaysInYear (k / 12) - 365).

(** The time value of the civil date [y]-[m]-[d] (month counted from 1) at
    [ms] milliseconds after midnight, UTC. *)
Definition civil (y m d ms : Z) : Z := MakeDate (MakeDay y (m - 1) d) ms.

End JSDate.

(** ** Rows of the schema

    A table is a finite map from the primary key ([id], a [serial] column)
    to the remaining columns of the row: the [id] of a row read from a table
    is the key it was found under.  A nullable column is an [option].
    Timestamps and dates are time values: a member's [expiryDate] is the
    time value of the string the code writes ([toISOString()]) and reads
    back ([new Date(...)]).  The engine keeps only the calendar day of a
    [date] column: [DatabaseStorage] below leaves that aside and keeps the
    value as it is written, [Postgres] further down takes it in. *)

Module User.
Record t := mk {
  username : string;
  password : string;
  name : string;
  role : string;
  email : string;
}.
End User.

Module MembershipPlan.
Record t := mk {
  name : string;
  description : string;
  price : Z;
  duration : Z;
  durationType : string;
  features : list string;
  isActive : bool;
}.
End MembershipPlan.

Module Member.
Record t := mk {
  firstName : string;
  lastName : string;
  email : string;
  phone : option string;
  address : option string;
  joinDate : Z;
  planId : option Z;
  status : option string;
  avatarUrl : option string;
  emergencyContact : option string;
  emergencyPhone : option string;
  notes : option string;
  expiryDate : option Z;
}.

(** The columns the membership operations write: a [Partial<Member>] with
    any of [status], [planId], [expiryDate]; a column that is [None] in the
    patch is left as it is. *)
Record patch := mkPatch {
  setStatus : option string;
  setPlanId : option Z;
  setExpiryDate : option Z;
}.

Definition merge (m : t) (p : patch) : t :=
  {| firstName := firstName m;
     lastName := lastName m;
     email := email m;
     phone := phone m;
     address := address m;
     joinDate := joinDate m;
     planId := match setPlanId p with Some v => Some v | None => planId m end;
     status := match setStatus p with Some v => Some v | None => status m end;
     avatarUrl := avatarUrl m;
     emergencyContact := emergencyContact m;
     emergencyPhone := emergencyPhone m;
     notes := notes m;
     expiryDate :=
       match setExpiryDate p with Some v => Some v | None => expiryDate m end |}.

Definition fullName (m : t) : string := firstName m +:+ " " +:+ lastName m.
End Member.

(** A stored payment.  [paymentDate] and [status] are [notNull] columns with
    a default in the database; in [MemStorage] a stored payment has exactly
    the properties its creator passed, so either may be absent there. *)
Module Payment.
Record t := mk {
  memberId : Z;
  amount : Z;
  paymentDate : option Z;
  paymentMethod : string;
  planId : Z;
  status : option string;
  receiptUrl : option string;
  notes : option string;
  verifiedById : option Z;
  verifiedAt : option Z;
}.

(** [set({status, verifiedById, verifiedAt, notes})].  A property of the
    patch that is [undefined] is left out of the statement, so the column
    stays; [null] and a string are written.  [newNotes] is [None] for a
    patch without [notes] (or with [notes: undefined]), [Some None] for
    [notes: null] and [Some (Some n)] for the string [n]. *)
Definition settle (st : string) (adminId now : Z)
    (newNotes : option (option string)) (p : t) : t :=
  {| memberId := memberId p;
     amount := amount p;
     paymentDate := paymentDate p;
     paymentMethod := paymentMethod p;
     planId := planId p;
     status := Some st;
     receiptUrl := receiptUrl p;
     notes := match newNotes with Some written => written | None => notes p end;
     verifiedById := Some adminId;
     verifiedAt := Some now |}.
End Payment.

(** [InsertPayment]: the caller's input to [createPayment]; [None] is an
    omitted (undefined or null) property. *)
Module InsertPayment.
Record t := mk {
  memberId : Z;
  amount : Z;
  paymentDate : option Z;
  paymentMethod : string;
  planId : Z;
  status : option string;
  receiptUrl : option string;
  notes : option string;
  verifiedById : option Z;
  verifiedAt : option Z;
}.
End InsertPayment.

Module Activity.
Record t := mk {
  userId : option Z;
  memberId : option Z;
  activityType : string;
  description : string;
  timestamp : Z;
}.
End Activity.

(** ** The store

    The tables the membership operations touch, for either back end: the
    relational tables of [DatabaseStorage] and the [Map]s of [MemStorage].
    The activity log is append-only and kept in insertion order.  The
    references that the schema declares from the payment table are the
    subject of [Postgres] below; the uniqueness of e-mails and user names is
    not modelled. *)
Record Store := mkStore {
  users : gmap Z User.t;
  membershipPlans : gmap Z MembershipPlan.t;
  members : gmap Z Member.t;
  payments : gmap Z Payment.t;
  activities : list Activity.t;
  paymentIdCounter : Z;
}.

Definition withMembers (f : gmap Z Member.t -> gmap Z Member.t) (s : Store) : Store :=
  {| users := users s; membershipPlans := membershipPlans s;
     members := f (members s); payments := payments s;
     activities := activities s; paymentIdCounter := paymentIdCounter s |}.

Definition withPayments (f : gmap Z Payment.t -> gmap Z Payment.t) (s : Store) : Store :=
  {| users := users s; membershipPlans := membershipPlans s;
     members := members s; payments := f (payments s);
     activities := activities s; paymentIdCounter := paymentIdCounter s |}.

Definition withActivities (f : list Activity.t -> list Activity.t) (s : Store) : Store :=
  {| users := users s; membershipPlans := membershipPlans s;
     members := members s; payments := payments s;
     activities := f (activities s); paymentIdCounter := paymentIdCounter s |}.

Definition withPaymentIdCounter (n : Z) (s : Store) : Store :=
  {| users := users s; membershipPlans := membershipPlans s;
     members := members s; payments := payments s;
     activities := activities s; paymentIdCounter := n |}.

(** ** Store computations: a state monad over [Store] *)
Definition M (A : Type) : Type := Store -> A * Store.

Definition ret {A} (a : A) : M A := fun s => (a, s).

Definition bind {A B} (c : M A) (k : A -> M B) : M B :=
  fun s => let (a, s') := c s in k a s'.

Declare Scope store_scope.
Delimit Scope store_scope with store.
Notation "x <- c ;; k" := (bind c (fun x => k))
  (at level 100, c at next level, right associativity) : store_scope.
Notation "c ;;; k" := (bind c (fun _ => k))
  (at level 100, right associativity) : store_scope.

Definition gets {A} (f : Store -> A) : M A := fun s => (f s, s).

Definition modify (f : Store -> Store) : M unit := fun s => (tt, f s).

(** [for (const x of xs) { await body(x) }] *)
Fixpoint forEach {A} (xs : list A) (body : A -> M unit) : M unit :=
  match xs with
  | [] => ret tt
  | x :: rest => bind (body x) (fun _ => forEach rest body)
  end.

(** What the operation returns and the store it leaves. *)
Definition result {A} (c : M A) (s : Store) : A := fst (c s).
Definition after {A} (c : M A) (s : Store) : Store := snd (c s).

(** [(amount / 100).toFixed(2)] for an integer amount of cents. *)
Definition toFixed2 (cents : Z) : string :=
  let a := Z.abs cents in
  (if cents <? 0 then "-" else "") +:+ pretty (a / 100) +:+ "."
  +:+ pretty (a mod 100 / 10) +:+ pretty (a mod 10).

Definition withUsers (f : gmap Z User.t -> gmap Z User.t) (s : Store) : Store :=
  {| users := f (users s); membershipPlans := membershipPlans s;
     members := members s; payments := payments s;
     activities := activities s; paymentIdCounter := paymentIdCounter s |}.

(** [Partial<User>]: the columns of a user an update may carry. *)
Module UserPatch.
Record t := mk {
  setUsername : option string;
  setPassword : option string;
  setName : option string;
  setRole : option string;
  setEmail : option string;
}.

Definition merge (u : User.t) (p : t) : User.t :=
  {| User.username :=
       match setUsername p with Some v => v | None => User.username u end;
     User.password :=
       match setPassword p with Some v => v | None => User.password u end;
     User.name := match setName p with Some v => v | None => User.name u end;
     User.role := match setRole p with Some v => v | None => User.role u end;
     User.email := match setEmail p with Some v => v | None => User.email u end |}.
End UserPatch.

(** ** The array operations the activity queries use *)
Module JSArray.

(** One step of a stable descending sort: [a], which stood before every
    entry of [sorted] in the original array, goes in front of the first
    entry that is not later than it. *)
Fixpoint insertByTimestamp (a : Activity.t) (sorted : list Activity.t)
    : list Activity.t :=
  match sorted with
  | [] => [a]
  | b :: rest =>
      if Activity.timestamp b <=? Activity.timestamp a then a :: b :: rest
      else b :: insertByTimestamp a rest
  end.

(** [xs.sort((a, b) => b.timestamp - a.timestamp)]: latest first; the sort
    of the language is stable, so entries of equal time keep their order. *)
Definition sortByTimestampDesc (xs : list Activity.t) : list Activity.t :=
  foldr insertByTimestamp [] xs.

(** [a] may stand before [b] in a list that has the latest first. *)
Definition laterFirst (a b : Activity.t) : Prop :=
  Activity.timestamp b <= Activity.timestamp a.

(** [xs.slice(0, end)]: a negative [end] counts from the end of the array. *)
Definition slice0 {A} (xs : list A) (end_ : Z) : list A :=
  if end_ <? 0 then take (Z.to_nat (Z.of_nat (length xs) + end_)) xs
  else take (Z.to_nat end_) xs.

End JSArray.

(** ** DatabaseStorage: the storage in use ([storage = new DatabaseStorage()])

    Every operation takes the current instant [now], the value of each
    [new Date()] of the call; those that compute in local time also take
    the zone offset [tz]. *)
Module DatabaseStorage.
Import JSDate.
Local Open Scope store_scope.

Definition getUser (id : Z) : M (option User.t) :=
  gets (fun s => users s !! id).

Definition getMembershipPlan (id : Z) : M (option MembershipPlan.t) :=
  gets (fun s => membershipPlans s !! id).

Definition getMember (id : Z) : M (option Member.t) :=
  gets (fun s => members s !! id).

Definition getPayment (id : Z) : M (option Payment.t) :=
  gets (fun s => payments s !! id).

(** [db.insert(activities).values(activity)]; no caller here uses the row
    it returns. *)
Definition createActivity (activity : Activity.t) : M unit :=
  modify (withActivities (fun log => log ++ [activity])).

(** [db.update(members).set(data).where(eq(members.id, id)).returning()] *)
Definition updateMembersWhereId (id : Z) (data : Member.patch)
    : M (option Member.t) :=
  fun s =>
    match members s !! id with
    | Some m =>
        let m' := Member.merge m data in
        (Some m', withMembers (insert id m') s)
    | None => (None, s)
    end.

(** [db.update(payments).set(...).where(eq(payments.id, id)).returning()] *)
Definition updatePaymentsWhereId (id : Z) (set : Payment.t -> Payment.t)
    : M (option Payment.t) :=
  fun s =>
    match payments s !! id with
    | Some p => (Some (set p), withPayments (insert id (set p)) s)
    | None => (None, s)
    end.

(** [db.insert(payments).values(row).returning()]: the serial key is the
    next value of the sequence. *)
Definition insertPayment (row : Payment.t) : M (Z * Payment.t) :=
  fun s =>
    let id := paymentIdCounter s in
    ((id, row), withPaymentIdCounter (id + 1) (withPayments (insert id row) s)).

Definition updateMember (now id : Z) (memberData : Member.patch)
    : M (option Member.t) :=
  updatedMember <- updateMembersWhereId id memberData ;;
  match updatedMember with
  | Some m =>
      createActivity
        {| Activity.memberId := Some id;
           Activity.activityType := "member_updated";
           Activity.description := "Member updated: " +:+ Member.fullName m;
           Activity.timestamp := now;
           Activity.userId := None |} ;;;
      ret updatedMember
  | None => ret updatedMember
  end.

(** The filter of [getMembers]: active, with an expiry date, and that date
    before [today]. *)
Definition toUpdate (today : Z) (member : Member.t) : bool :=
  match Member.status member, Member.expiryDate member with
  | Some st, Some e => String.eqb st "active" && (e <? today)
  | _, _ => false
  end.

Definition markExpired (member : Member.t) : Member.t :=
  Member.merge member
    {| Member.setStatus := Some "expired";
       Member.setPlanId := None;
       Member.setExpiryDate := None |}.

Definition expiredActivity (now : Z) (row : Z * Member.t) : Activity.t :=
  {| Activity.memberId := Some (fst row);
     Activity.activityType := "membership_expired";
     Activity.description :=
       "Membership expired for: " +:+ Member.fullName (snd row);
     Activity.timestamp := now;
     Activity.userId := None |}.

(** [getMembers]: the rows are read once; the loop writes each selected row
    back as expired and then sets the status of the very object held in the
    list that is returned.  The query has no [orderBy]: the order of the
    rows is the engine's, taken here to be that of the keys. *)
Definition getMembers (tz now : Z) : M (list (Z * Member.t)) :=
  membersList <- gets (fun s => map_to_list (members s)) ;;
  let today := setHoursZero tz now in
  let membersToUpdate :=
    List.filter (fun row => toUpdate today (snd row)) membersList in
  forEach membersToUpdate (fun row =>
    updateMembersWhereId (fst row)
      {| Member.setStatus := Some "expired";
         Member.setPlanId := None;
         Member.setExpiryDate := None |} ;;;
    createActivity (expiredActivity now row)) ;;;
  ret (List.map (fun row =>
         if toUpdate today (snd row) then (fst row, markExpired (snd row))
         else row) membersList).

(** The base date of [verifyPayment]: the member's expiry date, or the
    current date when there is none or it is already past. *)
Definition verifyBaseDate (member : Member.t) (currentDate : Z) : Z :=
  let expiryDate :=
    match Member.expiryDate member with
    | Some e => e
    | None => currentDate
    end in
  if expiryDate <? currentDate then currentDate else expiryDate.

(** The [switch (plan.durationType)] of [verifyPayment]. *)
Definition verifyDurationSwitch (tz : Z) (plan : MembershipPlan.t)
    (expiryDate : Z) : Z :=
  let duration := MembershipPlan.duration plan in
  let durationType := MembershipPlan.durationType plan in
  if String.eqb durationType "day" then
    setDate tz expiryDate (getDate tz expiryDate + duration)
  else if String.eqb durationType "week" then
    setDate tz expiryDate (getDate tz expiryDate + duration * 7)
  else if String.eqb durationType "month" then
    setMonth tz expiryDate (getMonth tz expiryDate + duration)
  else if String.eqb durationType "year" then
    setFullYear tz expiryDate (getFullYear tz expiryDate + duration)
  else expiryDate.

Definition verifyPayment (tz now id adminId : Z) : M (option Payment.t) :=
  payment <- getPayment id ;;
  match payment with
  | None => ret None
  | Some payment =>
      updatedPayment <-
        updatePaymentsWhereId id (Payment.settle "verified" adminId now None) ;;
      member <- getMember (Payment.memberId payment) ;;
      admin <- getUser adminId ;;
      plan <- getMembershipPlan (Payment.planId payment) ;;
      match member, admin, plan with
      | Some member, Some admin, Some plan =>
          createActivity
            {| Activity.memberId := Some (Payment.memberId payment);
               Activity.activityType := "payment_verified";
               Activity.description :=
                 "Pago de " +:+ Member.fullName member +:+ " por "
                 +:+ MembershipPlan.name plan +:+ " verificado por "
                 +:+ User.name admin;
               Activity.timestamp := now;
               Activity.userId := Some adminId |} ;;;
          let currentDate := now in
          let expiryDate := verifyBaseDate member currentDate in
          let expiryDate := verifyDurationSwitch tz plan expiryDate in
          updateMember now (Payment.memberId payment)
            {| Member.setStatus := Some "active";
               Member.setPlanId := Some (Payment.planId payment);
               Member.setExpiryDate := Some expiryDate |} ;;;
          createActivity
            {| Activity.activityType := "membership_activated";
               Activity.description :=
                 "Membresía " +:+ MembershipPlan.name plan
                 +:+ " activada para " +:+ Member.fullName member;
               Activity.timestamp := now;
               Activity.memberId := Some (Payment.memberId payment);
               Activity.userId := Some adminId |} ;;;
          ret updatedPayment
      | _, _, _ => ret updatedPayment
      end
  end.

(** [plan.duration && plan.duration > 0 ? plan.duration : 1] *)
Definition createDuration (plan : MembershipPlan.t) : Z :=
  if 0 <? MembershipPlan.duration plan then MembershipPlan.duration plan else 1.

(** The [switch (plan.durationType)] of [createPayment]. *)
Definition createDurationSwitch (tz : Z) (plan : MembershipPlan.t)
    (expiryDate : Z) : Z :=
  let duration := createDuration plan in
  let durationType := MembershipPlan.durationType plan in
  if String.eqb durationType "daily" then
    setDate tz expiryDate (getDate tz expiryDate + duration)
  else if String.eqb durationType "weekly" then
    setDate tz expiryDate (getDate tz expiryDate + duration * 7)
  else if String.eqb durationType "monthly" then
    setMonth tz expiryDate (getMonth tz expiryDate + duration)
  else if String.eqb durationType "yearly" || String.eqb durationType "annual" then
    setFullYear tz expiryDate (getFullYear tz expiryDate + duration)
  else
    setDate tz expiryDate (getDate tz expiryDate + duration).

(** [paymentData.status || 'verified']: an omitted or empty status gives
    ['verified']. *)
Definition resolveStatus (status : option string) : string :=
  match status with
  | Some st => if String.eqb st "" then "verified" else st
  | None => "verified"
  end.

(** [createPayment]: the row is inserted with the status resolved here and,
    for [paymentDate], the caller's value or the column default [now()]. *)
Definition createPayment (tz now : Z) (paymentData : InsertPayment.t)
    : M (Z * Payment.t) :=
  let status := resolveStatus (InsertPayment.status paymentData) in
  let verifiedAt := if String.eqb status "verified" then Some now else None in
  let verifiedById :=
    if String.eqb status "verified" then
      match InsertPayment.verifiedById paymentData with
      | Some v => if v =? 0 then None else Some v
      | None => None
      end
    else None in
  let storedPaymentDate :=
    match InsertPayment.paymentDate paymentData with
    | Some d => d
    | None => now
    end in
  inserted <-
    insertPayment
      {| Payment.memberId := InsertPayment.memberId paymentData;
         Payment.amount := InsertPayment.amount paymentData;
         Payment.paymentDate := Some storedPaymentDate;
         Payment.paymentMethod := InsertPayment.paymentMethod paymentData;
         Payment.planId := InsertPayment.planId paymentData;
         Payment.status := Some status;
         Payment.receiptUrl := InsertPayment.receiptUrl paymentData;
         Payment.notes := InsertPayment.notes paymentData;
         Payment.verifiedById := verifiedById;
         Payment.verifiedAt := verifiedAt |} ;;
  let newPayment := snd inserted in
  member <- getMember (Payment.memberId newPayment) ;;
  plan <- getMembershipPlan (Payment.planId newPayment) ;;
  match member, plan with
  | Some member, Some plan =>
      createActivity
        {| Activity.memberId := Some (Payment.memberId newPayment);
           Activity.activityType := "payment_created";
           Activity.description :=
             Member.fullName member +:+ " registró un pago de "
             +:+ toFixed2 (Payment.amount newPayment) +:+ " soles por "
             +:+ MembershipPlan.name plan;
           Activity.timestamp := now;
           Activity.userId := None |} ;;;
      if String.eqb status "verified" then
        let paymentDate := storedPaymentDate in
        let expiryDate := paymentDate in
        let expiryDate := createDurationSwitch tz plan expiryDate in
        let expiryDate := setDate tz expiryDate (getDate tz expiryDate + 1) in
        updateMembersWhereId (Payment.memberId newPayment)
          {| Member.setStatus := Some "active";
             Member.setPlanId := Some (Payment.planId newPayment);
             Member.setExpiryDate := Some expiryDate |} ;;;
        createActivity
          {| Activity.activityType := "membership_activated";
             Activity.description :=
               "Membresía " +:+ MembershipPlan.name plan
               +:+ " activada para " +:+ Member.fullName member;
             Activity.timestamp := now;
             Activity.memberId := Some (Payment.memberId newPayment);
             Activity.userId := Payment.verifiedById newPayment |} ;;;
        ret inserted
      else ret inserted
  | _, _ => ret inserted
  end.

(** [rejectPayment(id, adminId, notes?)]: [notes] is [None] when the
    argument is [undefined] (left out by the caller, or absent from the
    request body), [Some None] when it is [null], and [Some (Some n)] for
    the string [n]. *)
Definition rejectPayment (now id adminId : Z) (notes : option (option string))
    : M (option Payment.t) :=
  updatedPayment <-
    updatePaymentsWhereId id (Payment.settle "rejected" adminId now notes) ;;
  match updatedPayment with
  | Some updated =>
      member <- getMember (Payment.memberId updated) ;;
      admin <- getUser adminId ;;
      match member, admin with
      | Some member, Some admin =>
          createActivity
            {| Activity.memberId := Some (Payment.memberId updated);
               Activity.activityType := "payment_rejected";
               Activity.description :=
                 "Pago de " +:+ Member.fullName member
                 +:+ " fue rechazado por " +:+ User.name admin;
               Activity.timestamp := now;
               Activity.userId := Some adminId |} ;;;
          ret updatedPayment
      | _, _ => ret updatedPayment
      end
  | None => ret updatedPayment
  end.

(** [db.select().from(payments)], with its [where] clauses. *)
Definition getPayments : M (list (Z * Payment.t)) :=
  gets (fun s => map_to_list (payments s)).

Definition getPaymentsByMember (memberId : Z) : M (list (Z * Payment.t)) :=
  gets (fun s =>
    List.filter (fun row => Payment.memberId (snd row) =? memberId)
      (map_to_list (payments s))).

Definition isPending (payment : Payment.t) : bool :=
  match Payment.status payment with
  | Some st => String.eqb st "pending"
  | None => false
  end.

Definition getPendingPayments : M (list (Z * Payment.t)) :=
  gets (fun s =>
    List.filter (fun row => isPending (snd row)) (map_to_list (payments s))).

(** [const [member] = await db.select()...where(eq(members.email, email))]:
    the first row the query yields. *)
Definition getMemberByEmail (email : string) : M (option (Z * Member.t)) :=
  gets (fun s =>
    List.find (fun row => String.eqb (Member.email (snd row)) email)
      (map_to_list (members s))).

Definition getUserByUsername (username : string) : M (option (Z * User.t)) :=
  gets (fun s =>
    List.find (fun row => String.eqb (User.username (snd row)) username)
      (map_to_list (users s))).

Definition updateUser (id : Z) (userData : UserPatch.t) : M (option User.t) :=
  fun s =>
    match users s !! id with
    | Some u =>
        let u' := UserPatch.merge u userData in
        (Some u', withUsers (insert id u') s)
    | None => (None, s)
    end.

(** [deleteMember]: the entry is logged before the row is deleted, and the
    answer is [true] whether or not there was a row. *)
Definition deleteMember (now id : Z) : M bool :=
  member <- getMember id ;;
  match member with
  | Some member =>
      createActivity
        {| Activity.memberId := None;
           Activity.activityType := "member_deleted";
           Activity.description :=
             "Member deleted: " +:+ Member.fullName member;
           Activity.timestamp := now;
           Activity.userId := None |}
  | None => ret tt
  end ;;;
  modify (withMembers (delete id)) ;;;
  ret true.

(** [orderBy(desc(activities.timestamp))]; the order the engine gives to
    entries of equal time is not fixed by the query, and is taken here to be
    their order in the log. *)
Definition getActivities : M (list Activity.t) :=
  gets (fun s => JSArray.sortByTimestampDesc (activities s)).

Definition getUserActivities (userId : Z) : M (list Activity.t) :=
  gets (fun s =>
    JSArray.sortByTimestampDesc
      (List.filter (fun a => match Activity.userId a with
                             | Some u => u =? userId
                             | None => false
                             end) (activities s))).

Definition getMemberActivities (memberId : Z) : M (list Activity.t) :=
  gets (fun s =>
    JSArray.sortByTimestampDesc
      (List.filter (fun a => match Activity.memberId a with
                             | Some m => m =? memberId
                             | None => false
                             end) (activities s))).

End DatabaseStorage.

(** ** MemStorage: the in-memory implementation of the same interface *)
Module MemStorage.
Import JSDate.
Local Open Scope store_scope.

Definition getUser (id : Z) : M (option User.t) :=
  gets (fun s => users s !! id).

Definition getMembershipPlan (id : Z) : M (option MembershipPlan.t) :=
  gets (fun s => membershipPlans s !! id).

Definition getMember (id : Z) : M (option Member.t) :=
  gets (fun s => members s !! id).

Definition createActivity (activityData : Activity.t) : M unit :=
  modify (withActivities (fun log => log ++ [activityData])).

Definition updateMember (now id : Z) (memberData : Member.patch)
    : M (option Member.t) :=
  member <- getMember id ;;
  match member with
  | None => ret None
  | Some member =>
      let updatedMember := Member.merge member memberData in
      modify (withMembers (insert id updatedMember)) ;;;
      createActivity
        {| Activity.memberId := Some id;
           Activity.activityType := "member_updated";
           Activity.description :=
             "Member updated: " +:+ Member.fullName updatedMember;
           Activity.timestamp := now;
           Activity.userId := None |} ;;;
      ret (Some updatedMember)
  end.

(** [getMembers]: [today] is the current instant, as it is; a member found
    due has the status of its stored object set in place. *)
Definition getMembers (now : Z) : M (list (Z * Member.t)) :=
  let today := now in
  members0 <- gets (fun s => map_to_list (members s)) ;;
  forEach members0 (fun row =>
    let member := snd row in
    match Member.status member, Member.expiryDate member with
    | Some st, Some expiryDate =>
        if String.eqb st "active" && (expiryDate <? today) then
          modify (withMembers (insert (fst row)
                    (DatabaseStorage.markExpired member))) ;;;
          createActivity (DatabaseStorage.expiredActivity now row)
        else ret tt
    | _, _ => ret tt
    end) ;;;
  gets (fun s => map_to_list (members s)).

(** [createPayment]: the payment is stored with the caller's properties and
    the next id; nothing else is derived from it. *)
Definition createPayment (now : Z) (paymentData : InsertPayment.t)
    : M (Z * Payment.t) :=
  id <- gets paymentIdCounter ;;
  modify (withPaymentIdCounter (id + 1)) ;;;
  let payment :=
    {| Payment.memberId := InsertPayment.memberId paymentData;
       Payment.amount := InsertPayment.amount paymentData;
       Payment.paymentDate := InsertPayment.paymentDate paymentData;
       Payment.paymentMethod := InsertPayment.paymentMethod paymentData;
       Payment.planId := InsertPayment.planId paymentData;
       Payment.status := InsertPayment.status paymentData;
       Payment.receiptUrl := InsertPayment.receiptUrl paymentData;
       Payment.notes := InsertPayment.notes paymentData;
       Payment.verifiedById := InsertPayment.verifiedById paymentData;
       Payment.verifiedAt := InsertPayment.verifiedAt paymentData |} in
  modify (withPayments (insert id payment)) ;;;
  member <- getMember (Payment.memberId payment) ;;
  plan <- getMembershipPlan (Payment.planId payment) ;;
  match member, plan with
  | Some member, Some plan =>
      createActivity
        {| Activity.memberId := Some (Payment.memberId payment);
           Activity.activityType := "payment_created";
           Activity.description :=
             Member.fullName member +:+ " registró un pago de "
             +:+ toFixed2 (Payment.amount payment) +:+ " soles por "
             +:+ MembershipPlan.name plan;
           Activity.timestamp := now;
           Activity.userId := None |} ;;;
      ret (id, payment)
  | _, _ => ret (id, payment)
  end.

(** [verifyPayment]: the base date and the switch on [plan.durationType]
    read as in [DatabaseStorage.verifyPayment]. *)
Definition verifyPayment (tz now id adminId : Z) : M (option Payment.t) :=
  payment <- gets (fun s => payments s !! id) ;;
  match payment with
  | None => ret None
  | Some payment =>
      let updatedPayment := Payment.settle "verified" adminId now None payment in
      modify (withPayments (insert id updatedPayment)) ;;;
      member <- getMember (Payment.memberId payment) ;;
      admin <- getUser adminId ;;
      plan <- getMembershipPlan (Payment.planId payment) ;;
      match member, admin, plan with
      | Some member, Some admin, Some plan =>
          createActivity
            {| Activity.memberId := Some (Payment.memberId payment);
               Activity.activityType := "payment_verified";
               Activity.description :=
                 "Pago de " +:+ Member.fullName member +:+ " por "
                 +:+ MembershipPlan.name plan +:+ " verificado por "
                 +:+ User.name admin;
               Activity.timestamp := now;
               Activity.userId := Some adminId |} ;;;
          let currentDate := now in
          let expiryDate := DatabaseStorage.verifyBaseDate member currentDate in
          let expiryDate :=
            DatabaseStorage.verifyDurationSwitch tz plan expiryDate in
          updateMember now (Payment.memberId payment)
            {| Member.setExpiryDate := Some expiryDate;
               Member.setStatus := Some "active";
               Member.setPlanId := None |} ;;;
          ret (Some updatedPayment)
      | _, _, _ => ret (Some updatedPayment)
      end
  end.

(** The note when it is truthy: a string that is not empty.  [undefined],
    [null] and the empty string are falsy. *)
Definition rejectNotes (notes : option (option string)) : option string :=
  match notes with
  | Some (Some n) => if String.eqb n "" then None else Some n
  | _ => None
  end.

(** [rejectPayment]: the stored object is rebuilt with
    [notes: notes || payment.notes], so a falsy note keeps the old one. *)
Definition rejectPayment (now id adminId : Z) (notes : option (option string))
    : M (option Payment.t) :=
  payment <- gets (fun s => payments s !! id) ;;
  match payment with
  | None => ret None
  | Some payment =>
      let updatedPayment :=
        Payment.settle "rejected" adminId now
          (Some match rejectNotes notes with
                | Some n => Some n
                | None => Payment.notes payment
                end) payment in
      modify (withPayments (insert id updatedPayment)) ;;;
      member <- getMember (Payment.memberId payment) ;;
      admin <- getUser adminId ;;
      match member, admin with
      | Some member, Some admin =>
          createActivity
            {| Activity.memberId := Some (Payment.memberId payment);
               Activity.activityType := "payment_rejected";
               Activity.description :=
                 "Pago de " +:+ Member.fullName member +:+ " rechazado por "
                 +:+ User.name admin
                 +:+ match rejectNotes notes with
                     | Some n => ": " +:+ n
                     | None => ""
                     end;
               Activity.timestamp := now;
               Activity.userId := Some adminId |} ;;;
          ret (Some updatedPayment)
      | _, _ => ret (Some updatedPayment)
      end
  end.

Definition deleteMember (now id : Z) : M bool :=
  member <- getMember id ;;
  match member with
  | Some member =>
      createActivity
        {| Activity.memberId := None;
           Activity.activityType := "member_deleted";
           Activity.description :=
             "Member deleted: " +:+ Member.fullName member;
           Activity.timestamp := now;
           Activity.userId := None |}
  | None => ret tt
  end ;;;
  existed <- gets (fun s => match members s !! id with
                            | Some _ => true
                            | None => false
                            end) ;;
  modify (withMembers (delete id)) ;;;
  ret existed.

Definition getActivities : M (list Activity.t) :=
  gets (fun s => JSArray.sortByTimestampDesc (activities s)).

Definition getRecentActivities (limit : Z) : M (list Activity.t) :=
  all <- getActivities ;;
  ret (JSArray.slice0 all limit).

Definition getUserActivities (userId : Z) : M (list Activity.t) :=
  all <- getActivities ;;
  ret (List.filter (fun a => match Activity.userId a with
                             | Some u => u =? userId
                             | None => false
                             end) all).

Definition getMemberActivities (memberId : Z) : M (list Activity.t) :=
  all <- getActivities ;;
  ret (List.filter (fun a => match Activity.memberId a with
                             | Some m => m =? memberId
                             | None => false
                             end) all).

End MemStorage.

(** ** The schema's constraints on the calls of [DatabaseStorage]

    [DatabaseStorage] above is the storage code over tables that take every
    statement and keep every value as it is handed to them.  The schema (the
    [pgTable] declarations) constrains the tables further, and the
    operations below are the same code over the constrained tables:
    - [members.expiry_date] is a [date] column: of the ISO string the code
      writes it keeps the calendar day, and [new Date(...)] reads that day
      back as its midnight, UTC;
    - [payments.member_id], [payments.plan_id] and
      [payments.verified_by_id] are [references]: a payment row names a
      stored member and a stored plan and, when it names a verifier, a
      stored user, and a member that a payment names cannot be deleted;
    - a statement the engine refuses rejects the promise the code awaits:
      the call ends there with an error and what it wrote before stays, no
      call being wrapped in a transaction. *)
Module Postgres.
Import JSDate.

(** How a call ends: with a value, or with an error thrown. *)
Inductive Completion (A : Type) : Type :=
  | Returned (value : A)
  | Thrown.
Arguments Returned {A} value.
Arguments Thrown {A}.

Definition E (A : Type) : Type := M (Completion A).

Definition pure {A} (a : A) : E A := fun s => (Returned a, s).

Definition lift {A} (c : M A) : E A :=
  fun s => let (a, s') := c s in (Returned a, s').

(** [await]: an error ends the call, with the store as it is by then. *)
Definition andThen {A B} (c : E A) (k : A -> E B) : E B :=
  fun s =>
    match c s with
    | (Returned a, s') => k a s'
    | (Thrown, s') => (Thrown, s')
    end.

Declare Scope engine_scope.
Delimit Scope engine_scope with engine.
Notation "x <- c ;; k" := (andThen c (fun x => k))
  (at level 100, c at next level, right associativity) : engine_scope.
Notation "c ;;; k" := (andThen c (fun _ => k))
  (at level 100, right associativity) : engine_scope.
Local Open Scope engine_scope.

(** What a [date] column keeps of a time value: midnight UTC of its day. *)
Definition dateColumn (t : Z) : Z := Day t * msPerDay.

Definition dated (data : Member.patch) : Member.patch :=
  {| Member.setStatus := Member.setStatus data;
     Member.setPlanId := Member.setPlanId data;
     Member.setExpiryDate := dateColumn <$> Member.setExpiryDate data |}.

Definition found {A} (row : option A) : bool :=
  match row with
  | Some _ => true
  | None => false
  end.

(** [verified_by_id ... references(() => users.id)] *)
Definition verifierHolds (s : Store) (p : Payment.t) : bool :=
  match Payment.verifiedById p with
  | Some a => found (users s !! a)
  | None => true
  end.

(** The three references of a payment row. *)
Definition references (s : Store) (p : Payment.t) : bool :=
  found (members s !! Payment.memberId p)
  && found (membershipPlans s !! Payment.planId p)
  && verifierHolds s p.

(** The state of the payment table the engine maintains: every row's
    references hold. *)
Definition referencesHold (s : Store) : Prop :=
  forall id p, payments s !! id = Some p -> references s p = true.

(** Some payment names this member. *)
Definition referenced (s : Store) (memberId : Z) : bool :=
  existsb (fun row => Payment.memberId (snd row) =? memberId)
    (map_to_list (payments s)).

(** [db.update(members).set(data).where(eq(members.id, id)).returning()]:
    a patch that sets no column is refused before any statement is sent;
    the expiry date is kept as a date. *)
Definition updateMembersWhereId (id : Z) (data : Member.patch)
    : E (option Member.t) :=
  match Member.setStatus data, Member.setPlanId data,
        Member.setExpiryDate data with
  | None, None, None => fun s => (Thrown, s)
  | _, _, _ => lift (DatabaseStorage.updateMembersWhereId id (dated data))
  end.

(** [db.update(payments).set(...).where(eq(payments.id, id)).returning()],
    for a [set] that leaves [member_id] and [plan_id] alone: the verifier
    written must be a stored user. *)
Definition updatePaymentsWhereId (id : Z) (set : Payment.t -> Payment.t)
    : E (option Payment.t) :=
  fun s =>
    match payments s !! id with
    | Some p =>
        if verifierHolds s (set p)
        then (Returned (Some (set p)), withPayments (insert id (set p)) s)
        else (Thrown, s)
    | None => (Returned None, s)
    end.

(** [db.insert(payments).values(row).returning()]: the references of the
    row are checked; the value taken from the sequence for the key is used
    up whether or not the row is accepted. *)
Definition insertPayment (row : Payment.t) : E (Z * Payment.t) :=
  fun s =>
    let id := paymentIdCounter s in
    if references s row
    then (Returned (id, row),
          withPaymentIdCounter (id + 1) (withPayments (insert id row) s))
    else (Thrown, withPaymentIdCounter (id + 1) s).

(** [db.delete(members).where(eq(members.id, id))] *)
Definition deleteMembersWhereId (id : Z) : E unit :=
  fun s =>
    if found (members s !! id) && referenced s id then (Thrown, s)
    else (Returned tt, withMembers (delete id) s).

Definition updateMember (now id : Z) (memberData : Member.patch)
    : E (option Member.t) :=
  updatedMember <- updateMembersWhereId id memberData ;;
  match updatedMember with
  | Some m =>
      lift (DatabaseStorage.createActivity
        {| Activity.memberId := Some id;
           Activity.activityType := "member_updated";
           Activity.description := "Member updated: " +:+ Member.fullName m;
           Activity.timestamp := now;
           Activity.userId := None |}) ;;;
      pure updatedMember
  | None => pure updatedMember
  end.

Definition verifyPayment (tz now id adminId : Z) : E (option Payment.t) :=
  payment <- lift (DatabaseStorage.getPayment id) ;;
  match payment with
  | None => pure None
  | Some payment =>
      updatedPayment <-
        updatePaymentsWhereId id (Payment.settle "verified" adminId now None) ;;
      member <- lift (DatabaseStorage.getMember (Payment.memberId payment)) ;;
      admin <- lift (DatabaseStorage.getUser adminId) ;;
      plan <- lift (DatabaseStorage.getMembershipPlan (Payment.planId payment)) ;;
      match member, admin, plan with
      | Some member, Some admin, Some plan =>
          lift (DatabaseStorage.createActivity
            {| Activity.memberId := Some (Payment.memberId payment);
               Activity.activityType := "payment_verified";
               Activity.description :=
                 "Pago de " +:+ Member.fullName member +:+ " por "
                 +:+ MembershipPlan.name plan +:+ " verificado por "
                 +:+ User.name admin;
               Activity.timestamp := now;
               Activity.userId := Some adminId |}) ;;;
          let currentDate := now in
          let expiryDate := DatabaseStorage.verifyBaseDate member currentDate in
          let expiryDate :=
            DatabaseStorage.verifyDurationSwitch tz plan expiryDate in
          updateMember now (Payment.memberId payment)
            {| Member.setStatus := Some "active";
               Member.setPlanId := Some (Payment.planId payment);
               Member.setExpiryDate := Some expiryDate |} ;;;
          lift (DatabaseStorage.createActivity
            {| Activity.activityType := "membership_activated";
               Activity.description :=
                 "Membresía " +:+ MembershipPlan.name plan
                 +:+ " activada para " +:+ Member.fullName member;
               Activity.timestamp := now;
               Activity.memberId := Some (Payment.memberId payment);
               Activity.userId := Some adminId |}) ;;;
          pure updatedPayment
      | _, _, _ => pure updatedPayment
      end
  end.

Definition createPayment (tz now : Z) (paymentData : InsertPayment.t)
    : E (Z * Payment.t) :=
  let status := DatabaseStorage.resolveStatus (InsertPayment.status paymentData) in
  let verifiedAt := if String.eqb status "verified" then Some now else None in
  let verifiedById :=
    if String.eqb status "verified" then
      match InsertPayment.verifiedById paymentData with
      | Some v => if v =? 0 then None else Some v
      | None => None
      end
    else None in
  let storedPaymentDate :=
    match InsertPayment.paymentDate paymentData with
    | Some d => d
    | None => now
    end in
  inserted <-
    insertPayment
      {| Payment.memberId := InsertPayment.memberId paymentData;
         Payment.amount := InsertPayment.amount paymentData;
         Payment.paymentDate := Some storedPaymentDate;
         Payment.paymentMethod := InsertPayment.paymentMethod paymentData;
         Payment.planId := InsertPayment.planId paymentData;
         Payment.status := Some status;
         Payment.receiptUrl := InsertPayment.receiptUrl paymentData;
         Payment.notes := InsertPayment.notes paymentData;
         Payment.verifiedById := verifiedById;
         Payment.verifiedAt := verifiedAt |} ;;
  let newPayment := snd inserted in
  member <- lift (DatabaseStorage.getMember (Payment.memberId newPayment)) ;;
  plan <- lift (DatabaseStorage.getMembershipPlan (Payment.planId newPayment)) ;;
  match member, plan with
  | Some member, Some plan =>
      lift (DatabaseStorage.createActivity
        {| Activity.memberId := Some (Payment.memberId newPayment);
           Activity.activityType := "payment_created";
           Activity.description :=
             Member.fullName member +:+ " registró un pago de "
             +:+ toFixed2 (Payment.amount newPayment) +:+ " soles por "
             +:+ MembershipPlan.name plan;
           Activity.timestamp := now;
           Activity.userId := None |}) ;;;
      if String.eqb status "verified" then
        let paymentDate := storedPaymentDate in
        let expiryDate := paymentDate in
        let expiryDate := DatabaseStorage.createDurationSwitch tz plan expiryDate in
        let expiryDate := setDate tz expiryDate (getDate tz expiryDate + 1) in
        updateMembersWhereId (Payment.memberId newPayment)
          {| Member.setStatus := Some "active";
             Member.setPlanId := Some (Payment.planId newPayment);
             Member.setExpiryDate := Some expiryDate |} ;;;
        lift (DatabaseStorage.createActivity
          {| Activity.activityType := "membership_activated";
             Activity.description :=
               "Membresía " +:+ MembershipPlan.name plan
               +:+ " activada para " +:+ Member.fullName member;
             Activity.timestamp := now;
             Activity.memberId := Some (Payment.memberId newPayment);
             Activity.userId := Payment.verifiedById newPayment |}) ;;;
        pure inserted
      else pure inserted
  | _, _ => pure inserted
  end.

Definition rejectPayment (now id adminId : Z) (notes : option (option string))
    : E (option Payment.t) :=
  updatedPayment <-
    updatePaymentsWhereId id (Payment.settle "rejected" adminId now notes) ;;
  match updatedPayment with
  | Some updated =>
      member <- lift (DatabaseStorage.getMember (Payment.memberId updated)) ;;
      admin <- lift (DatabaseStorage.getUser adminId) ;;
      match member, admin with
      | Some member, Some admin =>
          lift (DatabaseStorage.createActivity
            {| Activity.memberId := Some (Payment.memberId updated);
               Activity.activityType := "payment_rejected";
               Activity.description :=
                 "Pago de " +:+ Member.fullName member
                 +:+ " fue rechazado por " +:+ User.name admin;
               Activity.timestamp := now;
               Activity.userId := Some adminId |}) ;;;
          pure updatedPayment
      | _, _ => pure updatedPayment
      end
  | None => pure updatedPayment
  end.

(** [deleteMember]: the entry is logged before the row is deleted, so it
    stays when the engine refuses the delete. *)
Definition deleteMember (now id : Z) : E bool :=
  member <- lift (DatabaseStorage.getMember id) ;;
  match member with
  | Some member =>
      lift (DatabaseStorage.createActivity
        {| Activity.memberId := None;
           Activity.activityType := "member_deleted";
           Activity.description :=
             "Member deleted: " +:+ Member.fullName member;
           Activity.timestamp := now;
           Activity.userId := None |})
  | None => pure tt
  end ;;;
  deleteMembersWhereId id ;;;
  pure true.

End Postgres.

(** ** The two admin routes over the storage

    [POST /api/payments/:id/verify] and [POST /api/payments/:id/reject]:
    the storage call, then 404 with a message when it returned nothing and
    the payment as JSON (status 200) otherwise. *)
Module Routes.
Local Open Scope store_scope.

Inductive Response :=
  | Json (status : Z) (payment : Payment.t)
  | Message (status : Z) (message : string).

Definition respond (payment : option Payment.t) : Response :=
  match payment with
  | None => Message 404 "Pago no encontrado"
  | Some p => Json 200 p
  end.

Definition verify (tz now paymentId adminId : Z) : M Response :=
  payment <- DatabaseStorage.verifyPayment tz now paymentId adminId ;;
  ret (respond payment).

Definition reject (now paymentId adminId : Z) (notes : option (option string))
    : M Response :=
  payment <- DatabaseStorage.rejectPayment now paymentId adminId notes ;;
  ret (respond payment).

(** The other routes answer with a status and a JSON body, or with a
    status and a message. *)
Inductive Reply (A : Type) :=
  | Ok (status : Z) (body : A)
  | Fail (status : Z) (message : string).
Arguments Ok {A} status body.
Arguments Fail {A} status message.

(** The body of [POST /api/payments], as the handler reads it: any property
    may be missing. *)
Module PaymentBody.
Record t := mk {
  memberId : option Z;
  planId : option Z;
  amount : option Z;
  paymentMethod : option string;
  paymentDate : option Z;
  status : option string;
  receiptUrl : option string;
  notes : option string;
  verifiedById : option Z;
  verifiedAt : option Z;
}.
End PaymentBody.

(** [!x] is false: the number is there and is not zero, the string is there
    and is not empty. *)
Definition truthyNumber (x : option Z) : option Z :=
  match x with
  | Some n => if n =? 0 then None else Some n
  | None => None
  end.

Definition truthyString (x : option string) : option string :=
  match x with
  | Some v => if String.eqb v "" then None else Some v
  | None => None
  end.

(** [try { const x = await call; ... } catch (error) { ... }]: the handler
    answers when the storage call throws. *)
Definition tryCatch {A B} (call : Postgres.E A) (body : A -> M B)
    (handler : M B) : M B :=
  fun s =>
    match call s with
    | (Postgres.Returned a, s') => body a s'
    | (Postgres.Thrown, s') => handler s'
    end.

(** [POST /api/payments], behind [isAuthenticated]: a request without a
    session is answered 401 before the handler runs.  The handler checks
    the four required properties, sets the payment date to the current
    instant and hands the rest of the body to [createPayment] as it came;
    its [catch] answers 500.  [paymentData] is a body with the properties
    of an [InsertPayment] and no others. *)
Definition postPayment (authenticated : bool) (tz now : Z)
    (paymentData : PaymentBody.t) : M (Reply (Z * Payment.t)) :=
  if negb authenticated then ret (Fail 401 "No autorizado")
  else
    match truthyNumber (PaymentBody.memberId paymentData),
          truthyNumber (PaymentBody.planId paymentData),
          truthyNumber (PaymentBody.amount paymentData),
          truthyString (PaymentBody.paymentMethod paymentData) with
    | Some memberId, Some planId, Some amount, Some paymentMethod =>
        let paymentDate := now in
        tryCatch
          (Postgres.createPayment tz now
             {| InsertPayment.memberId := memberId;
                InsertPayment.amount := amount;
                InsertPayment.paymentDate := Some paymentDate;
                InsertPayment.paymentMethod := paymentMethod;
                InsertPayment.planId := planId;
                InsertPayment.status := PaymentBody.status paymentData;
                InsertPayment.receiptUrl := PaymentBody.receiptUrl paymentData;
                InsertPayment.notes := PaymentBody.notes paymentData;
                InsertPayment.verifiedById :=
                  PaymentBody.verifiedById paymentData;
                InsertPayment.verifiedAt := PaymentBody.verifiedAt paymentData |})
          (fun payment => ret (Ok 201 payment))
          (ret (Fail 500 "Error interno del servidor"))
    | _, _, _, _ => ret (Fail 400 "Datos de pago incompletos")
    end.

(** [await Promise.all(xs.map(async x => f(x)))] *)
Fixpoint mapAll {A B} (xs : list A) (f : A -> M B) : M (list B) :=
  match xs with
  | [] => ret []
  | x :: rest =>
      y <- f x ;;
      ys <- mapAll rest f ;;
      ret (y :: ys)
  end.

(** A payment with the name of its plan. *)
Definition withPlanName (row : Z * Payment.t) : M (Z * Payment.t * string) :=
  plan <- DatabaseStorage.getMembershipPlan (Payment.planId (snd row)) ;;
  ret (row, match plan with
            | Some plan => MembershipPlan.name plan
            | None => "Plan desconocido"
            end).

(** The pending payments of the member with this e-mail, if there is one:
    the lookup both branches of [GET /api/user/pending-payments] make. *)
Definition pendingPaymentsOf (email : string)
    : M (option (list (Z * Payment.t * string))) :=
  member <- DatabaseStorage.getMemberByEmail email ;;
  match member with
  | Some member =>
      payments <- DatabaseStorage.getPaymentsByMember (fst member) ;;
      let pendingPayments :=
        List.filter (fun row => DatabaseStorage.isPending (snd row)) payments in
      enriched <- mapAll pendingPayments withPlanName ;;
      ret (Some enriched)
  | None => ret None
  end.

(** [GET /api/user/pending-payments]: [user] is the logged-in user, if any,
    and [email] the query parameter, if given. *)
Definition userPendingPayments (user : option User.t) (email : option string)
    : M (Reply (list (Z * Payment.t * string))) :=
  match user with
  | Some user =>
      found <- pendingPaymentsOf (User.email user) ;;
      match found with
      | Some enriched => ret (Ok 200 enriched)
      | None => ret (Ok 200 [])
      end
  | None =>
      match truthyString email with
      | Some email =>
          found <- pendingPaymentsOf email ;;
          match found with
          | Some enriched => ret (Ok 200 enriched)
          | None => ret (Ok 200 [])
          end
      | None => ret (Ok 200 [])
      end
  end.

(** [POST /api/make-admin/:username] *)
Definition makeAdmin (now : Z) (username : string)
    : M (Reply (string * option User.t)) :=
  user <- DatabaseStorage.getUserByUsername username ;;
  match user with
  | None => ret (Fail 404 "Usuario no encontrado")
  | Some user =>
      updatedUser <-
        DatabaseStorage.updateUser (fst user)
          {| UserPatch.setUsername := None; UserPatch.setPassword := None;
             UserPatch.setName := None; UserPatch.setRole := Some "admin";
             UserPatch.setEmail := None |} ;;
      DatabaseStorage.createActivity
        {| Activity.description :=
             "Usuario " +:+ username +:+ " promovido a administrador";
           Activity.activityType := "admin_action";
           Activity.timestamp := now;
           Activity.memberId := None;
           Activity.userId := None |} ;;;
      ret (Ok 200 ("Usuario " +:+ username +:+ " ahora es administrador",
                   updatedUser))
  end.

(** [DELETE /api/members/:id]; the [catch] answers 500. *)
Definition deleteMember (now id : Z) : M (Reply unit) :=
  tryCatch (Postgres.deleteMember now id)
    (fun result =>
       if negb result then ret (Fail 404 "Member not found")
       else ret (Ok 204 tt))
    (ret (Fail 500 "Failed to delete member")).

End Routes.

(** ** What the operations leave behind

    The rows, log entries and stores that the equations below show the
    operations to produce, and two notions the properties are stated with:
    when a member is due for the sweep, and how many log entries of a type
    carry a member. *)
Module Outcome.
Import JSDate.

(** The store left by [verifyPayment] when the payment, its member, its
    plan and the verifying user are all found. *)
Definition verifiedStore (tz now id adminId : Z) (payment : Payment.t)
    (member : Member.t) (admin : User.t) (plan : MembershipPlan.t)
    (s : Store) : Store :=
  let member' :=
    Member.merge member
      {| Member.setStatus := Some "active";
         Member.setPlanId := Some (Payment.planId payment);
         Member.setExpiryDate :=
           Some (DatabaseStorage.verifyDurationSwitch tz plan
                   (DatabaseStorage.verifyBaseDate member now)) |} in
  {| users := users s;
     membershipPlans := membershipPlans s;
     members := <[Payment.memberId payment := member']> (members s);
     payments :=
       <[id := Payment.settle "verified" adminId now None payment]> (payments s);
     activities :=
       activities s ++
       [ {| Activity.userId := Some adminId;
            Activity.memberId := Some (Payment.memberId payment);
            Activity.activityType := "payment_verified";
            Activity.description :=
              "Pago de " +:+ Member.fullName member +:+ " por "
              +:+ MembershipPlan.name plan +:+ " verificado por "
              +:+ User.name admin;
            Activity.timestamp := now |};
         {| Activity.userId := None;
            Activity.memberId := Some (Payment.memberId payment);
            Activity.activityType := "member_updated";
            Activity.description :=
              "Member updated: " +:+ Member.fullName member';
            Activity.timestamp := now |};
         {| Activity.userId := Some adminId;
            Activity.memberId := Some (Payment.memberId payment);
            Activity.activityType := "membership_activated";
            Activity.description :=
              "Membresía " +:+ MembershipPlan.name plan
              +:+ " activada para " +:+ Member.fullName member;
            Activity.timestamp := now |} ];
     paymentIdCounter := paymentIdCounter s |}.

(** The store left by [MemStorage.verifyPayment] when the payment, its
    member, its plan and the verifying user are all found. *)
Definition memVerifiedStore (tz now id adminId : Z) (payment : Payment.t)
    (member : Member.t) (admin : User.t) (plan : MembershipPlan.t)
    (s : Store) : Store :=
  let member' :=
    Member.merge member
      {| Member.setStatus := Some "active";
         Member.setPlanId := None;
         Member.setExpiryDate :=
           Some (DatabaseStorage.verifyDurationSwitch tz plan
                   (DatabaseStorage.verifyBaseDate member now)) |} in
  {| users := users s;
     membershipPlans := membershipPlans s;
     members := <[Payment.memberId payment := member']> (members s);
     payments :=
       <[id := Payment.settle "verified" adminId now None payment]> (payments s);
     activities :=
       activities s ++
       [ {| Activity.userId := Some adminId;
            Activity.memberId := Some (Payment.memberId payment);
            Activity.activityType := "payment_verified";
            Activity.description :=
              "Pago de " +:+ Member.fullName member +:+ " por "
              +:+ MembershipPlan.name plan +:+ " verificado por "
              +:+ User.name admin;
            Activity.timestamp := now |};
         {| Activity.userId := None;
            Activity.memberId := Some (Payment.memberId payment);
            Activity.activityType := "member_updated";
            Activity.description :=
              "Member updated: " +:+ Member.fullName member';
            Activity.timestamp := now |} ];
     paymentIdCounter := paymentIdCounter s |}.

(** The row [createPayment] inserts. *)
Definition insertedPayment (now : Z) (paymentData : InsertPayment.t) : Payment.t :=
  let status := DatabaseStorage.resolveStatus (InsertPayment.status paymentData) in
  {| Payment.memberId := InsertPayment.memberId paymentData;
     Payment.amount := InsertPayment.amount paymentData;
     Payment.paymentDate :=
       Some match InsertPayment.paymentDate paymentData with
            | Some d => d
            | None => now
            end;
     Payment.paymentMethod := InsertPayment.paymentMethod paymentData;
     Payment.planId := InsertPayment.planId paymentData;
     Payment.status := Some status;
     Payment.receiptUrl := InsertPayment.receiptUrl paymentData;
     Payment.notes := InsertPayment.notes paymentData;
     Payment.verifiedById :=
       if String.eqb status "verified" then
         match InsertPayment.verifiedById paymentData with
         | Some v => if v =? 0 then None else Some v
         | None => None
         end
       else None;
     Payment.verifiedAt :=
       if String.eqb status "verified" then Some now else None |}.

Definition paymentCreatedActivity (now : Z) (paymentData : InsertPayment.t)
    (member : Member.t) (plan : MembershipPlan.t) : Activity.t :=
  {| Activity.userId := None;
     Activity.memberId := Some (InsertPayment.memberId paymentData);
     Activity.activityType := "payment_created";
     Activity.description :=
       Member.fullName member +:+ " registró un pago de "
       +:+ toFixed2 (InsertPayment.amount paymentData) +:+ " soles por "
       +:+ MembershipPlan.name plan;
     Activity.timestamp := now |}.

(** The expiry date [createPayment] writes for a verified payment. *)
Definition createExpiry (tz now : Z) (paymentData : InsertPayment.t)
    (plan : MembershipPlan.t) : Z :=
  let paymentDate :=
    match InsertPayment.paymentDate paymentData with
    | Some d => d
    | None => now
    end in
  let expiryDate := DatabaseStorage.createDurationSwitch tz plan paymentDate in
  setDate tz expiryDate (getDate tz expiryDate + 1).

(** The store left by [createPayment] when the status resolves to
    ['verified'] and the member and the plan are found. *)
Definition createdVerifiedStore (tz now : Z) (paymentData : InsertPayment.t)
    (member : Member.t) (plan : MembershipPlan.t) (s : Store) : Store :=
  {| users := users s;
     membershipPlans := membershipPlans s;
     members :=
       <[InsertPayment.memberId paymentData :=
           Member.merge member
             {| Member.setStatus := Some "active";
                Member.setPlanId := Some (InsertPayment.planId paymentData);
                Member.setExpiryDate :=
                  Some (createExpiry tz now paymentData plan) |}]> (members s);
     payments :=
       <[paymentIdCounter s := insertedPayment now paymentData]> (payments s);
     activities :=
       activities s ++
       [ paymentCreatedActivity now paymentData member plan;
         {| Activity.userId :=
              Payment.verifiedById (insertedPayment now paymentData);
            Activity.memberId := Some (InsertPayment.memberId paymentData);
            Activity.activityType := "membership_activated";
            Activity.description :=
              "Membresía " +:+ MembershipPlan.name plan
              +:+ " activada para " +:+ Member.fullName member;
            Activity.timestamp := now |} ];
     paymentIdCounter := paymentIdCounter s + 1 |}.

Definition paymentRejectedActivity (now adminId : Z) (payment : Payment.t)
    (member : Member.t) (admin : User.t) : Activity.t :=
  {| Activity.userId := Some adminId;
     Activity.memberId := Some (Payment.memberId payment);
     Activity.activityType := "payment_rejected";
     Activity.description :=
       "Pago de " +:+ Member.fullName member
       +:+ " fue rechazado por " +:+ User.name admin;
     Activity.timestamp := now |}.

Definition expiredPatch : Member.patch :=
  {| Member.setStatus := Some "expired";
     Member.setPlanId := None;
     Member.setExpiryDate := None |}.

Definition sweepBody (now : Z) (row : Z * Member.t) : M unit :=
  bind (DatabaseStorage.updateMembersWhereId (fst row) expiredPatch)
       (fun _ => DatabaseStorage.createActivity
                   (DatabaseStorage.expiredActivity now row)).

(** Entries of the log of type [ty] that carry member [id]. *)
Definition entriesFor (ty : string) (id : Z) (log : list Activity.t) : nat :=
  length (List.filter
            (fun a => String.eqb (Activity.activityType a) ty
                      && match Activity.memberId a with
                         | Some j => j =? id
                         | None => false
                         end) log).

(** The store left by [Postgres.verifyPayment] when the payment, its member,
    its plan and the verifying user are all found: that of [verifiedStore]
    with the member's expiry date kept as a date. *)
Definition datedVerifiedStore (tz now id adminId : Z) (payment : Payment.t)
    (member : Member.t) (admin : User.t) (plan : MembershipPlan.t)
    (s : Store) : Store :=
  withMembers
    (insert (Payment.memberId payment)
       (Member.merge member
          {| Member.setStatus := Some "active";
             Member.setPlanId := Some (Payment.planId payment);
             Member.setExpiryDate :=
               Some (Postgres.dateColumn
                       (DatabaseStorage.verifyDurationSwitch tz plan
                          (DatabaseStorage.verifyBaseDate member now))) |}))
    (verifiedStore tz now id adminId payment member admin plan s).

(** The store left by [Postgres.createPayment] when the row is accepted, the
    status resolves to ['verified'] and the member and the plan are found. *)
Definition datedCreatedStore (tz now : Z) (paymentData : InsertPayment.t)
    (member : Member.t) (plan : MembershipPlan.t) (s : Store) : Store :=
  withMembers
    (insert (InsertPayment.memberId paymentData)
       (Member.merge member
          {| Member.setStatus := Some "active";
             Member.setPlanId := Some (InsertPayment.planId paymentData);
             Member.setExpiryDate :=
               Some (Postgres.dateColumn
                       (createExpiry tz now paymentData plan)) |}))
    (createdVerifiedStore tz now paymentData member plan s).

(** A member is due when it is active and its expiry date lies before
    [today]. *)
Definition due (today : Z) (m : Member.t) : Prop :=
  Member.status m = Some "active"
  /\ exists e, Member.expiryDate m = Some e /\ e < today.

(** Every stored payment has an id below the next id to be given out. *)
Definition idsBelowCounter (s : Store) : Prop :=
  forall id p, payments s !! id = Some p -> id < paymentIdCounter s.

(** From [s] to [s']: the log has only been appended to, the users and the
    plans are the same, no payment has gone, and no payment that was there
    has changed its member, plan, amount or payment date. *)
Definition grows (s s' : Store) : Prop :=
  (exists new, activities s' = activities s ++ new)
  /\ users s' = users s
  /\ membershipPlans s' = membershipPlans s
  /\ paymentIdCounter s <= paymentIdCounter s'
  /\ (forall id p, payments s !! id = Some p ->
        exists p', payments s' !! id = Some p'
                   /\ Payment.memberId p' = Payment.memberId p
                   /\ Payment.planId p' = Payment.planId p
                   /\ Payment.amount p' = Payment.amount p
                   /\ Payment.paymentDate p' = Payment.paymentDate p).

(** The log is extended by at most [n] entries and the users, and the
    plans are as they were. *)
Definition appendsAtMost (n : nat) (s s' : Store) : Prop :=
  (exists new, activities s' = activities s ++ new /\ (length new <= n)%nat)
  /\ users s' = users s
  /\ membershipPlans s' = membershipPlans s.

(** A member as the sweep for [today] leaves it. *)
Definition swept (today : Z) (m : Member.t) : Member.t :=
  if DatabaseStorage.toUpdate today m then DatabaseStorage.markExpired m else m.

(** The plan name shown with a payment. *)
Definition planNameOf (s : Store) (payment : Payment.t) : string :=
  match membershipPlans s !! Payment.planId payment with
  | Some plan => MembershipPlan.name plan
  | None => "Plan desconocido"
  end.

(** The pending payments of member [memberId], each with its plan name. *)
Definition pendingRowsOf (s : Store) (memberId : Z)
    : list (Z * Payment.t * string) :=
  List.map (fun row => (row, planNameOf s (snd row)))
    (List.filter (fun row => DatabaseStorage.isPending (snd row))
       (List.filter (fun row => Payment.memberId (snd row) =? memberId)
          (map_to_list (payments s)))).

End Outcome.

(** The membership extension as the specification words it, one rule for
    both call sites: the effective duration is [plan.duration] when positive
    and 1 otherwise; daily/day add that many days, weekly/week seven times as
    many, monthly/month that many calendar months, yearly/year/annual that
    many calendar years, and any other type that many days. *)
Module SpecWords.
Import JSDate.

Definition effectiveDuration (plan : MembershipPlan.t) : Z :=
  if 0 <? MembershipPlan.duration plan then MembershipPlan.duration plan else 1.

Definition oneOf (ty : string) (names : list string) : bool :=
  existsb (String.eqb ty) names.

Definition advance (tz : Z) (plan : MembershipPlan.t) (baseDate : Z) : Z :=
  let duration := effectiveDuration plan in
  let ty := MembershipPlan.durationType plan in
  if oneOf ty ["daily"; "day"] then baseDate + duration * msPerDay
  else if oneOf ty ["weekly"; "week"] then baseDate + duration * 7 * msPerDay
  else if oneOf ty ["monthly"; "month"] then
    setMonth tz baseDate (getMonth tz baseDate + duration)
  else if oneOf ty ["yearly"; "year"; "annual"] then
    setFullYear tz baseDate (getFullYear tz baseDate + duration)
  else baseDate + duration * msPerDay.

End SpecWords.

(** ** A small store used to exercise the operations

    Plans 1 to 5 are those [seedMembershipPlans] creates; the dates are
    UTC. *)
Module Fixture.
Import JSDate.

Definition admin : User.t :=
  {| User.username := "admin"; User.password := "x"; User.name := "Admin";
     User.role := "admin"; User.email := "admin@gym.pe" |}.

Definition plan (name : string) (price duration : Z) (durationType : string)
    : MembershipPlan.t :=
  {| MembershipPlan.name := name; MembershipPlan.description := name;
     MembershipPlan.price := price; MembershipPlan.duration := duration;
     MembershipPlan.durationType := durationType;
     MembershipPlan.features := []; MembershipPlan.isActive := true |}.

Definition diario := plan "Diario" 600 1 "daily".
Definition semanal := plan "Semanal" 3000 1 "weekly".
Definition mensual := plan "Mensual" 7000 1 "monthly".
Definition trimestral := plan "Trimestral" 18000 3 "monthly".
Definition anual := plan "Anual" 65000 1 "yearly".
(** A plan that names its unit in the short form. *)
Definition mes := plan "Mes" 7000 1 "month".

Definition member (first last : string) (status : option string)
    (planId expiryDate : option Z) : Member.t :=
  {| Member.firstName := first; Member.lastName := last;
     Member.email := first; Member.phone := None; Member.address := None;
     Member.joinDate := civil 2023 12 1 0; Member.planId := planId;
     Member.status := status; Member.avatarUrl := None;
     Member.emergencyContact := None; Member.emergencyPhone := None;
     Member.notes := None; Member.expiryDate := expiryDate |}.

(** Active, expired since 10 January 2024. *)
Definition ana := member "Ana" "Rojas" (Some "active") (Some 3) (Some (civil 2024 1 10 0)).
(** Awaiting the verification of a first payment. *)
Definition luis := member "Luis" "Paz" (Some "pending") None None.
(** Active, expiring at 08:00 on 15 January 2024. *)
Definition eva := member "Eva" "Luna" (Some "active") (Some 3) (Some (civil 2024 1 15 28800000)).

Definition pendingPayment (memberId planId : Z) : Payment.t :=
  {| Payment.memberId := memberId; Payment.amount := 7000;
     Payment.paymentDate := Some (civil 2024 1 14 0);
     Payment.paymentMethod := "Yape"; Payment.planId := planId;
     Payment.status := Some "pending"; Payment.receiptUrl := None;
     Payment.notes := Some "comprobante"; Payment.verifiedById := None;
     Payment.verifiedAt := None |}.

Definition store : Store :=
  {| users := {[ 1 := admin ]};
     membershipPlans :=
       <[1 := diario]> (<[2 := semanal]> (<[3 := mensual]>
         (<[4 := trimestral]> (<[5 := anual]> (<[6 := mes]> ∅)))));
     members := <[1 := ana]> (<[2 := luis]> (<[3 := eva]> ∅));
     payments := <[1 := pendingPayment 2 3]> (<[2 := pendingPayment 2 6]> ∅);
     activities := [];
     paymentIdCounter := 3 |}.

(** 10:00 on 15 January 2024. *)
Definition now : Z := civil 2024 1 15 36000000.

End Fixture.

(** ** Facts of the calendar arithmetic *)
Module JSDateFacts.
Import JSDate.

(** Linear arithmetic with division and remainder by constants. *)
Ltac zdiv := Z.to_euclidean_division_equations; lia.

Ltac case_eqb :=
  repeat match goal with
         | |- context [?a =? ?b] => destruct (Z.eqb_spec a b); simpl
         end.

Lemma DayFromYear_succ y : DayFromYear (y + 1) = DayFromYear y + DaysInYear y.
Proof.
  unfold DayFromYear, DaysInYear. case_eqb; zdiv.
Qed.

Lemma DaysInYear_range y : 365 <= DaysInYear y <= 366.
Proof.
  unfold DaysInYear. case_eqb; lia.
Qed.

Lemma YearFromDay_spec d :
  DayFromYear (YearFromDay d) <= d < DayFromYear (YearFromDay d + 1).
Proof.
  unfold YearFromDay.
  set (y := 1970 + 400 * d / 146097).
  assert (Hy : 146097 * (y - 1970) <= 400 * d < 146097 * (y - 1970) + 146097)
    by (subst y; zdiv).
  clearbody y.
  destruct (Z.ltb_spec d (DayFromYear y)) as [Hlt | Hge].
  - replace (y - 1 + 1) with y by lia. split; [| lia].
    unfold DayFromYear in *. zdiv.
  - destruct (Z.leb_spec (DayFromYear (y + 1)) d) as [Hle | Hgt].
    + split; [lia |]. unfold DayFromYear in *. zdiv.
    + lia.
Qed.

Lemma DayWithinYear_range t :
  0 <= DayWithinYear t < DaysInYear (YearFromTime t).
Proof.
  unfold DayWithinYear, YearFromTime.
  pose proof (YearFromDay_spec (Day t)) as H.
  rewrite DayFromYear_succ in H. lia.
Qed.

Lemma MonthFromTime_range t : 0 <= MonthFromTime t <= 11.
Proof.
  unfold MonthFromTime.
  repeat match goal with
         | |- context [?a <? ?b] => destruct (Z.ltb_spec a b)
         end; lia.
Qed.

Lemma MakeDay_in_year y m dt :
  0 <= m <= 11 ->
  MakeDay y m dt = DayFromYear y + monthOffset m (DaysInYear y - 365) + dt - 1.
Proof.
  intros Hm. unfold MakeDay.
  rewrite Z.div_small, Z.mod_small, Z.add_0_r by lia. reflexivity.
Qed.

(** The year, month and day of month read from a time value name its day. *)
Lemma MakeDay_fields t :
  MakeDay (YearFromTime t) (MonthFromTime t) (DateFromTime t) = Day t.
Proof.
  rewrite MakeDay_in_year by apply MonthFromTime_range.
  pose proof (DayWithinYear_range t) as Hd.
  pose proof (DaysInYear_range (YearFromTime t)) as Hy.
  assert (Hday : Day t = DayFromYear (YearFromTime t) + DayWithinYear t)
    by (unfold DayWithinYear; lia).
  unfold DateFromTime, MonthFromTime, InLeapYear.
  repeat match goal with
         | |- context [?a <? ?b] => destruct (Z.ltb_spec a b)
         end; cbv beta iota delta [monthOffset]; lia.
Qed.

Lemma MakeDay_date_add y m dt n : MakeDay y m (dt + n) = MakeDay y m dt + n.
Proof. unfold MakeDay. lia. Qed.

Lemma MakeDate_Day t : MakeDate (Day t) (TimeWithinDay t) = t.
Proof.
  unfold MakeDate, Day, TimeWithinDay.
  pose proof (Z.div_mod t msPerDay) as H. unfold msPerDay in *. lia.
Qed.

(** [d.setDate(d.getDate() + n)] moves the time value by [n] whole days. *)
Lemma setDate_getDate_add tz t n :
  setDate tz t (getDate tz t + n) = t + n * msPerDay.
Proof.
  unfold setDate, getDate. cbv zeta.
  rewrite MakeDay_date_add, MakeDay_fields.
  pose proof (MakeDate_Day (LocalTime tz t)) as H.
  unfold MakeDate, UTC, LocalTime in *. lia.
Qed.

Lemma MakeDay_monthStart y m dt :
  MakeDay y m dt = monthStart (12 * y + m) + dt - 1.
Proof.
  unfold MakeDay, monthStart.
  replace ((12 * y + m) / 12) with (y + m / 12) by zdiv.
  replace ((12 * y + m) mod 12) with (m mod 12) by zdiv.
  reflexivity.
Qed.

Lemma monthOffset_succ r leap :
  0 <= r < 11 -> 0 <= leap <= 1 ->
  monthOffset r leap + 28 <= monthOffset (r + 1) leap <= monthOffset r leap + 31.
Proof.
  intros Hr Hl.
  assert (Hc : r = 0 \/ r = 1 \/ r = 2 \/ r = 3 \/ r = 4 \/ r = 5 \/ r = 6
               \/ r = 7 \/ r = 8 \/ r = 9 \/ r = 10) by lia.
  repeat destruct Hc as [Hc | Hc]; subst r; simpl; lia.
Qed.

Lemma monthStart_succ k : monthStart k + 28 <= monthStart (k + 1) <= monthStart k + 31.
Proof.
  unfold monthStart.
  pose proof (DaysInYear_range (k / 12)) as Hy.
  assert (Hr : 0 <= k mod 12 < 12) by (apply Z.mod_pos_bound; lia).
  destruct (Z.eq_dec (k mod 12) 11) as [H11 | H11].
  - replace ((k + 1) / 12) with (k / 12 + 1) by zdiv.
    replace ((k + 1) mod 12) with 0 by zdiv.
    rewrite DayFromYear_succ, H11. cbv beta iota delta [monthOffset]. lia.
  - replace ((k + 1) / 12) with (k / 12) by zdiv.
    replace ((k + 1) mod 12) with (k mod 12 + 1) by zdiv.
    pose proof (monthOffset_succ (k mod 12) (DaysInYear (k / 12) - 365)
                  ltac:(lia) ltac:(lia)).
    lia.
Qed.

Lemma monthStart_add k n :
  0 <= n -> monthStart k + 28 * n <= monthStart (k + n) <= monthStart k + 31 * n.
Proof.
  intros Hn. pattern n. apply natlike_ind; [| | exact Hn].
  - replace (k + 0) with k by lia. lia.
  - intros m Hm IH. replace (k + Z.succ m) with (k + m + 1) by lia.
    pose proof (monthStart_succ (k + m)). lia.
Qed.

Lemma DayFromYear_add y n :
  0 <= n -> DayFromYear y + 365 * n <= DayFromYear (y + n) <= DayFromYear y + 366 * n.
Proof.
  intros Hn. pattern n. apply natlike_ind; [| | exact Hn].
  - replace (y + 0) with y by lia. lia.
  - intros m Hm IH. replace (y + Z.succ m) with (y + m + 1) by lia.
    rewrite DayFromYear_succ. pose proof (DaysInYear_range (y + m)). lia.
Qed.

Lemma monthOffset_leap m l1 l2 :
  0 <= l1 <= 1 -> 0 <= l2 <= 1 ->
  monthOffset m l1 - 1 <= monthOffset m l2 <= monthOffset m l1 + 1.
Proof.
  intros H1 H2. unfold monthOffset.
  repeat match goal with
         | |- context [match ?x with _ => _ end] => destruct x
         end; lia.
Qed.

(** [d.setMonth(d.getMonth() + n)] with [n >= 0] moves the time value forward
    by 28 to 31 days for each month. *)
Lemma setMonth_getMonth_add tz t n :
  0 <= n ->
  t + 28 * n * msPerDay <= setMonth tz t (getMonth tz t + n)
  <= t + 31 * n * msPerDay.
Proof.
  intros Hn. unfold setMonth, getMonth. cbv zeta.
  set (lt := LocalTime tz t).
  pose proof (MakeDay_fields lt) as Hf. rewrite MakeDay_monthStart in Hf.
  rewrite MakeDay_monthStart, Z.add_assoc.
  pose proof (monthStart_add (12 * YearFromTime lt + MonthFromTime lt) n Hn).
  pose proof (MakeDate_Day lt) as Hd.
  unfold MakeDate, UTC in *. subst lt. unfold LocalTime in *.
  unfold msPerDay in *. lia.
Qed.

(** [d.setFullYear(d.getFullYear() + n)] with [n >= 0] moves the time value
    forward by 365 to 366 days for each year, give or take the leap day of
    the first or the last year. *)
Lemma setFullYear_getFullYear_add tz t n :
  0 <= n ->
  t + (365 * n - 1) * msPerDay <= setFullYear tz t (getFullYear tz t + n)
  <= t + (366 * n + 1) * msPerDay.
Proof.
  intros Hn. unfold setFullYear, getFullYear. cbv zeta.
  set (lt := LocalTime tz t).
  pose proof (MakeDay_fields lt) as Hf.
  pose proof (MonthFromTime_range lt) as Hm.
  rewrite MakeDay_in_year in Hf by exact Hm.
  rewrite MakeDay_in_year by exact Hm.
  pose proof (DayFromYear_add (YearFromTime lt) n Hn).
  pose proof (DaysInYear_range (YearFromTime lt)).
  pose proof (DaysInYear_range (YearFromTime lt + n)).
  pose proof (monthOffset_leap (MonthFromTime lt)
                (DaysInYear (YearFromTime lt) - 365)
                (DaysInYear (YearFromTime lt + n) - 365) ltac:(lia) ltac:(lia)).
  pose proof (MakeDate_Day lt) as Hd.
  unfold MakeDate, UTC in *. subst lt. unfold LocalTime in *.
  unfold msPerDay in *. lia.
Qed.

Lemma setHoursZero_le tz t : setHoursZero tz t <= t < setHoursZero tz t + msPerDay.
Proof.
  unfold setHoursZero, MakeDate, UTC, LocalTime, Day, msPerDay. zdiv.
Qed.

End JSDateFacts.

(** ** What the operations compute, as equations on the store *)
Module StorageFacts.
Import JSDate JSDateFacts Outcome.

Lemma merge_idemp m p : Member.merge (Member.merge m p) p = Member.merge m p.
Proof.
  destruct m, p as [st pl ex]. unfold Member.merge. simpl.
  destruct st, pl, ex; reflexivity.
Qed.

Lemma updateMembersWhereId_members id data s :
  members (after (DatabaseStorage.updateMembersWhereId id data) s)
  = alter (fun m => Member.merge m data) id (members s).
Proof.
  unfold after, DatabaseStorage.updateMembersWhereId.
  destruct (members s !! id) as [m |] eqn:Hm; simpl.
  - apply map_eq. intros j. rewrite lookup_alter, lookup_insert.
    destruct (decide (id = j)) as [-> |]; [rewrite Hm |]; reflexivity.
  - apply map_eq. intros j. rewrite lookup_alter.
    destruct (decide (id = j)) as [-> |]; [rewrite Hm |]; reflexivity.
Qed.

Lemma updateMembersWhereId_frame id data s :
  let s' := after (DatabaseStorage.updateMembersWhereId id data) s in
  users s' = users s /\ membershipPlans s' = membershipPlans s
  /\ payments s' = payments s /\ activities s' = activities s
  /\ paymentIdCounter s' = paymentIdCounter s.
Proof.
  unfold after, DatabaseStorage.updateMembersWhereId.
  destruct (members s !! id); simpl; auto.
Qed.

Lemma verifyPayment_found tz now id adminId payment member admin plan s :
  payments s !! id = Some payment ->
  members s !! Payment.memberId payment = Some member ->
  users s !! adminId = Some admin ->
  membershipPlans s !! Payment.planId payment = Some plan ->
  DatabaseStorage.verifyPayment tz now id adminId s
  = (Some (Payment.settle "verified" adminId now None payment),
     verifiedStore tz now id adminId payment member admin plan s).
Proof.
  intros Hpay Hmem Hadm Hplan.
  unfold DatabaseStorage.verifyPayment, DatabaseStorage.updateMember,
    DatabaseStorage.updatePaymentsWhereId, DatabaseStorage.updateMembersWhereId,
    DatabaseStorage.getPayment, DatabaseStorage.getMember,
    DatabaseStorage.getUser, DatabaseStorage.getMembershipPlan,
    DatabaseStorage.createActivity, bind, gets, modify, ret.
  repeat (progress (cbn; rewrite ?Hpay, ?Hmem, ?Hadm, ?Hplan)).
  unfold verifiedStore, withActivities, withMembers, withPayments. cbn.
  repeat rewrite <- app_assoc. reflexivity.
Qed.

Lemma verifyPayment_partial tz now id adminId payment s :
  payments s !! id = Some payment ->
  members s !! Payment.memberId payment = None
  \/ users s !! adminId = None
  \/ membershipPlans s !! Payment.planId payment = None ->
  DatabaseStorage.verifyPayment tz now id adminId s
  = (Some (Payment.settle "verified" adminId now None payment),
     withPayments
       (insert id (Payment.settle "verified" adminId now None payment)) s).
Proof.
  intros Hpay Hmiss.
  unfold DatabaseStorage.verifyPayment, DatabaseStorage.updatePaymentsWhereId,
    DatabaseStorage.getPayment, DatabaseStorage.getMember,
    DatabaseStorage.getUser, DatabaseStorage.getMembershipPlan,
    bind, gets, ret.
  repeat (progress (cbn; rewrite ?Hpay)).
  destruct (members s !! Payment.memberId payment) as [m |] eqn:Hm;
    destruct (users s !! adminId) as [a |] eqn:Ha;
    destruct (membershipPlans s !! Payment.planId payment) as [pl |] eqn:Hpl;
    try reflexivity.
  destruct Hmiss as [H | [H | H]]; discriminate H.
Qed.

Lemma verifyPayment_missing tz now id adminId s :
  payments s !! id = None ->
  DatabaseStorage.verifyPayment tz now id adminId s = (None, s).
Proof.
  intros Hpay.
  unfold DatabaseStorage.verifyPayment, DatabaseStorage.getPayment,
    bind, gets, ret.
  cbn. rewrite Hpay. reflexivity.
Qed.

Ltac unfold_db :=
  unfold DatabaseStorage.verifyPayment, DatabaseStorage.createPayment,
    DatabaseStorage.rejectPayment, DatabaseStorage.updateMember,
    DatabaseStorage.updatePaymentsWhereId, DatabaseStorage.updateMembersWhereId,
    DatabaseStorage.insertPayment,
    DatabaseStorage.getPayment, DatabaseStorage.getMember,
    DatabaseStorage.getUser, DatabaseStorage.getMembershipPlan,
    DatabaseStorage.createActivity, bind, gets, modify, ret.

Lemma createPayment_verified tz now paymentData member plan s :
  DatabaseStorage.resolveStatus (InsertPayment.status paymentData) = "verified" ->
  members s !! InsertPayment.memberId paymentData = Some member ->
  membershipPlans s !! InsertPayment.planId paymentData = Some plan ->
  DatabaseStorage.createPayment tz now paymentData s
  = ((paymentIdCounter s, insertedPayment now paymentData),
     createdVerifiedStore tz now paymentData member plan s).
Proof.
  intros Hst Hmem Hplan. unfold_db.
  unfold insertedPayment, createdVerifiedStore, createExpiry,
    paymentCreatedActivity, insertedPayment.
  rewrite Hst.
  repeat (progress (cbn; rewrite ?Hmem, ?Hplan)).
  unfold withActivities, withMembers, withPayments, withPaymentIdCounter. cbn.
  repeat rewrite <- app_assoc. reflexivity.
Qed.

(** When the status does not resolve to ['verified'], [createPayment] writes
    the payment and at most the [payment_created] entry. *)
Lemma createPayment_unverified tz now paymentData s :
  DatabaseStorage.resolveStatus (InsertPayment.status paymentData) <> "verified" ->
  DatabaseStorage.createPayment tz now paymentData s
  = ((paymentIdCounter s, insertedPayment now paymentData),
     {| users := users s;
        membershipPlans := membershipPlans s;
        members := members s;
        payments :=
          <[paymentIdCounter s := insertedPayment now paymentData]> (payments s);
        activities :=
          activities s ++
          match members s !! InsertPayment.memberId paymentData,
                membershipPlans s !! InsertPayment.planId paymentData with
          | Some member, Some plan =>
              [paymentCreatedActivity now paymentData member plan]
          | _, _ => []
          end;
        paymentIdCounter := paymentIdCounter s + 1 |}).
Proof.
  intros Hst. apply String.eqb_neq in Hst. unfold_db.
  unfold insertedPayment, paymentCreatedActivity. rewrite Hst. cbn.
  destruct (members s !! InsertPayment.memberId paymentData) as [m |];
    destruct (membershipPlans s !! InsertPayment.planId paymentData) as [pl |];
    cbn; unfold withActivities, withPayments, withPaymentIdCounter; cbn;
    rewrite ?app_nil_r; reflexivity.
Qed.

Lemma createPayment_stored tz now paymentData s :
  result (DatabaseStorage.createPayment tz now paymentData) s
  = (paymentIdCounter s, insertedPayment now paymentData)
  /\ payments (after (DatabaseStorage.createPayment tz now paymentData) s)
     = <[paymentIdCounter s := insertedPayment now paymentData]> (payments s).
Proof.
  unfold result, after. unfold_db. unfold insertedPayment.
  destruct (members s !! InsertPayment.memberId paymentData) as [m |] eqn:Hm;
    destruct (membershipPlans s !! InsertPayment.planId paymentData)
      as [pl |] eqn:Hpl;
    destruct (String.eqb (DatabaseStorage.resolveStatus
                            (InsertPayment.status paymentData)) "verified");
    repeat (progress (cbn; rewrite ?Hm, ?Hpl)); split; reflexivity.
Qed.

Lemma rejectPayment_found now id adminId notes payment s :
  payments s !! id = Some payment ->
  DatabaseStorage.rejectPayment now id adminId notes s
  = (Some (Payment.settle "rejected" adminId now notes payment),
     {| users := users s;
        membershipPlans := membershipPlans s;
        members := members s;
        payments :=
          <[id := Payment.settle "rejected" adminId now notes payment]>
            (payments s);
        activities :=
          activities s ++
          match members s !! Payment.memberId payment, users s !! adminId with
          | Some member, Some admin =>
              [paymentRejectedActivity now adminId payment member admin]
          | _, _ => []
          end;
        paymentIdCounter := paymentIdCounter s |}).
Proof.
  intros Hpay. unfold_db. unfold paymentRejectedActivity.
  repeat (progress (cbn; rewrite ?Hpay)).
  destruct (members s !! Payment.memberId payment) as [m |];
    destruct (users s !! adminId) as [a |];
    cbn; unfold withActivities, withPayments; cbn;
    rewrite ?app_nil_r; reflexivity.
Qed.

Lemma rejectPayment_missing now id adminId notes s :
  payments s !! id = None ->
  DatabaseStorage.rejectPayment now id adminId notes s = (None, s).
Proof.
  intros Hpay. unfold_db. cbn. rewrite Hpay. reflexivity.
Qed.

(** *** MemStorage *)

Ltac unfold_mem :=
  unfold MemStorage.verifyPayment, MemStorage.createPayment,
    MemStorage.rejectPayment, MemStorage.updateMember,
    MemStorage.getMember, MemStorage.getUser, MemStorage.getMembershipPlan,
    MemStorage.createActivity, bind, gets, modify, ret.

Lemma mem_verifyPayment_found tz now id adminId payment member admin plan s :
  payments s !! id = Some payment ->
  members s !! Payment.memberId payment = Some member ->
  users s !! adminId = Some admin ->
  membershipPlans s !! Payment.planId payment = Some plan ->
  MemStorage.verifyPayment tz now id adminId s
  = (Some (Payment.settle "verified" adminId now None payment),
     memVerifiedStore tz now id adminId payment member admin plan s).
Proof.
  intros Hpay Hmem Hadm Hplan. unfold_mem.
  repeat (progress (cbn; rewrite ?Hpay, ?Hmem, ?Hadm, ?Hplan)).
  unfold memVerifiedStore, withActivities, withMembers, withPayments. cbn.
  repeat rewrite <- app_assoc. reflexivity.
Qed.

Lemma mem_verifyPayment_missing tz now id adminId s :
  payments s !! id = None ->
  MemStorage.verifyPayment tz now id adminId s = (None, s).
Proof.
  intros Hpay. unfold_mem. cbn. rewrite Hpay. reflexivity.
Qed.

Lemma mem_rejectPayment_found now id adminId notes payment s :
  payments s !! id = Some payment ->
  MemStorage.rejectPayment now id adminId notes s
  = (Some (Payment.settle "rejected" adminId now
             (Some match MemStorage.rejectNotes notes with
                   | Some n => Some n
                   | None => Payment.notes payment
                   end) payment),
     {| users := users s;
        membershipPlans := membershipPlans s;
        members := members s;
        payments :=
          <[id := Payment.settle "rejected" adminId now
                    (Some match MemStorage.rejectNotes notes with
                          | Some n => Some n
                          | None => Payment.notes payment
                          end) payment]> (payments s);
        activities :=
          activities s ++
          match members s !! Payment.memberId payment, users s !! adminId with
          | Some member, Some admin =>
              [ {| Activity.userId := Some adminId;
                   Activity.memberId := Some (Payment.memberId payment);
                   Activity.activityType := "payment_rejected";
                   Activity.description :=
                     "Pago de " +:+ Member.fullName member
                     +:+ " rechazado por " +:+ User.name admin
                     +:+ match MemStorage.rejectNotes notes with
                         | Some n => ": " +:+ n
                         | None => ""
                         end;
                   Activity.timestamp := now |} ]
          | _, _ => []
          end;
        paymentIdCounter := paymentIdCounter s |}).
Proof.
  intros Hpay. unfold_mem.
  repeat (progress (cbn; rewrite ?Hpay)).
  destruct (members s !! Payment.memberId payment) as [m |];
    destruct (users s !! adminId) as [a |];
    cbn; unfold withActivities, withPayments; cbn;
    rewrite ?app_nil_r; reflexivity.
Qed.

Lemma mem_rejectPayment_missing now id adminId notes s :
  payments s !! id = None ->
  MemStorage.rejectPayment now id adminId notes s = (None, s).
Proof.
  intros Hpay. unfold_mem. cbn. rewrite Hpay. reflexivity.
Qed.

(** *** Bounds on the duration switches *)

Lemma createDuration_pos plan : 1 <= DatabaseStorage.createDuration plan.
Proof.
  unfold DatabaseStorage.createDuration.
  destruct (Z.ltb_spec 0 (MembershipPlan.duration plan)); lia.
Qed.

(** Whatever the plan, the create switch moves the date at least one day
    forward. *)
Lemma createDurationSwitch_after tz plan baseDate :
  baseDate + msPerDay <= DatabaseStorage.createDurationSwitch tz plan baseDate.
Proof.
  pose proof (createDuration_pos plan) as Hd.
  unfold DatabaseStorage.createDurationSwitch. cbv zeta.
  repeat match goal with
         | |- context [if ?b then _ else _] => destruct b
         end.
  - rewrite setDate_getDate_add. unfold msPerDay. nia.
  - rewrite setDate_getDate_add. unfold msPerDay. nia.
  - pose proof (setMonth_getMonth_add tz baseDate
                  (DatabaseStorage.createDuration plan) ltac:(lia)).
    unfold msPerDay in *. nia.
  - pose proof (setFullYear_getFullYear_add tz baseDate
                  (DatabaseStorage.createDuration plan) ltac:(lia)).
    unfold msPerDay in *. nia.
  - rewrite setDate_getDate_add. unfold msPerDay. nia.
Qed.

(** The expiry [createPayment] writes lies strictly after the payment date,
    for every plan. *)
Lemma createExpiry_after tz now paymentData plan :
  match InsertPayment.paymentDate paymentData with
  | Some d => d
  | None => now
  end < createExpiry tz now paymentData plan.
Proof.
  unfold createExpiry. cbv zeta. rewrite setDate_getDate_add.
  pose proof (createDurationSwitch_after tz plan
                match InsertPayment.paymentDate paymentData with
                | Some d => d
                | None => now
                end).
  unfold msPerDay in *. lia.
Qed.

(** The verify switch leaves the date where it is for every type other than
    [day], [week], [month] and [year]. *)
Lemma verifyDurationSwitch_other tz plan baseDate :
  MembershipPlan.durationType plan <> "day" ->
  MembershipPlan.durationType plan <> "week" ->
  MembershipPlan.durationType plan <> "month" ->
  MembershipPlan.durationType plan <> "year" ->
  DatabaseStorage.verifyDurationSwitch tz plan baseDate = baseDate.
Proof.
  intros H1 H2 H3 H4. apply String.eqb_neq in H1, H2, H3, H4.
  unfold DatabaseStorage.verifyDurationSwitch. cbv zeta.
  rewrite H1, H2, H3, H4. reflexivity.
Qed.

(** For the four types it knows and a positive duration the verify switch
    moves the date forward. *)
Lemma verifyDurationSwitch_after tz plan baseDate :
  0 < MembershipPlan.duration plan ->
  MembershipPlan.durationType plan = "day"
  \/ MembershipPlan.durationType plan = "week"
  \/ MembershipPlan.durationType plan = "month"
  \/ MembershipPlan.durationType plan = "year" ->
  baseDate + MembershipPlan.duration plan * msPerDay
  <= DatabaseStorage.verifyDurationSwitch tz plan baseDate.
Proof.
  intros Hd Hty. unfold DatabaseStorage.verifyDurationSwitch. cbv zeta.
  destruct Hty as [-> | [-> | [-> | ->]]]; cbn.
  - rewrite setDate_getDate_add. lia.
  - rewrite setDate_getDate_add. unfold msPerDay. nia.
  - pose proof (setMonth_getMonth_add tz baseDate
                  (MembershipPlan.duration plan) ltac:(lia)).
    unfold msPerDay in *. nia.
  - pose proof (setFullYear_getFullYear_add tz baseDate
                  (MembershipPlan.duration plan) ltac:(lia)).
    unfold msPerDay in *. nia.
Qed.

(** *** The expiry sweep *)

Lemma after_bind {A B} (c : M A) (k : A -> M B) s :
  after (bind c k) s = after (k (result c s)) (after c s).
Proof. unfold after, result, bind. destruct (c s). reflexivity. Qed.

Lemma result_bind {A B} (c : M A) (k : A -> M B) s :
  result (bind c k) s = result (k (result c s)) (after c s).
Proof. unfold after, result, bind. destruct (c s). reflexivity. Qed.

Lemma forEach_sweep now l s :
  let s' := after (forEach l (sweepBody now)) s in
  members s'
  = foldl (fun ms row => alter DatabaseStorage.markExpired (fst row) ms)
          (members s) l
  /\ activities s'
     = activities s ++ List.map (DatabaseStorage.expiredActivity now) l
  /\ users s' = users s /\ membershipPlans s' = membershipPlans s
  /\ payments s' = payments s /\ paymentIdCounter s' = paymentIdCounter s.
Proof.
  revert s. induction l as [| row l IH]; intros s; cbn zeta.
  - cbn. rewrite app_nil_r. repeat split.
  - cbn [forEach]. rewrite after_bind.
    specialize (IH (after (sweepBody now row) s)). cbn zeta in IH.
    destruct IH as (Hm & Ha & Hu & Hp & Hpay & Hc).
    rewrite Hm, Ha, Hu, Hp, Hpay, Hc. clear Hm Ha Hu Hp Hpay Hc.
    unfold sweepBody. rewrite after_bind.
    pose proof (updateMembersWhereId_members (fst row) expiredPatch s) as Hm.
    pose proof (updateMembersWhereId_frame (fst row) expiredPatch s) as Hf.
    cbn zeta in Hf. destruct Hf as (Hu & Hp & Hpay & Ha & Hc).
    set (s1 := after (DatabaseStorage.updateMembersWhereId (fst row) expiredPatch) s) in *.
    unfold after at 1 2 3 4 5 6, DatabaseStorage.createActivity, modify. cbn.
    rewrite Hm, Hu, Hp, Hpay, Ha, Hc. cbn.
    rewrite <- app_assoc. repeat split.
Qed.

Lemma markExpired_idemp m :
  DatabaseStorage.markExpired (DatabaseStorage.markExpired m)
  = DatabaseStorage.markExpired m.
Proof. apply merge_idemp. Qed.

Lemma foldl_alter_lookup (l : list (Z * Member.t)) (ms : gmap Z Member.t) id :
  foldl (fun ms row => alter DatabaseStorage.markExpired (fst row) ms) ms l !! id
  = if decide (id ∈ List.map fst l)
    then DatabaseStorage.markExpired <$> ms !! id
    else ms !! id.
Proof.
  revert ms. induction l as [| row l IH]; intros ms; cbn [foldl List.map].
  - destruct (decide (id ∈ [])) as [Hin |]; [| reflexivity].
    apply elem_of_nil in Hin. destruct Hin.
  - rewrite IH, lookup_alter.
    destruct (decide (fst row = id)) as [<- | Hne].
    + destruct (decide (fst row ∈ fst row :: List.map fst l)) as [_ | Hnin'];
        [| exfalso; apply Hnin'; left].
      destruct (decide (fst row ∈ List.map fst l)); [| reflexivity].
      destruct (ms !! fst row); cbn; [rewrite markExpired_idemp |]; reflexivity.
    + destruct (decide (id ∈ List.map fst l)) as [Hin | Hnin];
        destruct (decide (id ∈ fst row :: List.map fst l)) as [Hin' | Hnin'];
        try reflexivity.
      * exfalso. apply Hnin'. right. exact Hin.
      * exfalso. apply elem_of_cons in Hin' as [H | H];
          [exact (Hne (eq_sym H)) | exact (Hnin H)].
Qed.

Lemma entriesFor_app ty id l1 l2 :
  entriesFor ty id (l1 ++ l2) = (entriesFor ty id l1 + entriesFor ty id l2)%nat.
Proof. unfold entriesFor. rewrite List.filter_app, length_app. reflexivity. Qed.

Lemma entriesFor_expired_none now id due (l : list (Z * Member.t)) :
  ~ In id (List.map fst l) ->
  entriesFor "membership_expired" id
    (List.map (DatabaseStorage.expiredActivity now)
       (List.filter (fun row => due (snd row)) l)) = 0%nat.
Proof.
  unfold entriesFor. induction l as [| row l IH]; intros Hnin; [reflexivity |].
  cbn [List.filter]. cbn [List.map In] in Hnin.
  destruct (due (snd row)); [cbn [List.map List.filter] |];
    [| apply IH; tauto].
  cbn [DatabaseStorage.expiredActivity Activity.activityType Activity.memberId].
  destruct (Z.eqb_spec (fst row) id) as [Heq | Hne]; [tauto |].
  cbn. apply IH. tauto.
Qed.

Lemma entriesFor_expired_one now id m due (l : list (Z * Member.t)) :
  NoDup (List.map fst l) -> In (id, m) l -> due m = true ->
  entriesFor "membership_expired" id
    (List.map (DatabaseStorage.expiredActivity now)
       (List.filter (fun row => due (snd row)) l)) = 1%nat.
Proof.
  induction l as [| row l IH]; intros Hnd Hin Hdue; [destruct Hin |].
  cbn [List.map] in Hnd. apply NoDup_cons in Hnd as [Hhd Hnd].
  assert (Hhd' : ~ In (fst row) (List.map fst l))
    by (intros H; apply Hhd, list_elem_of_In, H).
  destruct Hin as [-> | Hin].
  - cbn [List.filter snd]. rewrite Hdue. cbn [List.map].
    pose proof (entriesFor_expired_none now id due l Hhd') as H0.
    unfold entriesFor in *. cbn [List.filter].
    cbn [DatabaseStorage.expiredActivity Activity.activityType
         Activity.memberId fst].
    rewrite Z.eqb_refl. cbn. rewrite H0. reflexivity.
  - specialize (IH Hnd Hin Hdue).
    assert (Hne : fst row <> id).
    { intros Heq. apply Hhd'. rewrite Heq.
      change id with (fst (id, m)). apply in_map, Hin. }
    cbn [List.filter]. destruct (due (snd row)); [| exact IH].
    unfold entriesFor in *. cbn [List.map List.filter].
    cbn [DatabaseStorage.expiredActivity Activity.activityType
         Activity.memberId].
    destruct (Z.eqb_spec (fst row) id) as [Heq | _]; [tauto |].
    cbn. exact IH.
Qed.

End StorageFacts.

(** ** The expiry sweep of [getMembers] *)
Module Sweep.
Import JSDate JSDateFacts Outcome StorageFacts.

Lemma toUpdate_due today m : DatabaseStorage.toUpdate today m = true <-> due today m.
Proof.
  unfold DatabaseStorage.toUpdate, due.
  destruct (Member.status m) as [st |], (Member.expiryDate m) as [e |];
    split; try discriminate; try (intros [H _]; discriminate H);
    try (intros [_ (e' & H & _)]; discriminate H).
  - intros H. apply andb_true_iff in H as [H1 H2].
    apply String.eqb_eq in H1. apply Z.ltb_lt in H2.
    subst st. split; [reflexivity | exists e; auto].
  - intros [H1 (e' & H2 & H3)]. injection H1 as ->. injection H2 as ->.
    apply andb_true_iff. split; [reflexivity | apply Z.ltb_lt, H3].
Qed.

Lemma getMembers_unfold tz now s :
  let today := setHoursZero tz now in
  let membersList := map_to_list (members s) in
  after (DatabaseStorage.getMembers tz now) s
  = after (forEach (List.filter (fun row => DatabaseStorage.toUpdate today (snd row))
                      membersList) (sweepBody now)) s
  /\ result (DatabaseStorage.getMembers tz now) s
     = List.map (fun row =>
         if DatabaseStorage.toUpdate today (snd row)
         then (fst row, DatabaseStorage.markExpired (snd row))
         else row) membersList.
Proof.
  cbn zeta. unfold DatabaseStorage.getMembers.
  rewrite after_bind, result_bind.
  change (result (gets (fun s0 => map_to_list (members s0))) s)
    with (map_to_list (members s)).
  change (after (gets (fun s0 => map_to_list (members s0))) s) with s.
  rewrite after_bind, result_bind. split; reflexivity.
Qed.

Lemma in_membersList (ms : gmap Z Member.t) id m :
  In (id, m) (map_to_list ms) <-> ms !! id = Some m.
Proof. rewrite <- list_elem_of_In. apply elem_of_map_to_list. Qed.

Lemma swept_lookup tz now s id :
  let today := setHoursZero tz now in
  members (after (DatabaseStorage.getMembers tz now) s) !! id
  = match members s !! id with
    | Some m =>
        Some (if DatabaseStorage.toUpdate today m
              then DatabaseStorage.markExpired m else m)
    | None => None
    end.
Proof.
  cbn zeta. destruct (getMembers_unfold tz now s) as [-> _].
  destruct (forEach_sweep now
              (List.filter (fun row => DatabaseStorage.toUpdate
                                         (setHoursZero tz now) (snd row))
                 (map_to_list (members s))) s) as [-> _].
  rewrite foldl_alter_lookup.
  set (today := setHoursZero tz now).
  destruct (decide _) as [Hin | Hnin].
  - apply list_elem_of_In, in_map_iff in Hin as ([id' m] & Hid & Hrow).
    cbn in Hid. subst id'.
    apply filter_In in Hrow as [Hrow Hdue]. cbn in Hdue.
    apply in_membersList in Hrow. rewrite Hrow. cbn. rewrite Hdue. reflexivity.
  - destruct (members s !! id) as [m |] eqn:Hm; [| reflexivity].
    destruct (DatabaseStorage.toUpdate today m) eqn:Hdue; [| reflexivity].
    exfalso. apply Hnin, list_elem_of_In, in_map_iff.
    exists (id, m). split; [reflexivity |].
    apply filter_In. split; [apply in_membersList, Hm | exact Hdue].
Qed.

End Sweep.

(** ** The operations over the constrained tables *)
Module PostgresFacts.
Import JSDate JSDateFacts Outcome StorageFacts.

Lemma dateColumn_le t :
  Postgres.dateColumn t <= t < Postgres.dateColumn t + msPerDay.
Proof. unfold Postgres.dateColumn, Day, msPerDay. zdiv. Qed.

Lemma dateColumn_shift t k :
  Postgres.dateColumn (t + k * msPerDay) = Postgres.dateColumn t + k * msPerDay.
Proof.
  unfold Postgres.dateColumn, Day.
  rewrite Z.div_add by (unfold msPerDay; lia). lia.
Qed.

Lemma dateColumn_whole t k :
  Postgres.dateColumn t = t ->
  Postgres.dateColumn (t + k * msPerDay) = t + k * msPerDay.
Proof. intros H. rewrite dateColumn_shift, H. reflexivity. Qed.

Lemma dateColumn_idem t :
  Postgres.dateColumn (Postgres.dateColumn t) = Postgres.dateColumn t.
Proof.
  unfold Postgres.dateColumn, Day, msPerDay. zdiv.
Qed.

(** The setters move a time value by whole days: the time of day stays. *)
Lemma MakeDate_whole_days tz t day :
  exists k, UTC tz (MakeDate day (TimeWithinDay (LocalTime tz t)))
            = t + k * msPerDay.
Proof.
  exists (day - Day (LocalTime tz t)).
  unfold UTC, MakeDate, TimeWithinDay, LocalTime, Day, msPerDay. zdiv.
Qed.

Lemma setDate_whole_days tz t d : exists k, setDate tz t d = t + k * msPerDay.
Proof. apply MakeDate_whole_days. Qed.

Lemma setMonth_whole_days tz t m : exists k, setMonth tz t m = t + k * msPerDay.
Proof. apply MakeDate_whole_days. Qed.

Lemma setFullYear_whole_days tz t y :
  exists k, setFullYear tz t y = t + k * msPerDay.
Proof. apply MakeDate_whole_days. Qed.

Lemma verifyDurationSwitch_whole_days tz plan t :
  exists k, DatabaseStorage.verifyDurationSwitch tz plan t = t + k * msPerDay.
Proof.
  unfold DatabaseStorage.verifyDurationSwitch.
  repeat match goal with
         | |- context [if ?b then _ else _] => destruct b
         end;
    auto using setDate_whole_days, setMonth_whole_days, setFullYear_whole_days.
  exists 0. lia.
Qed.

(** A date stays a date under the switch of [verifyPayment]. *)
Lemma dateColumn_verifyDurationSwitch tz plan t :
  Postgres.dateColumn t = t ->
  Postgres.dateColumn (DatabaseStorage.verifyDurationSwitch tz plan t)
  = DatabaseStorage.verifyDurationSwitch tz plan t.
Proof.
  intros H. destruct (verifyDurationSwitch_whole_days tz plan t) as [k ->].
  apply dateColumn_whole, H.
Qed.

Ltac unfold_pg :=
  unfold Postgres.verifyPayment, Postgres.createPayment, Postgres.deleteMember,
    Postgres.rejectPayment,
    Postgres.updateMember, Postgres.updatePaymentsWhereId,
    Postgres.updateMembersWhereId, Postgres.insertPayment,
    Postgres.deleteMembersWhereId, Postgres.andThen, Postgres.lift,
    Postgres.pure, Postgres.dated,
    DatabaseStorage.updateMembersWhereId,
    DatabaseStorage.getPayment, DatabaseStorage.getMember,
    DatabaseStorage.getUser, DatabaseStorage.getMembershipPlan,
    DatabaseStorage.createActivity, bind, gets, modify, ret.

Lemma pg_verifyPayment_missing tz now id adminId s :
  payments s !! id = None ->
  Postgres.verifyPayment tz now id adminId s = (Postgres.Returned None, s).
Proof. intros Hpay. unfold_pg. cbn. rewrite Hpay. reflexivity. Qed.

(** The verifier is not a stored user: the update of the payment is
    refused, which ends the call before anything is written. *)
Lemma verifyPayment_refused tz now id adminId payment s :
  payments s !! id = Some payment ->
  users s !! adminId = None ->
  Postgres.verifyPayment tz now id adminId s = (Postgres.Thrown, s).
Proof.
  intros Hpay Hadm. unfold_pg. unfold Postgres.verifierHolds.
  repeat (progress (cbn; rewrite ?Hpay, ?Hadm)). reflexivity.
Qed.

Lemma pg_verifyPayment_found tz now id adminId payment member admin plan s :
  payments s !! id = Some payment ->
  members s !! Payment.memberId payment = Some member ->
  users s !! adminId = Some admin ->
  membershipPlans s !! Payment.planId payment = Some plan ->
  Postgres.verifyPayment tz now id adminId s
  = (Postgres.Returned (Some (Payment.settle "verified" adminId now None payment)),
     datedVerifiedStore tz now id adminId payment member admin plan s).
Proof.
  intros Hpay Hmem Hadm Hplan. unfold_pg. unfold Postgres.verifierHolds.
  repeat (progress (cbn; rewrite ?Hpay, ?Hmem, ?Hadm, ?Hplan)).
  unfold datedVerifiedStore, verifiedStore, withActivities, withMembers,
    withPayments. cbn.
  rewrite insert_insert_eq. repeat rewrite <- app_assoc. reflexivity.
Qed.

(** In the name of a stored user, [rejectPayment] over the constrained
    tables is [DatabaseStorage.rejectPayment]. *)
Lemma pg_rejectPayment_accepted now id adminId notes admin s :
  users s !! adminId = Some admin ->
  Postgres.rejectPayment now id adminId notes s
  = (Postgres.Returned (result (DatabaseStorage.rejectPayment now id adminId notes) s),
     after (DatabaseStorage.rejectPayment now id adminId notes) s).
Proof.
  intros Hadm. unfold result, after.
  destruct (payments s !! id) as [payment |] eqn:Hpay.
  - rewrite (StorageFacts.rejectPayment_found _ _ _ _ _ _ Hpay).
    unfold_pg. unfold Postgres.verifierHolds, paymentRejectedActivity.
    repeat (progress (cbn; rewrite ?Hpay, ?Hadm)).
    destruct (members s !! Payment.memberId payment) as [m |];
      cbn; unfold withActivities, withPayments; cbn;
      rewrite ?app_nil_r; reflexivity.
  - rewrite (StorageFacts.rejectPayment_missing _ _ _ _ _ Hpay).
    unfold_pg. cbn. rewrite Hpay. reflexivity.
Qed.

(** In the name of someone who is not a stored user it is refused. *)
Lemma pg_rejectPayment_refused now id adminId notes payment s :
  payments s !! id = Some payment ->
  users s !! adminId = None ->
  Postgres.rejectPayment now id adminId notes s = (Postgres.Thrown, s).
Proof.
  intros Hpay Hadm. unfold_pg. unfold Postgres.verifierHolds.
  repeat (progress (cbn; rewrite ?Hpay, ?Hadm)). reflexivity.
Qed.

(** The row is refused: nothing is written, and the key taken from the
    sequence is gone. *)
Lemma createPayment_refused tz now paymentData s :
  Postgres.references s (insertedPayment now paymentData) = false ->
  Postgres.createPayment tz now paymentData s
  = (Postgres.Thrown, withPaymentIdCounter (paymentIdCounter s + 1) s).
Proof.
  intros Href. unfold_pg. unfold insertedPayment in Href.
  cbn. rewrite Href. reflexivity.
Qed.

Lemma pg_createPayment_verified tz now paymentData member plan s :
  DatabaseStorage.resolveStatus (InsertPayment.status paymentData) = "verified" ->
  members s !! InsertPayment.memberId paymentData = Some member ->
  membershipPlans s !! InsertPayment.planId paymentData = Some plan ->
  Postgres.verifierHolds s (insertedPayment now paymentData) = true ->
  Postgres.createPayment tz now paymentData s
  = (Postgres.Returned (paymentIdCounter s, insertedPayment now paymentData),
     datedCreatedStore tz now paymentData member plan s).
Proof.
  intros Hst Hmem Hplan Hver.
  assert (Href : Postgres.references s (insertedPayment now paymentData) = true).
  { unfold Postgres.references. cbn [insertedPayment Payment.memberId Payment.planId].
    rewrite Hmem, Hplan, Hver. reflexivity. }
  unfold Postgres.createPayment. cbv zeta. unfold Postgres.andThen at 1.
  unfold Postgres.insertPayment at 1. unfold insertedPayment in Href.
  rewrite Href. cbn [snd]. rewrite Hst.
  unfold_pg.
  repeat (progress (cbn; rewrite ?Hmem, ?Hplan)).
  unfold datedCreatedStore, createdVerifiedStore, createExpiry,
    paymentCreatedActivity, insertedPayment.
  rewrite Hst. cbn.
  unfold withActivities, withMembers, withPayments, withPaymentIdCounter. cbn.
  rewrite insert_insert_eq. repeat rewrite <- app_assoc. reflexivity.
Qed.

(** When the row is accepted and its status is not ['verified'] nothing is
    dated and the call does what [DatabaseStorage.createPayment] does. *)
Lemma pg_createPayment_unverified tz now paymentData member plan s :
  DatabaseStorage.resolveStatus (InsertPayment.status paymentData) <> "verified" ->
  members s !! InsertPayment.memberId paymentData = Some member ->
  membershipPlans s !! InsertPayment.planId paymentData = Some plan ->
  Postgres.createPayment tz now paymentData s
  = (Postgres.Returned (paymentIdCounter s, insertedPayment now paymentData),
     after (DatabaseStorage.createPayment tz now paymentData) s).
Proof.
  intros Hst Hmem Hplan. unfold after.
  rewrite (StorageFacts.createPayment_unverified _ _ _ _ Hst).
  apply String.eqb_neq in Hst. unfold_pg.
  unfold Postgres.references, Postgres.verifierHolds, insertedPayment,
    paymentCreatedActivity.
  rewrite Hst.
  repeat (progress (cbn; rewrite ?Hmem, ?Hplan)).
  unfold withActivities, withPayments, withPaymentIdCounter. cbn.
  reflexivity.
Qed.

Lemma createExpiry_two_days tz now paymentData plan :
  match InsertPayment.paymentDate paymentData with
  | Some d => d
  | None => now
  end + 2 * msPerDay <= createExpiry tz now paymentData plan.
Proof.
  unfold createExpiry. cbv zeta. rewrite setDate_getDate_add.
  pose proof (createDurationSwitch_after tz plan
                match InsertPayment.paymentDate paymentData with
                | Some d => d
                | None => now
                end). lia.
Qed.

Lemma referenced_spec s memberId :
  Postgres.referenced s memberId = true
  <-> exists id p, payments s !! id = Some p /\ Payment.memberId p = memberId.
Proof.
  unfold Postgres.referenced. rewrite existsb_exists. split.
  - intros ([id p] & Hin & Heq). exists id, p.
    split; [| apply Z.eqb_eq, Heq].
    apply elem_of_map_to_list, list_elem_of_In, Hin.
  - intros (id & p & Hp & Heq). exists (id, p).
    split; [| apply Z.eqb_eq, Heq].
    apply list_elem_of_In, elem_of_map_to_list, Hp.
Qed.

(** [deleteMember], in full. *)
Lemma pg_deleteMember_eq now id s :
  Postgres.deleteMember now id s
  = match members s !! id with
    | Some m =>
        let logged :=
          withActivities
            (fun log =>
               log ++ [ {| Activity.userId := None;
                           Activity.memberId := None;
                           Activity.activityType := "member_deleted";
                           Activity.description :=
                             "Member deleted: " +:+ Member.fullName m;
                           Activity.timestamp := now |} ]) s in
        if Postgres.referenced s id then (Postgres.Thrown, logged)
        else (Postgres.Returned true, withMembers (delete id) logged)
    | None => (Postgres.Returned true, s)
    end.
Proof.
  unfold_pg. unfold Postgres.found, Postgres.referenced. cbn.
  destruct (members s !! id) as [m |] eqn:Hm; cbn; rewrite Hm; cbn.
  - destruct (existsb _ _); reflexivity.
  - unfold withMembers. rewrite (delete_id _ _ Hm). destruct s. reflexivity.
Qed.

(** Under the references of the payment table, the member and the plan of
    a stored payment are stored too. *)
Lemma references_found s id p :
  Postgres.referencesHold s ->
  payments s !! id = Some p ->
  exists member plan,
    members s !! Payment.memberId p = Some member
    /\ membershipPlans s !! Payment.planId p = Some plan.
Proof.
  intros Hrefs Hp. specialize (Hrefs id p Hp).
  unfold Postgres.references, Postgres.found in Hrefs.
  destruct (members s !! Payment.memberId p) as [member |]; [| discriminate].
  destruct (membershipPlans s !! Payment.planId p) as [plan |]; [| discriminate].
  exists member, plan. split; reflexivity.
Qed.

Lemma references_kept s s' p :
  users s' = users s ->
  membershipPlans s' = membershipPlans s ->
  (forall k, is_Some (members s !! k) -> is_Some (members s' !! k)) ->
  Postgres.references s p = true -> Postgres.references s' p = true.
Proof.
  intros Hu Hpl Hm. unfold Postgres.references, Postgres.verifierHolds.
  rewrite Hu, Hpl.
  destruct (members s !! Payment.memberId p) as [m |] eqn:Hk; [| discriminate].
  destruct (Hm (Payment.memberId p)) as [m' ->]; [rewrite Hk; eauto |].
  trivial.
Qed.

Lemma verifyPayment_keeps_references tz now id adminId payment member admin
    plan s :
  payments s !! id = Some payment ->
  users s !! adminId = Some admin ->
  Postgres.referencesHold s ->
  Postgres.referencesHold
    (datedVerifiedStore tz now id adminId payment member admin plan s).
Proof.
  intros Hpay Hadm Hrefs j p Hj.
  set (s' := datedVerifiedStore tz now id adminId payment member admin plan s)
    in *.
  assert (Hkept : forall q, Postgres.references s q = true ->
                            Postgres.references s' q = true).
  { intros q. apply references_kept; try reflexivity.
    intros k Hk. subst s'. cbn.
    destruct (decide (Payment.memberId payment = k)) as [-> | Hne].
    - rewrite lookup_insert_eq. eauto.
    - rewrite !lookup_insert_ne by exact Hne. exact Hk. }
  subst s'. cbn in Hj.
  destruct (decide (id = j)) as [<- | Hne].
  - rewrite lookup_insert_eq in Hj. injection Hj as <-.
    pose proof (Hkept _ (Hrefs id payment Hpay)) as Hold.
    unfold Postgres.references, Postgres.verifierHolds in *.
    cbn [Payment.settle Payment.memberId Payment.planId Payment.verifiedById].
    apply andb_prop in Hold as [Hold _]. rewrite Hold. cbn.
    rewrite Hadm. reflexivity.
  - rewrite lookup_insert_ne in Hj by exact Hne.
    apply Hkept, (Hrefs j p Hj).
Qed.

(** Every payment of the small store names a stored member and a stored
    plan, and none names a verifier yet. *)
Lemma fixture_referencesHold : Postgres.referencesHold Fixture.store.
Proof.
  intros id p Hp. change (payments Fixture.store) with
    (<[1 := Fixture.pendingPayment 2 3]>
       (<[2 := Fixture.pendingPayment 2 6]> (∅ : gmap Z Payment.t))) in Hp.
  apply lookup_insert_Some in Hp as [[_ <-] | [_ Hp]]; [reflexivity |].
  apply lookup_insert_Some in Hp as [[_ <-] | [_ Hp]]; [reflexivity |].
  rewrite lookup_empty in Hp. discriminate Hp.
Qed.

End PostgresFacts.

(** * The properties of the specification *)

Import JSDate.

(** Spec section 8: one month from 15 January 2024 is 15 February, and the
    create path pads it to 16 February. *)
Example monthly_from_mid_january :
  DatabaseStorage.createDurationSwitch 0 Fixture.mensual (civil 2024 1 15 0)
  = civil 2024 2 15 0
  /\ Outcome.createExpiry 0 0
       {| InsertPayment.memberId := 2; InsertPayment.amount := 7000;
          InsertPayment.paymentDate := Some (civil 2024 1 15 0);
          InsertPayment.paymentMethod := "efectivo"; InsertPayment.planId := 3;
          InsertPayment.status := None; InsertPayment.receiptUrl := None;
          InsertPayment.notes := None; InsertPayment.verifiedById := None;
          InsertPayment.verifiedAt := None |} Fixture.mensual
     = civil 2024 2 16 0.
Proof. split; vm_compute; reflexivity. Qed.

(** Three months from 31 January 2024: 31 April does not exist and rolls
    over to 1 May. *)
Example quarterly_from_end_of_january :
  DatabaseStorage.createDurationSwitch 0 Fixture.trimestral (civil 2024 1 31 0)
  = civil 2024 5 1 0.
Proof. vm_compute; reflexivity. Qed.

(** One year from the leap day 29 February 2024 rolls over to 1 March 2025. *)
Example yearly_from_leap_day :
  DatabaseStorage.createDurationSwitch 0 Fixture.anual (civil 2024 2 29 0)
  = civil 2025 3 1 0.
Proof. vm_compute; reflexivity. Qed.

(** C1, at the failing input.  A plan of one [week], the short form of the
    type, anchored at 15 January 2024.  The switch of [createPayment] has no
    case [week], and its default branch adds the duration in days: 16
    January, where seven days per unit give 22 January.  The switch of
    [verifyPayment], the other call site, has the case and gives 22 January
    for the same plan; with the seeded plan [Semanal] of type [weekly] it is
    the other way round, [createPayment] adding the week and
    [verifyPayment] nothing.  Run on the store: a payment created for Luis
    on the [week] plan without a status leaves his expiry on 17 January (one
    day and the day of padding); the same payment created as pending and
    then verified leaves it on 22 January. *)
Theorem createPayment_week_alias_adds_one_day :
  let semana := Fixture.plan "Semana" 3000 1 "week" in
  let base := civil 2024 1 15 0 in
  let store :=
    {| users := users Fixture.store;
       membershipPlans := <[7 := semana]> (membershipPlans Fixture.store);
       members := members Fixture.store;
       payments := payments Fixture.store;
       activities := [];
       paymentIdCounter := 3 |} in
  let payment (status : option string) :=
    {| InsertPayment.memberId := 2; InsertPayment.amount := 3000;
       InsertPayment.paymentDate := Some base;
       InsertPayment.paymentMethod := "Yape"; InsertPayment.planId := 7;
       InsertPayment.status := status; InsertPayment.receiptUrl := None;
       InsertPayment.notes := None; InsertPayment.verifiedById := None;
       InsertPayment.verifiedAt := None |} in
  let created := after (Postgres.createPayment 0 base (payment None)) store in
  let pending :=
    after (Postgres.createPayment 0 base (payment (Some "pending"))) store in
  let verified := after (Postgres.verifyPayment 0 base 3 1) pending in
  (DatabaseStorage.createDurationSwitch 0 semana base = civil 2024 1 16 0
   /\ SpecWords.advance 0 semana base = civil 2024 1 22 0
   /\ DatabaseStorage.createDurationSwitch 0 semana base
      <> SpecWords.advance 0 semana base
   /\ DatabaseStorage.verifyDurationSwitch 0 semana base = civil 2024 1 22 0)
  /\ (DatabaseStorage.createDurationSwitch 0 Fixture.semanal base
      = civil 2024 1 22 0
      /\ DatabaseStorage.verifyDurationSwitch 0 Fixture.semanal base = base)
  /\ (Member.expiryDate <$> members created !! 2
      = Some (Some (civil 2024 1 17 0))
      /\ Member.expiryDate <$> members pending !! 2 = Some None
      /\ Member.expiryDate <$> members verified !! 2
         = Some (Some (civil 2024 1 22 0))).
Proof.
  cbn zeta. repeat split; try (vm_compute; reflexivity).
  vm_compute. discriminate.
Qed.

(** X16. The two duration switches, case by case.  At the create site the
    effective duration is
    [plan.duration] when positive and 1 otherwise, and the expiry advances
    from the base date by that many days for [daily], seven times as many
    days for [weekly], that many calendar months for [monthly], that many
    calendar years for [yearly] and [annual], and that many days for any
    other type, the short forms [day], [week], [month] and [year] included.
    A calendar month is the same day of the month that many months on, days
    past the end of a month carrying over: 28 to 31 days each; a calendar
    year likewise, 365 to 366 days each, give or take one leap day.
    At the verify site, for a positive [plan.duration], the advance is that
    many days for [day], seven times as many for [week], that many calendar
    months for [month] and that many calendar years for [year]. *)
Theorem extension_by_durationType tz plan baseDate :
  let duration := MembershipPlan.duration plan in
  let ty := MembershipPlan.durationType plan in
  let effective := if 0 <? duration then duration else 1 in
  DatabaseStorage.createDuration plan = effective
  /\ (ty = "daily" ->
        DatabaseStorage.createDurationSwitch tz plan baseDate
        = baseDate + effective * msPerDay)
  /\ (ty = "weekly" ->
        DatabaseStorage.createDurationSwitch tz plan baseDate
        = baseDate + effective * 7 * msPerDay)
  /\ (ty = "monthly" ->
        DatabaseStorage.createDurationSwitch tz plan baseDate
        = setMonth tz baseDate (getMonth tz baseDate + effective))
  /\ (ty = "yearly" \/ ty = "annual" ->
        DatabaseStorage.createDurationSwitch tz plan baseDate
        = setFullYear tz baseDate (getFullYear tz baseDate + effective))
  /\ (baseDate + 28 * effective * msPerDay
      <= setMonth tz baseDate (getMonth tz baseDate + effective)
      <= baseDate + 31 * effective * msPerDay)
  /\ (baseDate + (365 * effective - 1) * msPerDay
      <= setFullYear tz baseDate (getFullYear tz baseDate + effective)
      <= baseDate + (366 * effective + 1) * msPerDay)
  /\ (ty <> "daily" -> ty <> "weekly" -> ty <> "monthly" ->
      ty <> "yearly" -> ty <> "annual" ->
        DatabaseStorage.createDurationSwitch tz plan baseDate
        = baseDate + effective * msPerDay)
  /\ (0 < duration ->
        (ty = "day" ->
           DatabaseStorage.verifyDurationSwitch tz plan baseDate
           = baseDate + duration * msPerDay)
        /\ (ty = "week" ->
              DatabaseStorage.verifyDurationSwitch tz plan baseDate
              = baseDate + duration * 7 * msPerDay)
        /\ (ty = "month" ->
              DatabaseStorage.verifyDurationSwitch tz plan baseDate
              = setMonth tz baseDate (getMonth tz baseDate + duration))
        /\ (ty = "year" ->
              DatabaseStorage.verifyDurationSwitch tz plan baseDate
              = setFullYear tz baseDate (getFullYear tz baseDate + duration))).
Proof.
  cbn zeta.
  unfold DatabaseStorage.createDurationSwitch, DatabaseStorage.verifyDurationSwitch.
  fold (DatabaseStorage.createDuration plan).
  pose proof (StorageFacts.createDuration_pos plan) as Hpos.
  repeat split.
  - intros ->. cbn. apply JSDateFacts.setDate_getDate_add.
  - intros ->. cbn. apply JSDateFacts.setDate_getDate_add.
  - intros ->. reflexivity.
  - intros [-> | ->]; reflexivity.
  - apply JSDateFacts.setMonth_getMonth_add. lia.
  - apply JSDateFacts.setMonth_getMonth_add. lia.
  - apply JSDateFacts.setFullYear_getFullYear_add. lia.
  - apply JSDateFacts.setFullYear_getFullYear_add. lia.
  - intros H1 H2 H3 H4 H5.
    apply String.eqb_neq in H1, H2, H3, H4, H5.
    rewrite H1, H2, H3, H4, H5. cbn.
    apply JSDateFacts.setDate_getDate_add.
  - intros ->. cbn. apply JSDateFacts.setDate_getDate_add.
  - intros ->. cbn. apply JSDateFacts.setDate_getDate_add.
  - intros ->. reflexivity.
  - intros ->. reflexivity.
Qed.

(** A plan of two months verified from 15 January 2024 runs to 15 March. *)
Lemma extension_by_durationType_witness :
  DatabaseStorage.verifyDurationSwitch 0
    (Fixture.plan "Bimestral" 13000 2 "month") (civil 2024 1 15 0)
  = civil 2024 3 15 0.
Proof.
  destruct (extension_by_durationType 0
              (Fixture.plan "Bimestral" 13000 2 "month") (civil 2024 1 15 0))
    as (_ & _ & _ & _ & _ & _ & _ & _ & Hverify).
  destruct (Hverify ltac:(reflexivity)) as (_ & _ & Hmonth & _).
  rewrite (Hmonth eq_refl). vm_compute. reflexivity.
Defined.

(** C2. The two call sites take their base date differently.  On explicit
    verification the base date is the member's expiry date when there is one
    and it is not before now, and now otherwise; the expiry written is the
    duration switch applied to that base, with nothing added.  On creation
    with a status that resolves to [verified] the base date is the payment
    date of the new payment (the caller's, or now by the column default),
    whatever the member's expiry was, and the expiry written is one day after
    the result of the duration switch. *)
Theorem base_date_and_padding tz now s :
  (forall id adminId payment member admin plan,
     payments s !! id = Some payment ->
     members s !! Payment.memberId payment = Some member ->
     users s !! adminId = Some admin ->
     membershipPlans s !! Payment.planId payment = Some plan ->
     let baseDate :=
       match Member.expiryDate member with
       | Some e => if e <? now then now else e
       | None => now
       end in
     Member.expiryDate <$>
       members (after (DatabaseStorage.verifyPayment tz now id adminId) s)
         !! Payment.memberId payment
     = Some (Some (DatabaseStorage.verifyDurationSwitch tz plan baseDate)))
  /\ (forall paymentData member plan,
        DatabaseStorage.resolveStatus (InsertPayment.status paymentData)
        = "verified" ->
        members s !! InsertPayment.memberId paymentData = Some member ->
        membershipPlans s !! InsertPayment.planId paymentData = Some plan ->
        let created := result (DatabaseStorage.createPayment tz now paymentData) s in
        let paymentDate :=
          match InsertPayment.paymentDate paymentData with
          | Some d => d
          | None => now
          end in
        Payment.paymentDate (snd created) = Some paymentDate
        /\ Member.expiryDate <$>
             members (after (DatabaseStorage.createPayment tz now paymentData) s)
               !! InsertPayment.memberId paymentData
           = Some (Some (DatabaseStorage.createDurationSwitch tz plan paymentDate
                         + 1 * msPerDay))).
Proof.
  split.
  - intros id adminId payment member admin plan Hpay Hmem Hadm Hplan. cbn zeta.
    unfold after.
    rewrite (StorageFacts.verifyPayment_found _ _ _ _ _ _ _ _ _ Hpay Hmem Hadm Hplan).
    cbn [snd Outcome.verifiedStore members].
    rewrite lookup_insert_eq. cbn.
    unfold DatabaseStorage.verifyBaseDate.
    destruct (Member.expiryDate member); [reflexivity |].
    rewrite Z.ltb_irrefl. reflexivity.
  - intros paymentData member plan Hst Hmem Hplan. cbn zeta.
    unfold after, result.
    rewrite (StorageFacts.createPayment_verified _ _ _ _ _ _ Hst Hmem Hplan).
    cbn [fst snd Outcome.createdVerifiedStore members].
    split; [reflexivity |].
    rewrite lookup_insert_eq. cbn.
    unfold Outcome.createExpiry.
    rewrite JSDateFacts.setDate_getDate_add. reflexivity.
Qed.

(** Luis pays for the monthly plan on 14 January; the payment is created as
    verified on the 15th: his expiry is 15 February, the day after one month
    from the payment date. *)
Lemma base_date_and_padding_witness :
  let paymentData :=
    {| InsertPayment.memberId := 2; InsertPayment.amount := 7000;
       InsertPayment.paymentDate := Some (civil 2024 1 14 0);
       InsertPayment.paymentMethod := "efectivo"; InsertPayment.planId := 3;
       InsertPayment.status := None; InsertPayment.receiptUrl := None;
       InsertPayment.notes := None; InsertPayment.verifiedById := None;
       InsertPayment.verifiedAt := None |} in
  Member.expiryDate <$>
    members (after (DatabaseStorage.createPayment 0 Fixture.now paymentData)
               Fixture.store) !! 2
  = Some (Some (civil 2024 2 15 0)).
Proof.
  cbn zeta.
  destruct (base_date_and_padding 0 Fixture.now Fixture.store) as [_ Hcreate].
  match goal with
  | |- context [DatabaseStorage.createPayment _ _ ?pd] =>
      destruct (Hcreate pd Fixture.luis Fixture.mensual
                  eq_refl eq_refl eq_refl) as [_ Hexpiry]
  end.
  etransitivity; [exact Hexpiry |]. vm_compute. reflexivity.
Defined.

(** C3. A [createPayment] call that omits the status stores the payment as
    [verified] and, the member and the plan being found, sets the member
    active on that plan with the computed expiry and logs [payment_created]
    followed by [membership_activated] for that member.  A call with status
    [pending] stores the payment as [pending], leaves every member as it
    was, and logs nothing but [payment_created]. *)
Theorem createPayment_status_default tz now paymentData s :
  let s' := after (DatabaseStorage.createPayment tz now paymentData) s in
  let created := result (DatabaseStorage.createPayment tz now paymentData) s in
  (InsertPayment.status paymentData = None ->
     payments s' !! fst created = Some (snd created)
     /\ Payment.status (snd created) = Some "verified"
     /\ forall member plan,
          members s !! InsertPayment.memberId paymentData = Some member ->
          membershipPlans s !! InsertPayment.planId paymentData = Some plan ->
          exists member' activated,
            members s' !! InsertPayment.memberId paymentData = Some member'
            /\ Member.status member' = Some "active"
            /\ Member.planId member' = Some (InsertPayment.planId paymentData)
            /\ Member.expiryDate member'
               = Some (Outcome.createExpiry tz now paymentData plan)
            /\ activities s'
               = activities s
                 ++ [Outcome.paymentCreatedActivity now paymentData member plan;
                     activated]
            /\ Activity.activityType activated = "membership_activated"
            /\ Activity.memberId activated
               = Some (InsertPayment.memberId paymentData))
  /\ (InsertPayment.status paymentData = Some "pending" ->
        payments s' !! fst created = Some (snd created)
        /\ Payment.status (snd created) = Some "pending"
        /\ members s' = members s
        /\ exists new,
             activities s' = activities s ++ new
             /\ forall a, In a new -> Activity.activityType a = "payment_created").
Proof.
  cbn zeta.
  destruct (StorageFacts.createPayment_stored tz now paymentData s)
    as [Hres Hpays].
  split.
  - intros Hst.
    assert (Hver : DatabaseStorage.resolveStatus
                     (InsertPayment.status paymentData) = "verified")
      by (rewrite Hst; reflexivity).
    rewrite Hres, Hpays. cbn [fst snd].
    split; [apply lookup_insert_eq |].
    split; [cbn; rewrite Hst; reflexivity |].
    intros member plan Hmem Hplan. unfold after.
    rewrite (StorageFacts.createPayment_verified _ _ _ _ _ _ Hver Hmem Hplan).
    cbn [snd Outcome.createdVerifiedStore members activities].
    eexists. eexists.
    split; [apply lookup_insert_eq |].
    repeat split.
  - intros Hst.
    assert (Hver : DatabaseStorage.resolveStatus
                     (InsertPayment.status paymentData) <> "verified")
      by (rewrite Hst; cbn; discriminate).
    rewrite Hres, Hpays. cbn [fst snd].
    split; [apply lookup_insert_eq |].
    split; [cbn; rewrite Hst; reflexivity |].
    unfold after.
    rewrite (StorageFacts.createPayment_unverified _ _ _ _ Hver).
    cbn [snd members activities].
    split; [reflexivity |].
    eexists. split; [reflexivity |].
    intros a Hin.
    destruct (members s !! InsertPayment.memberId paymentData);
      destruct (membershipPlans s !! InsertPayment.planId paymentData);
      cbn in Hin; try contradiction.
    destruct Hin as [<- | []]. reflexivity.
Qed.

(** A payment created for Luis without a status activates him; one created
    as [pending] leaves the members as they were. *)
Lemma createPayment_status_default_witness :
  let paymentData (status : option string) :=
    {| InsertPayment.memberId := 2; InsertPayment.amount := 7000;
       InsertPayment.paymentDate := Some (civil 2024 1 15 0);
       InsertPayment.paymentMethod := "Yape"; InsertPayment.planId := 3;
       InsertPayment.status := status; InsertPayment.receiptUrl := None;
       InsertPayment.notes := None; InsertPayment.verifiedById := None;
       InsertPayment.verifiedAt := None |} in
  Payment.status
    (snd (result (DatabaseStorage.createPayment 0 Fixture.now (paymentData None))
            Fixture.store)) = Some "verified"
  /\ members (after (DatabaseStorage.createPayment 0 Fixture.now
                       (paymentData (Some "pending"))) Fixture.store)
     = members Fixture.store.
Proof.
  cbn zeta. split.
  - match goal with
    | |- context [DatabaseStorage.createPayment _ _ ?pd] =>
        destruct (createPayment_status_default 0 Fixture.now pd Fixture.store)
          as [Hnone _]
    end.
    destruct (Hnone eq_refl) as (_ & Hstatus & _). exact Hstatus.
  - match goal with
    | |- context [DatabaseStorage.createPayment _ _ ?pd] =>
        destruct (createPayment_status_default 0 Fixture.now pd Fixture.store)
          as [_ Hpending]
    end.
    destruct (Hpending eq_refl) as (_ & _ & Hmembers & _). exact Hmembers.
Defined.

(** C4, at the failing input.  Payment 1 of the small store is Luis's pending
    payment for the seeded plan [Mensual] (duration 1, type [monthly]); Luis
    has no expiry date, so the base date of the verification is now.  The
    verification marks the payment verified and sets Luis active, and the
    expiry date it writes is the base date itself, not a later date. *)
Theorem verifyPayment_monthly_expiry_is_base :
  let s' := after (DatabaseStorage.verifyPayment 0 Fixture.now 1 1) Fixture.store in
  membershipPlans Fixture.store !! 3 = Some Fixture.mensual
  /\ DatabaseStorage.verifyBaseDate Fixture.luis Fixture.now = Fixture.now
  /\ Payment.status <$> payments s' !! 1 = Some (Some "verified")
  /\ Member.status <$> members s' !! 2 = Some (Some "active")
  /\ Member.expiryDate <$> members s' !! 2 = Some (Some Fixture.now).
Proof. cbn zeta. repeat split; vm_compute; reflexivity. Qed.

(** ... while the same plan on the create path, anchored at the same
    instant, runs to one month and a day later. *)
Example createPayment_monthly_expiry :
  Outcome.createExpiry 0 Fixture.now
    {| InsertPayment.memberId := 2; InsertPayment.amount := 7000;
       InsertPayment.paymentDate := None;
       InsertPayment.paymentMethod := "Yape"; InsertPayment.planId := 3;
       InsertPayment.status := None; InsertPayment.receiptUrl := None;
       InsertPayment.notes := None; InsertPayment.verifiedById := None;
       InsertPayment.verifiedAt := None |} Fixture.mensual
  = civil 2024 2 16 36000000.
Proof. vm_compute. reflexivity. Qed.

(** X15. Every [DatabaseStorage.getMembers] call performs the expiry sweep.
    The comparison date [today] is local midnight of the current day.  Every member that is active with an expiry date strictly before
    [today] reads back with status [expired] and its other columns as they
    were; every other member reads back unchanged and no member appears or
    disappears.  The log grows by entries of type [membership_expired] only,
    each carrying the id of a member that was due, and exactly one for each
    such member.  The list returned holds exactly the members of the store
    after the sweep, and no other table changes. *)
Theorem getMembers_expiry_sweep tz now s :
  let today := setHoursZero tz now in
  let s' := after (DatabaseStorage.getMembers tz now) s in
  let listed := result (DatabaseStorage.getMembers tz now) s in
  (today <= now < today + msPerDay /\ TimeWithinDay (LocalTime tz today) = 0)
  /\ (forall id m, members s !! id = Some m -> Outcome.due today m ->
        members s' !! id = Some (DatabaseStorage.markExpired m)
        /\ Member.status (DatabaseStorage.markExpired m) = Some "expired"
        /\ Member.expiryDate (DatabaseStorage.markExpired m) = Member.expiryDate m
        /\ Member.planId (DatabaseStorage.markExpired m) = Member.planId m)
  /\ (forall id m, members s !! id = Some m -> ~ Outcome.due today m ->
        members s' !! id = Some m)
  /\ (forall id, members s !! id = None -> members s' !! id = None)
  /\ (exists new,
        activities s' = activities s ++ new
        /\ (forall a, In a new ->
              Activity.activityType a = "membership_expired"
              /\ exists id m, Activity.memberId a = Some id
                              /\ members s !! id = Some m /\ Outcome.due today m)
        /\ (forall id m, members s !! id = Some m -> Outcome.due today m ->
              Outcome.entriesFor "membership_expired" id new = 1%nat))
  /\ (forall id m', In (id, m') listed <-> members s' !! id = Some m')
  /\ users s' = users s /\ membershipPlans s' = membershipPlans s
  /\ payments s' = payments s.
Proof.
  cbn zeta.
  set (today := setHoursZero tz now).
  pose proof (Sweep.swept_lookup tz now s) as Hlook. cbn zeta in Hlook.
  fold today in Hlook.
  split; [| split; [| split; [| split; [| split; [| split ] ] ] ] ].
  - split; [apply JSDateFacts.setHoursZero_le |].
    unfold today, setHoursZero, TimeWithinDay, LocalTime, UTC, MakeDate.
    replace (Day (now + tz) * msPerDay + 0 - tz + tz)
      with (Day (now + tz) * msPerDay) by lia.
    apply Z.mod_mul. unfold msPerDay. lia.
  - intros id m Hm Hdue. rewrite Hlook, Hm.
    apply Sweep.toUpdate_due in Hdue. rewrite Hdue. repeat split.
  - intros id m Hm Hdue. rewrite Hlook, Hm.
    destruct (DatabaseStorage.toUpdate today m) eqn:Hd; [| reflexivity].
    exfalso. apply Hdue, Sweep.toUpdate_due, Hd.
  - intros id Hm. rewrite Hlook, Hm. reflexivity.
  - destruct (Sweep.getMembers_unfold tz now s) as [-> _]. fold today.
    set (l := List.filter _ _).
    destruct (StorageFacts.forEach_sweep now l s) as (_ & Ha & _).
    exists (List.map (DatabaseStorage.expiredActivity now) l).
    split; [exact Ha |]. split.
    + intros a Hin. apply in_map_iff in Hin as ([id m] & <- & Hrow).
      split; [reflexivity |]. exists id, m. split; [reflexivity |].
      subst l. apply filter_In in Hrow as [Hrow Hd].
      split; [apply Sweep.in_membersList, Hrow | apply Sweep.toUpdate_due, Hd].
    + intros id m Hm Hdue. subst l.
      apply (StorageFacts.entriesFor_expired_one now id m
               (DatabaseStorage.toUpdate today)).
      * apply (NoDup_fst_map_to_list (members s)).
      * apply Sweep.in_membersList, Hm.
      * apply Sweep.toUpdate_due, Hdue.
  - intros id m'. destruct (Sweep.getMembers_unfold tz now s) as [_ ->].
    fold today. rewrite Hlook. split.
    + intros Hin. apply in_map_iff in Hin as ([id0 m0] & Heq & Hrow).
      apply Sweep.in_membersList in Hrow. cbn [fst snd] in Heq.
      destruct (DatabaseStorage.toUpdate today m0) eqn:Hd;
        injection Heq as <- <-; rewrite Hrow, Hd; reflexivity.
    + intros Hpost.
      destruct (members s !! id) as [m |] eqn:Hm; [| discriminate Hpost].
      injection Hpost as <-. apply in_map_iff. exists (id, m).
      split; [| apply Sweep.in_membersList, Hm].
      cbn [fst snd]. destruct (DatabaseStorage.toUpdate today m); reflexivity.
  - destruct (Sweep.getMembers_unfold tz now s) as [-> _]. fold today.
    set (l := List.filter _ _).
    destruct (StorageFacts.forEach_sweep now l s) as (_ & _ & Hu & Hp & Hpay & _).
    auto.
Qed.

(** The sweep on the small store at 10:00 on 15 January 2024: Ana, expired
    since the 10th, is flipped and logged once; Eva, who expires at 08:00 of
    the same day, is not before midnight and stays active. *)
Lemma getMembers_expiry_sweep_witness :
  let s' := after (DatabaseStorage.getMembers 0 Fixture.now) Fixture.store in
  members s' !! 1 = Some (DatabaseStorage.markExpired Fixture.ana)
  /\ members s' !! 3 = Some Fixture.eva.
Proof.
  cbn zeta.
  destruct (getMembers_expiry_sweep 0 Fixture.now Fixture.store)
    as (_ & Hdue & Hnot & _).
  split.
  - apply (Hdue 1 Fixture.ana); [reflexivity |].
    split; [reflexivity |]. exists (civil 2024 1 10 0).
    split; [reflexivity | vm_compute; reflexivity].
  - apply (Hnot 3 Fixture.eva); [reflexivity |].
    intros [_ (e & He & Hlt)]. injection He as <-.
    vm_compute in Hlt. discriminate Hlt.
Defined.

(** C5, at the failing input.  Iris is active and her membership expires
    on 15 January 2024; the members are listed at 10:00 that day.  Under the
    date-only comparison her expiry is not before today, and the sweep of
    [DatabaseStorage.getMembers], which brings today to midnight first,
    leaves her active and logs nothing for her.  The sweep of
    [MemStorage.getMembers] compares with the current instant: it sets her
    [expired], logs a [membership_expired] entry for her, and lists her as
    expired. *)
Theorem memGetMembers_compares_the_instant :
  let iris :=
    Fixture.member "Iris" "Soto" (Some "active") (Some 3)
      (Some (civil 2024 1 15 0)) in
  let store := withMembers (insert 4 iris) Fixture.store in
  let today := setHoursZero 0 Fixture.now in
  let db := DatabaseStorage.getMembers 0 Fixture.now in
  let mem := MemStorage.getMembers Fixture.now in
  (today = civil 2024 1 15 0 /\ ~ Outcome.due today iris)
  /\ (members (after db store) !! 4 = Some iris
      /\ Outcome.entriesFor "membership_expired" 4 (activities (after db store))
         = 0%nat
      /\ In (4, iris) (result db store))
  /\ (Member.status <$> members (after mem store) !! 4 = Some (Some "expired")
      /\ Outcome.entriesFor "membership_expired" 4 (activities (after mem store))
         = 1%nat
      /\ In (4, DatabaseStorage.markExpired iris) (result mem store)
      /\ ~ In (4, iris) (result mem store)).
Proof.
  cbn zeta. split; [split; [vm_compute; reflexivity |] |].
  { intros [_ (e & He & Hlt)]. injection He as <-.
    vm_compute in Hlt. discriminate Hlt. }
  split; [split; [| split] | split; [| split; [| split]]];
    try (vm_compute; reflexivity).
  - vm_compute. tauto.
  - vm_compute. tauto.
  - vm_compute. intuition discriminate.
Qed.

(** C6, as stated, fails.  Luis's payment for the plan [Mes] (one [month])
    is verified on 15 January 2024, which sets his expiry to 15 February,
    and once more on 20 March: the expiry is then past, the second
    extension starts from the day of the call and ends on 20 April, not on
    15 March, one more month onto the expiry he had.  His payment for the
    seeded plan [Mensual] verified twice on 15 January leaves his expiry on
    15 January both times: no duration is added at all.  The in-memory back
    end does the same with the instants. *)
Lemma verifyPayment_twice_counterexample :
  let expiryOf (s : Store) := Member.expiryDate <$> members s !! 2 in
  let january := civil 2024 1 15 0 in
  let march := civil 2024 3 20 0 in
  let s1 := after (Postgres.verifyPayment 0 january 2 1) Fixture.store in
  let s2 := after (Postgres.verifyPayment 0 march 2 1) s1 in
  let m1 := after (MemStorage.verifyPayment 0 january 2 1) Fixture.store in
  let m2 := after (MemStorage.verifyPayment 0 march 2 1) m1 in
  let t1 := after (Postgres.verifyPayment 0 Fixture.now 1 1) Fixture.store in
  let t2 := after (Postgres.verifyPayment 0 Fixture.now 1 1) t1 in
  let n1 := after (MemStorage.verifyPayment 0 Fixture.now 1 1) Fixture.store in
  let n2 := after (MemStorage.verifyPayment 0 Fixture.now 1 1) n1 in
  (Payment.status <$> payments s1 !! 2 = Some (Some "verified")
   /\ expiryOf s1 = Some (Some (civil 2024 2 15 0))
   /\ expiryOf s2 = Some (Some (civil 2024 4 20 0))
   /\ expiryOf m1 = Some (Some (civil 2024 2 15 0))
   /\ expiryOf m2 = Some (Some (civil 2024 4 20 0))
   /\ DatabaseStorage.verifyDurationSwitch 0 Fixture.mes (civil 2024 2 15 0)
      = civil 2024 3 15 0
   /\ civil 2024 4 20 0 <> civil 2024 3 15 0)
  /\ (Payment.status <$> payments t1 !! 1 = Some (Some "verified")
      /\ expiryOf t1 = Some (Some (civil 2024 1 15 0))
      /\ expiryOf t2 = Some (Some (civil 2024 1 15 0))
      /\ expiryOf n1 = Some (Some Fixture.now)
      /\ expiryOf n2 = Some (Some Fixture.now)).
Proof.
  cbn zeta. repeat split; try (vm_compute; reflexivity).
  vm_compute. discriminate.
Qed.

(** C6, amended.  [verifyPayment] has no guard on the payment's status:
    called on a payment that a first call already marked [verified], it goes
    through again, stamps the payment anew, runs the extension again and, in
    the database back end, logs [payment_verified] and
    [membership_activated] a second time.  The second extension starts from
    the expiry the first call left when that is not past, and stacks onto
    it: exactly one more duration for [day] and [week] plans, at least 28
    and at most 31 more days per month for [month] plans and, but for one
    day, 365 to 366 more days per year for [year] plans, the duration being
    positive.  When the expiry the first call left is past, the second
    extension starts from the time of the second call.  The database keeps
    the day of each expiry, the in-memory back end the instant. *)
Theorem verifyPayment_not_idempotent tz now1 now2 id adminId payment member
    admin plan s :
  payments s !! id = Some payment ->
  members s !! Payment.memberId payment = Some member ->
  users s !! adminId = Some admin ->
  membershipPlans s !! Payment.planId payment = Some plan ->
  let mid := Payment.memberId payment in
  let advance := DatabaseStorage.verifyDurationSwitch tz plan in
  let duration := MembershipPlan.duration plan in
  let d1 :=
    Postgres.dateColumn (advance (DatabaseStorage.verifyBaseDate member now1)) in
  let d2 := Postgres.dateColumn (advance (if d1 <? now2 then now2 else d1)) in
  let e1 := advance (DatabaseStorage.verifyBaseDate member now1) in
  let e2 := advance (if e1 <? now2 then now2 else e1) in
  let s1 := after (Postgres.verifyPayment tz now1 id adminId) s in
  let s2 := after (Postgres.verifyPayment tz now2 id adminId) s1 in
  let m1 := after (MemStorage.verifyPayment tz now1 id adminId) s in
  let m2 := after (MemStorage.verifyPayment tz now2 id adminId) m1 in
  (Payment.status <$> payments s1 !! id = Some (Some "verified")
   /\ (exists again,
         result (Postgres.verifyPayment tz now2 id adminId) s1
         = Postgres.Returned (Some again)
         /\ payments s2 !! id = Some again
         /\ Payment.status again = Some "verified"
         /\ Payment.verifiedAt again = Some now2)
   /\ Member.expiryDate <$> members s1 !! mid = Some (Some d1)
   /\ Member.expiryDate <$> members s2 !! mid = Some (Some d2)
   /\ Outcome.entriesFor "payment_verified" mid (activities s2)
      = (Outcome.entriesFor "payment_verified" mid (activities s) + 2)%nat
   /\ Outcome.entriesFor "membership_activated" mid (activities s2)
      = (Outcome.entriesFor "membership_activated" mid (activities s) + 2)%nat)
  /\ (Payment.status <$> payments m1 !! id = Some (Some "verified")
      /\ (exists again,
            result (MemStorage.verifyPayment tz now2 id adminId) m1 = Some again
            /\ Payment.status again = Some "verified"
            /\ Payment.verifiedAt again = Some now2)
      /\ Member.expiryDate <$> members m1 !! mid = Some (Some e1)
      /\ Member.expiryDate <$> members m2 !! mid = Some (Some e2))
  /\ (now2 <= d1 -> d2 = advance d1)
  /\ (now2 <= e1 -> e2 = advance e1)
  /\ (d1 < now2 -> d2 = Postgres.dateColumn (advance now2))
  /\ (e1 < now2 -> e2 = advance now2)
  /\ (forall t, 0 < duration ->
        (MembershipPlan.durationType plan = "day" ->
           advance t = t + duration * msPerDay)
        /\ (MembershipPlan.durationType plan = "week" ->
              advance t = t + duration * 7 * msPerDay)
        /\ (MembershipPlan.durationType plan = "month" ->
              t + 28 * duration * msPerDay <= advance t
              <= t + 31 * duration * msPerDay)
        /\ (MembershipPlan.durationType plan = "year" ->
              t + (365 * duration - 1) * msPerDay <= advance t
              <= t + (366 * duration + 1) * msPerDay)).
Proof.
  intros Hpay Hmem Hadm Hplan. cbn zeta.
  set (advance := DatabaseStorage.verifyDurationSwitch tz plan).
  set (d1 := Postgres.dateColumn
               (advance (DatabaseStorage.verifyBaseDate member now1))).
  set (e1 := advance (DatabaseStorage.verifyBaseDate member now1)).
  split; [| split; [| split; [| split; [| split; [| split]]]]].
  - assert (Hs1 : after (Postgres.verifyPayment tz now1 id adminId) s
                  = Outcome.datedVerifiedStore tz now1 id adminId payment
                      member admin plan s).
    { unfold after.
      rewrite (PostgresFacts.pg_verifyPayment_found _ _ _ _ _ _ _ _ _
                 Hpay Hmem Hadm Hplan). reflexivity. }
    rewrite Hs1. clear Hs1.
    set (s1 := Outcome.datedVerifiedStore tz now1 id adminId payment member
                 admin plan s).
    assert (Hpay1 : payments s1 !! id
                    = Some (Payment.settle "verified" adminId now1 None payment))
      by apply lookup_insert_eq.
    assert (Hmem1 : members s1 !! Payment.memberId payment
                    = Some (Member.merge member
                              {| Member.setStatus := Some "active";
                                 Member.setPlanId := Some (Payment.planId payment);
                                 Member.setExpiryDate := Some d1 |}))
      by apply lookup_insert_eq.
    split; [rewrite Hpay1; reflexivity |].
    unfold after, result.
    rewrite (PostgresFacts.pg_verifyPayment_found tz now2 id adminId _ _ admin plan s1
               Hpay1 Hmem1 Hadm Hplan).
    cbn [fst snd].
    split.
    { eexists. split; [reflexivity |].
      split; [apply lookup_insert_eq |]. split; reflexivity. }
    split; [rewrite Hmem1; reflexivity |].
    split.
    { unfold Outcome.datedVerifiedStore at 1.
      cbn [withMembers members Payment.memberId Payment.settle].
      rewrite lookup_insert_eq. reflexivity. }
    subst s1.
    unfold Outcome.datedVerifiedStore, Outcome.verifiedStore.
    cbn [activities withMembers].
    rewrite !StorageFacts.entriesFor_app.
    split.
    + unfold Outcome.entriesFor at 2 3.
      cbn [List.filter Activity.activityType Activity.memberId
           Payment.memberId Payment.settle].
      rewrite !Z.eqb_refl. cbn. lia.
    + unfold Outcome.entriesFor at 2 3.
      cbn [List.filter Activity.activityType Activity.memberId
           Payment.memberId Payment.settle].
      rewrite !Z.eqb_refl. cbn. lia.
  - assert (Hm1 : after (MemStorage.verifyPayment tz now1 id adminId) s
                  = Outcome.memVerifiedStore tz now1 id adminId payment
                      member admin plan s).
    { unfold after.
      rewrite (StorageFacts.mem_verifyPayment_found _ _ _ _ _ _ _ _ _
                 Hpay Hmem Hadm Hplan). reflexivity. }
    rewrite Hm1. clear Hm1.
    set (m1 := Outcome.memVerifiedStore tz now1 id adminId payment member admin plan s).
    assert (Hpay1 : payments m1 !! id
                    = Some (Payment.settle "verified" adminId now1 None payment))
      by apply lookup_insert_eq.
    assert (Hmem1 : members m1 !! Payment.memberId payment
                    = Some (Member.merge member
                              {| Member.setStatus := Some "active";
                                 Member.setPlanId := None;
                                 Member.setExpiryDate := Some e1 |}))
      by apply lookup_insert_eq.
    split; [rewrite Hpay1; reflexivity |].
    unfold after, result.
    rewrite (StorageFacts.mem_verifyPayment_found tz now2 id adminId _ _ admin plan m1
               Hpay1 Hmem1 Hadm Hplan).
    cbn [fst snd].
    split; [eexists; split; [reflexivity | split; reflexivity] |].
    split; [rewrite Hmem1; reflexivity |].
    cbn [Outcome.memVerifiedStore members Payment.memberId Payment.settle].
    rewrite lookup_insert_eq. reflexivity.
  - intros Hnow. destruct (Z.ltb_spec d1 now2); [lia |].
    apply PostgresFacts.dateColumn_verifyDurationSwitch.
    apply PostgresFacts.dateColumn_idem.
  - intros Hnow. destruct (Z.ltb_spec e1 now2); [lia | reflexivity].
  - intros Hnow. destruct (Z.ltb_spec d1 now2); [reflexivity | lia].
  - intros Hnow. destruct (Z.ltb_spec e1 now2); [reflexivity | lia].
  - intros t Hd. subst advance.
    unfold DatabaseStorage.verifyDurationSwitch. cbv zeta.
    split; [| split; [| split]]; intros ->; cbn.
    + apply JSDateFacts.setDate_getDate_add.
    + apply JSDateFacts.setDate_getDate_add.
    + pose proof (JSDateFacts.setMonth_getMonth_add tz t
                    (MembershipPlan.duration plan) ltac:(lia)). lia.
    + pose proof (JSDateFacts.setFullYear_getFullYear_add tz t
                    (MembershipPlan.duration plan) ltac:(lia)). lia.
Qed.

(** Luis's payment for the plan [Mes] (one [month]) verified twice at 10:00 on
    15 January 2024: the first call leaves his expiry on 15 February, the
    second, finding it not past, on 15 March. *)
Lemma verifyPayment_not_idempotent_witness :
  let s1 := after (Postgres.verifyPayment 0 Fixture.now 2 1) Fixture.store in
  let s2 := after (Postgres.verifyPayment 0 Fixture.now 2 1) s1 in
  Member.expiryDate <$> members s1 !! 2 = Some (Some (civil 2024 2 15 0))
  /\ Member.expiryDate <$> members s2 !! 2 = Some (Some (civil 2024 3 15 0)).
Proof.
  cbn zeta.
  destruct (verifyPayment_not_idempotent 0 Fixture.now Fixture.now 2 1
              (Fixture.pendingPayment 2 6) Fixture.luis Fixture.admin Fixture.mes
              Fixture.store eq_refl eq_refl eq_refl eq_refl)
    as ((_ & _ & H1 & H2 & _) & _ & Hstack & _).
  split.
  - etransitivity; [exact H1 |]. vm_compute. reflexivity.
  - etransitivity; [exact H2 |]. rewrite Hstack.
    + vm_compute. reflexivity.
    + vm_compute. discriminate.
Defined.

(** C7. Rejecting an existing payment, in either back end, returns and
    stores the payment with status [rejected], the admin's id as verifier
    and the current time as verification time; its member, plan, amount,
    date, method and receipt, and every other payment, stay as they were.
    The note is overwritten when one is given: [DatabaseStorage] keeps the
    old note when the argument is left out and writes the argument
    otherwise, [null] (which clears the note) and the empty string included;
    [MemStorage] writes the argument when it is a non-empty string and keeps
    the old note otherwise.  The member table, the plans and the users are
    left exactly as they were.  When the referenced member and the admin are
    found, the log grows by one [payment_rejected] entry carrying the
    member's and the admin's ids.  Over the tables of the schema a call in
    the name of a stored user completes with this very outcome. *)
Theorem rejectPayment_sets_payment_only now id adminId notes payment s :
  payments s !! id = Some payment ->
  let holds (back : M (option Payment.t)) (newNotes : option string) :=
    let s' := after back s in
    exists rejected,
      result back s = Some rejected
      /\ payments s' !! id = Some rejected
      /\ Payment.status rejected = Some "rejected"
      /\ Payment.verifiedById rejected = Some adminId
      /\ Payment.verifiedAt rejected = Some now
      /\ Payment.notes rejected = newNotes
      /\ Payment.memberId rejected = Payment.memberId payment
      /\ Payment.planId rejected = Payment.planId payment
      /\ Payment.amount rejected = Payment.amount payment
      /\ Payment.paymentDate rejected = Payment.paymentDate payment
      /\ Payment.paymentMethod rejected = Payment.paymentMethod payment
      /\ Payment.receiptUrl rejected = Payment.receiptUrl payment
      /\ (forall j, j <> id -> payments s' !! j = payments s !! j)
      /\ members s' = members s
      /\ membershipPlans s' = membershipPlans s
      /\ users s' = users s
      /\ (forall member admin,
            members s !! Payment.memberId payment = Some member ->
            users s !! adminId = Some admin ->
            exists entry,
              activities s' = activities s ++ [entry]
              /\ Activity.activityType entry = "payment_rejected"
              /\ Activity.memberId entry = Some (Payment.memberId payment)
              /\ Activity.userId entry = Some adminId) in
  holds (DatabaseStorage.rejectPayment now id adminId notes)
    (match notes with
     | Some written => written
     | None => Payment.notes payment
     end)
  /\ holds (MemStorage.rejectPayment now id adminId notes)
       (match notes with
        | Some (Some n) =>
            if String.eqb n "" then Payment.notes payment else Some n
        | _ => Payment.notes payment
        end)
  /\ (forall admin, users s !! adminId = Some admin ->
        Postgres.rejectPayment now id adminId notes s
        = (Postgres.Returned
             (result (DatabaseStorage.rejectPayment now id adminId notes) s),
           after (DatabaseStorage.rejectPayment now id adminId notes) s)).
Proof.
  intros Hpay. cbn zeta. split; [| split].
  3: { intros admin Hadm. apply (PostgresFacts.pg_rejectPayment_accepted _ _ _ _ _ _ Hadm). }
  - eexists. unfold after, result.
    rewrite (StorageFacts.rejectPayment_found _ _ _ _ _ _ Hpay).
    cbn [fst snd payments members membershipPlans users activities].
    split; [reflexivity |]. split; [apply lookup_insert_eq |].
    do 10 (split; [reflexivity |]).
    split; [intros j Hj; apply lookup_insert_ne; congruence |].
    do 3 (split; [reflexivity |]).
    intros member admin -> ->. eexists. split; [reflexivity |]. repeat split.
  - eexists. unfold after, result.
    rewrite (StorageFacts.mem_rejectPayment_found _ _ _ _ _ _ Hpay).
    cbn [fst snd payments members membershipPlans users activities].
    split; [reflexivity |]. split; [apply lookup_insert_eq |].
    do 3 (split; [reflexivity |]).
    split.
    { cbn. destruct notes as [[n |] |]; cbn; try reflexivity.
      destruct (String.eqb n ""); reflexivity. }
    do 6 (split; [reflexivity |]).
    split; [intros j Hj; apply lookup_insert_ne; congruence |].
    do 3 (split; [reflexivity |]).
    intros member admin -> ->. eexists. split; [reflexivity |]. repeat split.
Qed.

(** Rejecting Luis's pending payment with a [null] note, as the reject route
    passes it on from a body that says so: the member table stays, the
    database row loses its note and the in-memory object keeps it. *)
Lemma rejectPayment_sets_payment_only_witness :
  let db := DatabaseStorage.rejectPayment Fixture.now 1 1 (Some None) in
  let mem := MemStorage.rejectPayment Fixture.now 1 1 (Some None) in
  members (after db Fixture.store) = members Fixture.store
  /\ (exists rejected,
        payments (after db Fixture.store) !! 1 = Some rejected
        /\ Payment.status rejected = Some "rejected"
        /\ Payment.notes rejected = None)
  /\ (exists rejected,
        payments (after mem Fixture.store) !! 1 = Some rejected
        /\ Payment.notes rejected = Some "comprobante").
Proof.
  cbn zeta.
  destruct (rejectPayment_sets_payment_only Fixture.now 1 1 (Some None)
              (Fixture.pendingPayment 2 3) Fixture.store eq_refl)
    as ((r & _ & Hstored & Hstatus & _ & _ & Hnotes & _ & _ & _ & _ & _ & _
           & _ & Hmembers & _)
        & (r' & _ & Hstored' & _ & _ & _ & Hnotes' & _) & _).
  split; [exact Hmembers |]. split.
  - exists r. split; [exact Hstored |]. split; [exact Hstatus | exact Hnotes].
  - exists r'. split; [exact Hstored' | exact Hnotes'].
Defined.

(** C8. [verifyPayment] and [rejectPayment] on a payment id that is not in
    the payment table return nothing and leave the whole store as it was: no
    payment, member or log entry is created or changed; their routes answer
    404.  The same holds in the in-memory back end. *)
Theorem missing_payment_leaves_store tz now id adminId notes s :
  payments s !! id = None ->
  DatabaseStorage.verifyPayment tz now id adminId s = (None, s)
  /\ DatabaseStorage.rejectPayment now id adminId notes s = (None, s)
  /\ Routes.verify tz now id adminId s
     = (Routes.Message 404 "Pago no encontrado", s)
  /\ Routes.reject now id adminId notes s
     = (Routes.Message 404 "Pago no encontrado", s)
  /\ MemStorage.verifyPayment tz now id adminId s = (None, s)
  /\ MemStorage.rejectPayment now id adminId notes s = (None, s).
Proof.
  intros Hpay.
  pose proof (StorageFacts.verifyPayment_missing tz now id adminId s Hpay) as Hv.
  pose proof (StorageFacts.rejectPayment_missing now id adminId notes s Hpay) as Hr.
  repeat split.
  - exact Hv.
  - exact Hr.
  - unfold Routes.verify, bind. rewrite Hv. reflexivity.
  - unfold Routes.reject, bind. rewrite Hr. reflexivity.
  - apply StorageFacts.mem_verifyPayment_missing, Hpay.
  - apply StorageFacts.mem_rejectPayment_missing, Hpay.
Qed.

(** There is no payment 99 in the small store. *)
Lemma missing_payment_leaves_store_witness :
  DatabaseStorage.verifyPayment 0 Fixture.now 99 1 Fixture.store
  = (None, Fixture.store)
  /\ DatabaseStorage.rejectPayment Fixture.now 99 1 None Fixture.store
     = (None, Fixture.store).
Proof.
  destruct (missing_payment_leaves_store 0 Fixture.now 99 1 None Fixture.store
              eq_refl) as (Hverify & Hreject & _).
  split; [exact Hverify | exact Hreject].
Defined.

(** C10, as stated, fails.  User 7 is not a stored user: the update that
    would mark Luis's payment verified in that name is refused by the
    reference of [verified_by_id], so the call ends in an error, which the
    caller sees, and the payment is still pending. *)
Lemma verifyPayment_unknown_admin_counterexample :
  let call := Postgres.verifyPayment 0 Fixture.now 1 7 in
  payments Fixture.store !! 1 = Some (Fixture.pendingPayment 2 3)
  /\ users Fixture.store !! 7 = None
  /\ result call Fixture.store = Postgres.Thrown
  /\ Payment.status <$> payments (after call Fixture.store) !! 1
     = Some (Some "pending").
Proof. cbn zeta. repeat split; vm_compute; reflexivity. Qed.

(** C10, amended.  In [DatabaseStorage.verifyPayment] over the tables of the
    schema, when the payment is found: if the verifying user is not a stored
    user the call fails with an error and leaves every table as it was, the
    payment unverified; the member and the plan of a stored payment are
    always found, so when the verifying user is stored nothing is skipped:
    the payment is returned and stored as [verified] with the admin's id and
    the current time, the member is set active on the plan with the expiry
    date computed, one [payment_verified] and one [membership_activated]
    entry are logged for the member, and the references still hold. *)
Theorem verifyPayment_references_are_enforced tz now id adminId payment s :
  Postgres.referencesHold s ->
  payments s !! id = Some payment ->
  let call := Postgres.verifyPayment tz now id adminId in
  let mid := Payment.memberId payment in
  (users s !! adminId = None ->
     result call s = Postgres.Thrown /\ after call s = s)
  /\ (forall admin, users s !! adminId = Some admin ->
        exists member plan verified updated,
          members s !! mid = Some member
          /\ membershipPlans s !! Payment.planId payment = Some plan
          /\ result call s = Postgres.Returned (Some verified)
          /\ payments (after call s) !! id = Some verified
          /\ Payment.status verified = Some "verified"
          /\ Payment.verifiedById verified = Some adminId
          /\ Payment.verifiedAt verified = Some now
          /\ members (after call s) !! mid = Some updated
          /\ Member.status updated = Some "active"
          /\ Member.planId updated = Some (Payment.planId payment)
          /\ Member.expiryDate updated
             = Some (Postgres.dateColumn
                       (DatabaseStorage.verifyDurationSwitch tz plan
                          (DatabaseStorage.verifyBaseDate member now)))
          /\ Outcome.entriesFor "payment_verified" mid (activities (after call s))
             = S (Outcome.entriesFor "payment_verified" mid (activities s))
          /\ Outcome.entriesFor "membership_activated" mid
               (activities (after call s))
             = S (Outcome.entriesFor "membership_activated" mid (activities s))
          /\ Postgres.referencesHold (after call s)).
Proof.
  intros Hrefs Hpay. cbn zeta. split.
  - intros Hadm. unfold result, after.
    rewrite (PostgresFacts.verifyPayment_refused _ _ _ _ _ _ Hpay Hadm).
    split; reflexivity.
  - intros admin Hadm.
    destruct (PostgresFacts.references_found s id payment Hrefs Hpay)
      as (member & plan & Hmem & Hplan).
    exists member, plan. eexists. eexists.
    unfold result, after.
    rewrite (PostgresFacts.pg_verifyPayment_found _ _ _ _ _ _ _ _ _
               Hpay Hmem Hadm Hplan).
    cbn [fst snd].
    split; [exact Hmem |]. split; [exact Hplan |]. split; [reflexivity |].
    split.
    { unfold Outcome.datedVerifiedStore, Outcome.verifiedStore. cbn.
      apply lookup_insert_eq. }
    do 3 (split; [reflexivity |]).
    split.
    { unfold Outcome.datedVerifiedStore. cbn. apply lookup_insert_eq. }
    do 3 (split; [reflexivity |]).
    split; [| split].
    + unfold Outcome.datedVerifiedStore, Outcome.verifiedStore. cbn [activities withMembers].
      rewrite StorageFacts.entriesFor_app.
      unfold Outcome.entriesFor at 2.
      cbn [List.filter Activity.activityType Activity.memberId].
      rewrite !Z.eqb_refl. cbn. lia.
    + unfold Outcome.datedVerifiedStore, Outcome.verifiedStore. cbn [activities withMembers].
      rewrite StorageFacts.entriesFor_app.
      unfold Outcome.entriesFor at 2.
      cbn [List.filter Activity.activityType Activity.memberId].
      rewrite !Z.eqb_refl. cbn. lia.
    + apply PostgresFacts.verifyPayment_keeps_references; assumption.
Qed.

(** Luis's payment for the plan [Mensual]: verified in the name of user 7,
    who does not exist, the call fails and the store is as it was; verified
    by the admin, it sets Luis active. *)
Lemma verifyPayment_references_are_enforced_witness :
  after (Postgres.verifyPayment 0 Fixture.now 1 7) Fixture.store = Fixture.store
  /\ exists updated,
       members (after (Postgres.verifyPayment 0 Fixture.now 1 1) Fixture.store)
         !! 2 = Some updated
       /\ Member.status updated = Some "active".
Proof.
  split.
  - destruct (verifyPayment_references_are_enforced 0 Fixture.now 1 7
                (Fixture.pendingPayment 2 3) Fixture.store
                PostgresFacts.fixture_referencesHold eq_refl) as [Hrefused _].
    apply (Hrefused eq_refl).
  - destruct (verifyPayment_references_are_enforced 0 Fixture.now 1 1
                (Fixture.pendingPayment 2 3) Fixture.store
                PostgresFacts.fixture_referencesHold eq_refl) as [_ Hfound].
    destruct (Hfound Fixture.admin eq_refl)
      as (member & plan & verified & updated & _ & _ & _ & _ & _ & _ & _
          & Hupdated & Hactive & _).
    exists updated. split; [exact Hupdated | exact Hactive].
Defined.

(** C9, at the failing inputs.  From the same store and the same arguments
    the two back ends part ways on three of the four operations.  Creating a
    payment for Luis without a status: [DatabaseStorage] stores it as
    [verified] and sets Luis active, [MemStorage] stores it without a status
    and leaves Luis pending.  Verifying Luis's payment for plan 6:
    [DatabaseStorage] sets his plan and logs [membership_activated],
    [MemStorage] does neither.  Listing the members at 10:00 on 15 January
    2024: Eva, who expires at 08:00 that day, stays active in
    [DatabaseStorage] (not before midnight) and is expired by [MemStorage]
    (before the current instant). *)
Theorem backends_diverge :
  let paymentData :=
    {| InsertPayment.memberId := 2; InsertPayment.amount := 7000;
       InsertPayment.paymentDate := Some (civil 2024 1 15 0);
       InsertPayment.paymentMethod := "Yape"; InsertPayment.planId := 3;
       InsertPayment.status := None; InsertPayment.receiptUrl := None;
       InsertPayment.notes := None; InsertPayment.verifiedById := None;
       InsertPayment.verifiedAt := None |} in
  let dbCreate := DatabaseStorage.createPayment 0 Fixture.now paymentData in
  let memCreate := MemStorage.createPayment Fixture.now paymentData in
  let dbVerify := DatabaseStorage.verifyPayment 0 Fixture.now 2 1 in
  let memVerify := MemStorage.verifyPayment 0 Fixture.now 2 1 in
  let dbList := DatabaseStorage.getMembers 0 Fixture.now in
  let memList := MemStorage.getMembers Fixture.now in
  (Payment.status (snd (result dbCreate Fixture.store)) = Some "verified"
   /\ Payment.status (snd (result memCreate Fixture.store)) = None
   /\ Member.status <$> members (after dbCreate Fixture.store) !! 2
      = Some (Some "active")
   /\ Member.expiryDate <$> members (after dbCreate Fixture.store) !! 2
      = Some (Some (civil 2024 2 16 0))
   /\ members (after memCreate Fixture.store) !! 2 = Some Fixture.luis)
  /\ (Member.planId <$> members (after dbVerify Fixture.store) !! 2
      = Some (Some 6)
      /\ Member.planId <$> members (after memVerify Fixture.store) !! 2
         = Some None
      /\ Outcome.entriesFor "membership_activated" 2
           (activities (after dbVerify Fixture.store)) = 1%nat
      /\ Outcome.entriesFor "membership_activated" 2
           (activities (after memVerify Fixture.store)) = 0%nat)
  /\ (Member.status <$> members (after dbList Fixture.store) !! 3
      = Some (Some "active")
      /\ Member.status <$> members (after memList Fixture.store) !! 3
         = Some (Some "expired")
      /\ result dbList Fixture.store <> result memList Fixture.store).
Proof.
  cbn zeta. repeat split; try (vm_compute; reflexivity).
  vm_compute. discriminate.
Qed.


(** * Further properties of the storage and its routes *)

(** ** Equations for the queries and the remaining operations *)
Module QueryFacts.
Import JSDate JSDateFacts Outcome StorageFacts.

Lemma in_paymentsList (ps : gmap Z Payment.t) id p :
  In (id, p) (map_to_list ps) <-> ps !! id = Some p.
Proof. rewrite <- list_elem_of_In. apply elem_of_map_to_list. Qed.

Lemma in_getPendingPayments s row :
  In row (result DatabaseStorage.getPendingPayments s)
  <-> payments s !! fst row = Some (snd row)
      /\ DatabaseStorage.isPending (snd row) = true.
Proof.
  unfold result, DatabaseStorage.getPendingPayments, gets. cbn [fst].
  rewrite filter_In. destruct row as [id p]. rewrite in_paymentsList. reflexivity.
Qed.

Lemma isPending_status p :
  DatabaseStorage.isPending p = true <-> Payment.status p = Some "pending".
Proof.
  unfold DatabaseStorage.isPending. destruct (Payment.status p) as [st |].
  - rewrite String.eqb_eq. split; [intros -> | intros [= ->]]; reflexivity.
  - split; discriminate.
Qed.

Lemma in_getPaymentsByMember s m row :
  In row (result (DatabaseStorage.getPaymentsByMember m) s)
  <-> payments s !! fst row = Some (snd row) /\ Payment.memberId (snd row) = m.
Proof.
  unfold result, DatabaseStorage.getPaymentsByMember, gets. cbn [fst].
  rewrite filter_In, Z.eqb_eq. destruct row as [id p].
  rewrite in_paymentsList. reflexivity.
Qed.

Lemma in_getPayments s row :
  In row (result DatabaseStorage.getPayments s)
  <-> payments s !! fst row = Some (snd row).
Proof.
  unfold result, DatabaseStorage.getPayments, gets. cbn [fst].
  destruct row as [id p]. apply in_paymentsList.
Qed.

(** [verifyPayment] writes the payment table the same way whether or not
    the member, the plan and the admin are found. *)
Lemma verifyPayment_payments tz now id adminId payment s :
  payments s !! id = Some payment ->
  payments (after (DatabaseStorage.verifyPayment tz now id adminId) s)
  = <[id := Payment.settle "verified" adminId now None payment]> (payments s).
Proof.
  intros Hpay. unfold after.
  destruct (members s !! Payment.memberId payment) as [m |] eqn:Hm;
    [destruct (users s !! adminId) as [a |] eqn:Ha;
      [destruct (membershipPlans s !! Payment.planId payment) as [pl |] eqn:Hpl |] |].
  - rewrite (verifyPayment_found _ _ _ _ _ _ _ _ _ Hpay Hm Ha Hpl). reflexivity.
  - rewrite (verifyPayment_partial _ _ _ _ _ _ Hpay); [reflexivity | auto].
  - rewrite (verifyPayment_partial _ _ _ _ _ _ Hpay); [reflexivity | auto].
  - rewrite (verifyPayment_partial _ _ _ _ _ _ Hpay); [reflexivity | auto].
Qed.

Lemma rejectPayment_payments now id adminId notes payment s :
  payments s !! id = Some payment ->
  payments (after (DatabaseStorage.rejectPayment now id adminId notes) s)
  = <[id := Payment.settle "rejected" adminId now notes payment]> (payments s).
Proof.
  intros Hpay. unfold after.
  rewrite (rejectPayment_found _ _ _ _ _ _ Hpay). reflexivity.
Qed.

(** *** What each operation leaves of the other tables *)

Lemma createPayment_frame tz now paymentData s :
  let s' := after (DatabaseStorage.createPayment tz now paymentData) s in
  appendsAtMost 2 s s' /\ paymentIdCounter s' = paymentIdCounter s + 1.
Proof.
  unfold after, appendsAtMost. unfold_db.
  destruct (members s !! InsertPayment.memberId paymentData) as [m |] eqn:Hm;
    destruct (membershipPlans s !! InsertPayment.planId paymentData)
      as [pl |] eqn:Hpl;
    destruct (String.eqb (DatabaseStorage.resolveStatus
                            (InsertPayment.status paymentData)) "verified");
    repeat (progress (cbn; rewrite ?Hm, ?Hpl));
    (split; [split; [| split; reflexivity] | reflexivity]);
    try (exists []; rewrite app_nil_r; split; [reflexivity | cbn; lia]).
  - rewrite <- app_assoc. eexists. split; [reflexivity | cbn; lia].
  - eexists. split; [reflexivity | cbn; lia].
Qed.

Lemma verifyPayment_frame tz now id adminId s :
  let s' := after (DatabaseStorage.verifyPayment tz now id adminId) s in
  appendsAtMost 3 s s' /\ paymentIdCounter s' = paymentIdCounter s.
Proof.
  cbn zeta. unfold after, appendsAtMost.
  destruct (payments s !! id) as [p |] eqn:Hpay.
  - destruct (members s !! Payment.memberId p) as [m |] eqn:Hm;
      [destruct (users s !! adminId) as [a |] eqn:Ha;
        [destruct (membershipPlans s !! Payment.planId p) as [pl |] eqn:Hpl |] |].
    + rewrite (verifyPayment_found _ _ _ _ _ _ _ _ _ Hpay Hm Ha Hpl). cbn.
      repeat split. eexists. split; [reflexivity | cbn; lia].
    + rewrite (verifyPayment_partial _ _ _ _ _ _ Hpay) by auto. cbn.
      repeat split. exists []. rewrite app_nil_r. split; [reflexivity | cbn; lia].
    + rewrite (verifyPayment_partial _ _ _ _ _ _ Hpay) by auto. cbn.
      repeat split. exists []. rewrite app_nil_r. split; [reflexivity | cbn; lia].
    + rewrite (verifyPayment_partial _ _ _ _ _ _ Hpay) by auto. cbn.
      repeat split. exists []. rewrite app_nil_r. split; [reflexivity | cbn; lia].
  - rewrite (verifyPayment_missing _ _ _ _ _ Hpay). cbn.
    repeat split. exists []. rewrite app_nil_r. split; [reflexivity | cbn; lia].
Qed.

Lemma rejectPayment_frame now id adminId notes s :
  let s' := after (DatabaseStorage.rejectPayment now id adminId notes) s in
  appendsAtMost 1 s s' /\ paymentIdCounter s' = paymentIdCounter s
  /\ members s' = members s.
Proof.
  cbn zeta. unfold after, appendsAtMost.
  destruct (payments s !! id) as [p |] eqn:Hpay.
  - rewrite (rejectPayment_found _ _ _ _ _ _ Hpay). cbn.
    repeat split. eexists. split; [reflexivity |].
    destruct (members s !! Payment.memberId p), (users s !! adminId); cbn; lia.
  - rewrite (rejectPayment_missing _ _ _ _ _ Hpay). cbn.
    repeat split. exists []. rewrite app_nil_r. split; [reflexivity | cbn; lia].
Qed.

(** [updateMember], in full. *)
Lemma updateMember_eq now id memberData s :
  DatabaseStorage.updateMember now id memberData s
  = match members s !! id with
    | Some m =>
        let m' := Member.merge m memberData in
        (Some m',
         {| users := users s;
            membershipPlans := membershipPlans s;
            members := <[id := m']> (members s);
            payments := payments s;
            activities :=
              activities s ++
              [ {| Activity.userId := None;
                   Activity.memberId := Some id;
                   Activity.activityType := "member_updated";
                   Activity.description :=
                     "Member updated: " +:+ Member.fullName m';
                   Activity.timestamp := now |} ];
            paymentIdCounter := paymentIdCounter s |})
    | None => (None, s)
    end.
Proof.
  unfold_db. destruct (members s !! id) as [m |]; reflexivity.
Qed.

Lemma mem_updateMember_eq now id memberData s :
  MemStorage.updateMember now id memberData s
  = DatabaseStorage.updateMember now id memberData s.
Proof.
  rewrite updateMember_eq. unfold_mem. cbn.
  destruct (members s !! id) as [m |]; reflexivity.
Qed.

(** [deleteMember], in full. *)
Lemma deleteMember_eq now id s :
  DatabaseStorage.deleteMember now id s
  = (true,
     {| users := users s;
        membershipPlans := membershipPlans s;
        members := delete id (members s);
        payments := payments s;
        activities :=
          activities s ++
          match members s !! id with
          | Some m =>
              [ {| Activity.userId := None;
                   Activity.memberId := None;
                   Activity.activityType := "member_deleted";
                   Activity.description :=
                     "Member deleted: " +:+ Member.fullName m;
                   Activity.timestamp := now |} ]
          | None => []
          end;
        paymentIdCounter := paymentIdCounter s |}).
Proof.
  unfold DatabaseStorage.deleteMember. unfold_db. cbn.
  destruct (members s !! id) as [m |]; cbn; [reflexivity |].
  rewrite app_nil_r. reflexivity.
Qed.

Lemma mem_deleteMember_eq now id s :
  MemStorage.deleteMember now id s
  = (match members s !! id with Some _ => true | None => false end,
     after (DatabaseStorage.deleteMember now id) s).
Proof.
  unfold after. rewrite deleteMember_eq. cbn [snd].
  unfold MemStorage.deleteMember. unfold_mem.
  destruct (members s !! id) as [m |] eqn:Hm;
    repeat (progress (cbn; rewrite ?Hm, ?lookup_delete_eq));
    rewrite ?app_nil_r; reflexivity.
Qed.

Lemma getMembers_frame tz now s :
  let s' := after (DatabaseStorage.getMembers tz now) s in
  appendsAtMost (size (members s)) s s'
  /\ paymentIdCounter s' = paymentIdCounter s
  /\ payments s' = payments s.
Proof.
  cbn zeta. destruct (Sweep.getMembers_unfold tz now s) as [-> _].
  set (l := List.filter _ _).
  destruct (forEach_sweep now l s) as (_ & Ha & Hu & Hp & Hpay & Hc).
  unfold appendsAtMost. repeat split; try assumption.
  eexists. split; [exact Ha |].
  rewrite length_map. subst l.
  etransitivity; [apply List.filter_length_le |].
  rewrite length_map_to_list. reflexivity.
Qed.

End QueryFacts.

(** X1. The list of pending payments holds exactly the stored payments whose
    status is [pending]; verifying or rejecting a payment takes it off the
    list and leaves the rest of the list as it was. *)
Theorem pending_list_follows_status tz now id adminId notes payment s :
  payments s !! id = Some payment ->
  let pending (s : Store) := result DatabaseStorage.getPendingPayments s in
  (forall row, In row (pending s)
               <-> payments s !! fst row = Some (snd row)
                   /\ Payment.status (snd row) = Some "pending")
  /\ (forall row,
        In row (pending (after (DatabaseStorage.verifyPayment tz now id adminId) s))
        <-> In row (pending s) /\ fst row <> id)
  /\ (forall row,
        In row (pending (after (DatabaseStorage.rejectPayment now id adminId notes) s))
        <-> In row (pending s) /\ fst row <> id).
Proof.
  intros Hpay. cbn zeta.
  assert (Hgen : forall st newNotes (s' : Store),
            payments s'
            = <[id := Payment.settle st adminId now newNotes payment]> (payments s) ->
            st <> "pending" ->
            forall row, In row (result DatabaseStorage.getPendingPayments s')
                        <-> In row (result DatabaseStorage.getPendingPayments s)
                            /\ fst row <> id).
  { intros st newNotes s' Hs' Hst [j p]. rewrite !QueryFacts.in_getPendingPayments.
    cbn [fst snd]. rewrite Hs'. destruct (decide (id = j)) as [<- | Hne].
    - rewrite lookup_insert_eq. split.
      + intros [[= <-] Hp]. apply QueryFacts.isPending_status in Hp.
        cbn in Hp. congruence.
      + intros [_ Hne]. congruence.
    - rewrite lookup_insert_ne by exact Hne. split.
      + intros H. split; [exact H | congruence].
      + intros [H _]. exact H. }
  split; [| split].
  - intros row. rewrite QueryFacts.in_getPendingPayments,
      QueryFacts.isPending_status. reflexivity.
  - apply (Hgen "verified" None).
    + apply QueryFacts.verifyPayment_payments, Hpay.
    + discriminate.
  - apply (Hgen "rejected" notes).
    + apply QueryFacts.rejectPayment_payments, Hpay.
    + discriminate.
Qed.

(** Luis's two payments are pending; after the first is verified only the
    second is. *)
Lemma pending_list_follows_status_witness :
  let s' := after (DatabaseStorage.verifyPayment 0 Fixture.now 1 1) Fixture.store in
  ~ In (1, Payment.settle "verified" 1 Fixture.now None (Fixture.pendingPayment 2 3))
       (result DatabaseStorage.getPendingPayments s')
  /\ In (2, Fixture.pendingPayment 2 6)
        (result DatabaseStorage.getPendingPayments s').
Proof.
  cbn zeta.
  destruct (pending_list_follows_status 0 Fixture.now 1 1 None
              (Fixture.pendingPayment 2 3) Fixture.store eq_refl)
    as (Hlist & Hverify & _).
  split.
  - intros Hin. apply Hverify in Hin as [_ Hne]. apply Hne. reflexivity.
  - apply Hverify. split; [| cbn; lia].
    apply Hlist. split; reflexivity.
Defined.

(** ** Payment ids and what no operation undoes *)
Module GrowFacts.
Import JSDate Outcome StorageFacts QueryFacts.

Lemma counter_is_free s :
  idsBelowCounter s -> payments s !! paymentIdCounter s = None.
Proof.
  intros Hinv. destruct (payments s !! paymentIdCounter s) as [p |] eqn:Hp;
    [| reflexivity].
  apply Hinv in Hp. lia.
Qed.

Lemma grows_build (s s' : Store) n :
  appendsAtMost n s s' ->
  paymentIdCounter s <= paymentIdCounter s' ->
  (forall id p, payments s !! id = Some p ->
     exists p', payments s' !! id = Some p'
                /\ Payment.memberId p' = Payment.memberId p
                /\ Payment.planId p' = Payment.planId p
                /\ Payment.amount p' = Payment.amount p
                /\ Payment.paymentDate p' = Payment.paymentDate p) ->
  grows s s'.
Proof.
  intros ((new & Hnew & _) & Hu & Hp) Hc Hpay.
  unfold grows. repeat split; try assumption. exists new. exact Hnew.
Qed.

Lemma kept_same (ps : gmap Z Payment.t) id p :
  ps !! id = Some p ->
  exists p', ps !! id = Some p'
             /\ Payment.memberId p' = Payment.memberId p
             /\ Payment.planId p' = Payment.planId p
             /\ Payment.amount p' = Payment.amount p
             /\ Payment.paymentDate p' = Payment.paymentDate p.
Proof. intros H. exists p. repeat split. exact H. Qed.

Lemma kept_settle (ps : gmap Z Payment.t) j q st adminId now notes id p :
  ps !! j = Some q ->
  ps !! id = Some p ->
  exists p', <[j := Payment.settle st adminId now notes q]> ps !! id = Some p'
             /\ Payment.memberId p' = Payment.memberId p
             /\ Payment.planId p' = Payment.planId p
             /\ Payment.amount p' = Payment.amount p
             /\ Payment.paymentDate p' = Payment.paymentDate p.
Proof.
  intros Hq Hp. destruct (decide (j = id)) as [-> | Hne].
  - rewrite lookup_insert_eq. rewrite Hq in Hp. injection Hp as ->.
    eexists. split; [reflexivity |]. repeat split.
  - rewrite lookup_insert_ne by exact Hne. apply kept_same, Hp.
Qed.

Lemma kept_fresh (ps : gmap Z Payment.t) c row id p :
  ps !! c = None ->
  ps !! id = Some p ->
  exists p', <[c := row]> ps !! id = Some p'
             /\ Payment.memberId p' = Payment.memberId p
             /\ Payment.planId p' = Payment.planId p
             /\ Payment.amount p' = Payment.amount p
             /\ Payment.paymentDate p' = Payment.paymentDate p.
Proof.
  intros Hc Hp. rewrite lookup_insert_ne by congruence. apply kept_same, Hp.
Qed.

Lemma below_settle (s s' : Store) j q st adminId now notes :
  idsBelowCounter s ->
  payments s !! j = Some q ->
  payments s' = <[j := Payment.settle st adminId now notes q]> (payments s) ->
  paymentIdCounter s' = paymentIdCounter s ->
  idsBelowCounter s'.
Proof.
  intros Hinv Hq Hs' Hc id p. rewrite Hs', Hc, lookup_insert.
  destruct (decide (j = id)) as [<- | _].
  - intros _. apply (Hinv j q Hq).
  - apply Hinv.
Qed.

Lemma below_same (s s' : Store) :
  idsBelowCounter s ->
  payments s' = payments s ->
  paymentIdCounter s' = paymentIdCounter s ->
  idsBelowCounter s'.
Proof. intros Hinv Hs' Hc id p. rewrite Hs', Hc. apply Hinv. Qed.

Lemma grows_refl s : grows s s.
Proof.
  unfold grows. repeat split; try lia.
  - exists []. rewrite app_nil_r. reflexivity.
  - intros id p. apply kept_same.
Qed.

Lemma grows_trans s1 s2 s3 : grows s1 s2 -> grows s2 s3 -> grows s1 s3.
Proof.
  intros ((n1 & Ha1) & Hu1 & Hp1 & Hc1 & Hk1) ((n2 & Ha2) & Hu2 & Hp2 & Hc2 & Hk2).
  unfold grows. repeat split; try congruence; try lia.
  - exists (n1 ++ n2). rewrite Ha2, Ha1, app_assoc. reflexivity.
  - intros id p Hp.
    destruct (Hk1 id p Hp) as (p' & Hp' & E1 & E2 & E3 & E4).
    destruct (Hk2 id p' Hp') as (p'' & Hp'' & F1 & F2 & F3 & F4).
    exists p''. repeat split; congruence.
Qed.

End GrowFacts.

(** X2. While every stored payment has an id below the payment counter,
    [createPayment] gives the new payment an id no payment has: the lists of
    all payments and of each member's payments gain exactly that payment
    (under its own member), it is on the pending list exactly when its
    status resolved to [pending], and every id stays below the counter. *)
Theorem createPayment_takes_fresh_id tz now paymentData s :
  Outcome.idsBelowCounter s ->
  let created := result (DatabaseStorage.createPayment tz now paymentData) s in
  let s' := after (DatabaseStorage.createPayment tz now paymentData) s in
  payments s !! fst created = None
  /\ (forall row, In row (result DatabaseStorage.getPayments s')
                  <-> row = created \/ In row (result DatabaseStorage.getPayments s))
  /\ (forall m row,
        In row (result (DatabaseStorage.getPaymentsByMember m) s')
        <-> (row = created /\ InsertPayment.memberId paymentData = m)
            \/ In row (result (DatabaseStorage.getPaymentsByMember m) s))
  /\ (In created (result DatabaseStorage.getPendingPayments s')
      <-> DatabaseStorage.resolveStatus (InsertPayment.status paymentData)
          = "pending")
  /\ Outcome.idsBelowCounter s'.
Proof.
  intros Hinv. cbn zeta.
  destruct (StorageFacts.createPayment_stored tz now paymentData s) as [Hres Hpays].
  destruct (QueryFacts.createPayment_frame tz now paymentData s) as [_ Hc].
  cbn zeta in Hc.
  pose proof (GrowFacts.counter_is_free s Hinv) as Hfree.
  rewrite Hres. cbn [fst].
  assert (Hlook : forall id p,
            payments (after (DatabaseStorage.createPayment tz now paymentData) s)
              !! id = Some p
            <-> (id, p) = (paymentIdCounter s, Outcome.insertedPayment now paymentData)
                \/ payments s !! id = Some p).
  { intros id p. rewrite Hpays, lookup_insert.
    destruct (decide (paymentIdCounter s = id)) as [<- | Hne].
    - rewrite Hfree. split.
      + intros [= <-]. left. reflexivity.
      + intros [[= <-] | H]; [reflexivity | discriminate H].
    - split; [auto |]. intros [[= E _] | H]; [congruence | exact H]. }
  split; [exact Hfree |]. split; [| split; [| split]].
  - intros [id p]. rewrite !QueryFacts.in_getPayments. cbn [fst snd].
    apply Hlook.
  - intros m [id p]. rewrite !QueryFacts.in_getPaymentsByMember. cbn [fst snd].
    rewrite Hlook. split.
    + intros [[E | H] Hm]; [left | right; auto].
      split; [exact E |]. injection E as _ ->. exact Hm.
    + intros [[E Hm] | [H Hm]]; [| auto].
      split; [left; exact E |]. injection E as _ ->. exact Hm.
  - rewrite QueryFacts.in_getPendingPayments. cbn [fst snd].
    rewrite Hpays, lookup_insert_eq, QueryFacts.isPending_status. cbn.
    split.
    + intros [_ [= E]]. exact E.
    + intros ->. split; reflexivity.
  - intros id p Hp. rewrite Hc. apply Hlook in Hp as [[= -> _] | Hp].
    + lia.
    + apply Hinv in Hp. lia.
Qed.

Lemma fixture_idsBelowCounter : Outcome.idsBelowCounter Fixture.store.
Proof.
  intros id p H. unfold Fixture.store in H. cbn [payments] in H.
  cbn [Fixture.store paymentIdCounter].
  repeat (rewrite lookup_insert in H;
          destruct (decide (_ = id)) as [<- | _]; [lia |]).
  rewrite lookup_empty in H. discriminate H.
Qed.

(** A payment created for Ana in the small store gets id 3 and shows up in
    her list. *)
Lemma createPayment_takes_fresh_id_witness :
  let paymentData :=
    {| InsertPayment.memberId := 1; InsertPayment.amount := 7000;
       InsertPayment.paymentDate := None;
       InsertPayment.paymentMethod := "Yape"; InsertPayment.planId := 3;
       InsertPayment.status := Some "pending"; InsertPayment.receiptUrl := None;
       InsertPayment.notes := None; InsertPayment.verifiedById := None;
       InsertPayment.verifiedAt := None |} in
  let s' := after (DatabaseStorage.createPayment 0 Fixture.now paymentData)
              Fixture.store in
  payments Fixture.store !! 3 = None
  /\ In (3, Outcome.insertedPayment Fixture.now paymentData)
        (result (DatabaseStorage.getPaymentsByMember 1) s').
Proof.
  cbn zeta.
  match goal with
  | |- context [DatabaseStorage.createPayment _ _ ?pd] =>
      destruct (createPayment_takes_fresh_id 0 Fixture.now pd Fixture.store
                  fixture_idsBelowCounter) as (Hfree & _ & Hmember & _)
  end.
  split; [exact Hfree |].
  apply Hmember. left. split; reflexivity.
Defined.

(** X3. While every stored payment has an id below the payment counter, none
    of [createPayment], [verifyPayment], [rejectPayment], [getMembers],
    [updateMember] and [deleteMember] removes or rewrites a log entry,
    touches a user or a plan, removes a payment, or changes the member, the
    plan, the amount or the payment date of a payment that was there; and
    the ids stay below the counter, so the same holds of any sequence of
    these operations. *)
Theorem operations_only_grow_the_store tz now s :
  Outcome.idsBelowCounter s ->
  let kept (s' : Store) := Outcome.grows s s' /\ Outcome.idsBelowCounter s' in
  (forall paymentData,
     kept (after (DatabaseStorage.createPayment tz now paymentData) s))
  /\ (forall id adminId,
        kept (after (DatabaseStorage.verifyPayment tz now id adminId) s))
  /\ (forall id adminId notes,
        kept (after (DatabaseStorage.rejectPayment now id adminId notes) s))
  /\ kept (after (DatabaseStorage.getMembers tz now) s)
  /\ (forall id memberData,
        kept (after (DatabaseStorage.updateMember now id memberData) s))
  /\ (forall id, kept (after (DatabaseStorage.deleteMember now id) s))
  /\ (forall s1 s2 s3, Outcome.grows s1 s2 -> Outcome.grows s2 s3 ->
                       Outcome.grows s1 s3).
Proof.
  intros Hinv. cbn zeta.
  split; [| split; [| split; [| split; [| split; [| split]]]]].
  - intros paymentData.
    destruct (StorageFacts.createPayment_stored tz now paymentData s) as [_ Hpays].
    destruct (QueryFacts.createPayment_frame tz now paymentData s) as [Happ Hc].
    cbn zeta in Happ, Hc.
    pose proof (GrowFacts.counter_is_free s Hinv) as Hfree.
    split.
    + apply (GrowFacts.grows_build _ _ _ Happ); [lia |].
      intros id p Hp. rewrite Hpays. apply GrowFacts.kept_fresh; assumption.
    + intros id p. rewrite Hpays, Hc, lookup_insert.
      destruct (decide (paymentIdCounter s = id)) as [<- | _]; [lia |].
      intros Hp. apply Hinv in Hp. lia.
  - intros id adminId.
    destruct (QueryFacts.verifyPayment_frame tz now id adminId s) as [Happ Hc].
    cbn zeta in Happ, Hc.
    destruct (payments s !! id) as [q |] eqn:Hq.
    + pose proof (QueryFacts.verifyPayment_payments tz now id adminId q s Hq) as Hpays.
      split.
      * apply (GrowFacts.grows_build _ _ _ Happ); [lia |].
        intros j p Hp. rewrite Hpays. apply GrowFacts.kept_settle; assumption.
      * exact (GrowFacts.below_settle _ _ _ _ _ _ _ _ Hinv Hq Hpays Hc).
    + unfold after in *.
      rewrite (StorageFacts.verifyPayment_missing _ _ _ _ _ Hq). cbn [snd].
      split; [apply GrowFacts.grows_refl | exact Hinv].
  - intros id adminId notes.
    destruct (QueryFacts.rejectPayment_frame now id adminId notes s)
      as (Happ & Hc & _).
    cbn zeta in Happ, Hc.
    destruct (payments s !! id) as [q |] eqn:Hq.
    + pose proof (QueryFacts.rejectPayment_payments now id adminId notes q s Hq)
        as Hpays.
      split.
      * apply (GrowFacts.grows_build _ _ _ Happ); [lia |].
        intros j p Hp. rewrite Hpays. apply GrowFacts.kept_settle; assumption.
      * exact (GrowFacts.below_settle _ _ _ _ _ _ _ _ Hinv Hq Hpays Hc).
    + unfold after in *.
      rewrite (StorageFacts.rejectPayment_missing _ _ _ _ _ Hq). cbn [snd].
      split; [apply GrowFacts.grows_refl | exact Hinv].
  - destruct (QueryFacts.getMembers_frame tz now s) as (Happ & Hc & Hpays).
    cbn zeta in Happ, Hc, Hpays.
    split.
    + apply (GrowFacts.grows_build _ _ _ Happ); [lia |].
      intros id p Hp. rewrite Hpays. apply GrowFacts.kept_same, Hp.
    + exact (GrowFacts.below_same _ _ Hinv Hpays Hc).
  - intros id memberData. unfold after.
    rewrite QueryFacts.updateMember_eq.
    destruct (members s !! id) as [m |]; cbn [snd];
      [| split; [apply GrowFacts.grows_refl | exact Hinv]].
    split.
    + unfold Outcome.grows. cbn. repeat split; try lia.
      * eexists. reflexivity.
      * intros j p. apply GrowFacts.kept_same.
    + exact Hinv.
  - intros id. unfold after. rewrite QueryFacts.deleteMember_eq. cbn [snd].
    split.
    + unfold Outcome.grows. cbn. repeat split; try lia.
      * eexists. reflexivity.
      * intros j p. apply GrowFacts.kept_same.
    + exact Hinv.
  - exact GrowFacts.grows_trans.
Qed.

(** Verifying Luis's payment in the small store keeps Ana's log, the plans
    and the ids in place. *)
Lemma operations_only_grow_the_store_witness :
  Outcome.grows Fixture.store
    (after (DatabaseStorage.verifyPayment 0 Fixture.now 1 1) Fixture.store).
Proof.
  destruct (operations_only_grow_the_store 0 Fixture.now Fixture.store
              fixture_idsBelowCounter) as (_ & Hverify & _).
  exact (proj1 (Hverify 1 1)).
Defined.

(** X5. [DELETE /api/members/:id] never answers 404.  For an id that is not
    stored it answers 204 and nothing changes.  For a stored member that no
    payment names it answers 204: the member is gone and the other members
    are as they were.  For a stored member that some payment names the
    delete is refused and the answer is 500: every member is still there.
    Either way the payments, the users and the plans are as they were and
    one [member_deleted] entry has been logged, the refused delete
    included; the entry carries no member id, so the member's own activity
    list does not show it. *)
Theorem deleteMember_never_answers_404 now id s :
  let reply := result (Routes.deleteMember now id) s in
  let s' := after (Routes.deleteMember now id) s in
  (forall message, reply <> Routes.Fail 404 message)
  /\ (members s !! id = None -> reply = Routes.Ok 204 tt /\ s' = s)
  /\ (forall m, members s !! id = Some m ->
        (exists entry,
           activities s' = activities s ++ [entry]
           /\ Activity.activityType entry = "member_deleted"
           /\ Activity.memberId entry = None)
        /\ result (DatabaseStorage.getMemberActivities id) s'
           = result (DatabaseStorage.getMemberActivities id) s
        /\ payments s' = payments s
        /\ users s' = users s
        /\ membershipPlans s' = membershipPlans s
        /\ ((forall pid p, payments s !! pid = Some p ->
               Payment.memberId p <> id) ->
            reply = Routes.Ok 204 tt
            /\ members s' !! id = None
            /\ (forall j, j <> id -> members s' !! j = members s !! j))
        /\ ((exists pid p, payments s !! pid = Some p
                           /\ Payment.memberId p = id) ->
            reply = Routes.Fail 500 "Failed to delete member"
            /\ members s' = members s)).
Proof.
  cbn zeta. unfold Routes.deleteMember, Routes.tryCatch, result, after, ret.
  rewrite PostgresFacts.pg_deleteMember_eq.
  pose proof (PostgresFacts.referenced_spec s id) as Href.
  destruct (members s !! id) as [m |] eqn:Hm; cbv zeta.
  - destruct (Postgres.referenced s id) eqn:Hr; cbn [fst snd negb].
    + split; [intros message; discriminate |].
      split; [discriminate |].
      intros m0 _.
      split; [eexists; split; [reflexivity | split; reflexivity] |].
      split.
      { unfold result, DatabaseStorage.getMemberActivities, gets.
        cbn [fst activities withActivities]. rewrite List.filter_app. cbn.
        rewrite app_nil_r. reflexivity. }
      do 3 (split; [reflexivity |]).
      split; [| intros _; split; reflexivity].
      intros Hnone. exfalso.
      destruct (proj1 Href eq_refl) as (pid & p & Hp & Heq).
      exact (Hnone pid p Hp Heq).
    + split; [intros message; discriminate |].
      split; [discriminate |].
      intros m0 _.
      split; [eexists; split; [reflexivity | split; reflexivity] |].
      split.
      { unfold result, DatabaseStorage.getMemberActivities, gets.
        cbn [fst activities withActivities withMembers].
        rewrite List.filter_app. cbn. rewrite app_nil_r. reflexivity. }
      do 3 (split; [reflexivity |]).
      split.
      * intros _. split; [reflexivity |]. cbn [members withMembers withActivities].
        split; [apply lookup_delete_eq |].
        intros j Hj. apply lookup_delete_ne. congruence.
      * intros Hsome. apply Href in Hsome. congruence.
  - cbn [fst snd negb]. split; [intros message; discriminate |].
    split; [intros _; split; reflexivity |].
    intros m0 Hm0. discriminate Hm0.
Qed.

(** There is no member 9 in the small store: deleting it is answered 204
    and changes nothing.  Luis has two payments: deleting him is answered
    500, and he is still there. *)
Lemma deleteMember_never_answers_404_witness :
  Routes.deleteMember Fixture.now 9 Fixture.store
  = (Routes.Ok 204 tt, Fixture.store)
  /\ result (Routes.deleteMember Fixture.now 2) Fixture.store
     = Routes.Fail 500 "Failed to delete member"
  /\ members (after (Routes.deleteMember Fixture.now 2) Fixture.store)
     = members Fixture.store.
Proof.
  split.
  - destruct (deleteMember_never_answers_404 Fixture.now 9 Fixture.store)
      as (_ & Hmissing & _).
    destruct (Hmissing eq_refl) as [Hreply Hstore].
    unfold result, after in *.
    destruct (Routes.deleteMember Fixture.now 9 Fixture.store) as [r s'].
    cbn [fst snd] in *. congruence.
  - destruct (deleteMember_never_answers_404 Fixture.now 2 Fixture.store)
      as (_ & _ & Hstored).
    destruct (Hstored Fixture.luis eq_refl) as (_ & _ & _ & _ & _ & _ & Hrefused).
    apply Hrefused. exists 1, (Fixture.pendingPayment 2 3).
    split; reflexivity.
Defined.

(** ** The sweep composed with itself and with the payment operations *)
Module SweepMore.
Import JSDate JSDateFacts Outcome StorageFacts Sweep.

Lemma swept_members tz now s :
  members (after (DatabaseStorage.getMembers tz now) s)
  = swept (setHoursZero tz now) <$> members s.
Proof.
  apply map_eq. intros id. rewrite lookup_fmap.
  pose proof (swept_lookup tz now s id) as H. cbn zeta in H. rewrite H.
  destruct (members s !! id); reflexivity.
Qed.

Lemma toUpdate_markExpired today m :
  DatabaseStorage.toUpdate today (DatabaseStorage.markExpired m) = false.
Proof.
  unfold DatabaseStorage.toUpdate, DatabaseStorage.markExpired.
  destruct m; cbn. destruct expiryDate; reflexivity.
Qed.

Lemma toUpdate_mono today1 today2 m :
  today2 <= today1 ->
  DatabaseStorage.toUpdate today1 m = false ->
  DatabaseStorage.toUpdate today2 m = false.
Proof.
  intros Hle H1.
  destruct (DatabaseStorage.toUpdate today2 m) eqn:H2; [| reflexivity].
  apply toUpdate_due in H2 as [Hst (e & He & Hlt)].
  assert (Hd : due today1 m) by (split; [exact Hst | exists e; split; [exact He | lia]]).
  apply toUpdate_due in Hd. congruence.
Qed.

Lemma toUpdate_swept today1 today2 m :
  today2 <= today1 ->
  DatabaseStorage.toUpdate today2 (swept today1 m) = false.
Proof.
  intros Hle. unfold swept.
  destruct (DatabaseStorage.toUpdate today1 m) eqn:H1.
  - apply toUpdate_markExpired.
  - apply (toUpdate_mono today1); assumption.
Qed.

Lemma filter_none {A} (f : A -> bool) (l : list A) :
  (forall x, In x l -> f x = false) -> List.filter f l = [].
Proof.
  induction l as [| x l IH]; intros H; [reflexivity |].
  cbn. rewrite (H x) by (left; reflexivity).
  apply IH. intros y Hy. apply H. right. exact Hy.
Qed.

(** A sweep that finds no member due returns the rows as they are and
    leaves the store as it is. *)
Lemma getMembers_nothing_due tz now s :
  (forall id m, members s !! id = Some m ->
     DatabaseStorage.toUpdate (setHoursZero tz now) m = false) ->
  DatabaseStorage.getMembers tz now s = (map_to_list (members s), s).
Proof.
  intros Hnone.
  destruct (getMembers_unfold tz now s) as [Hafter Hresult].
  cbn zeta in Hafter, Hresult.
  assert (Hfilter : List.filter
                      (fun row => DatabaseStorage.toUpdate (setHoursZero tz now)
                                    (snd row)) (map_to_list (members s)) = []).
  { apply filter_none. intros [id m] Hin. apply in_membersList in Hin.
    apply (Hnone id m Hin). }
  rewrite Hfilter in Hafter. cbn in Hafter.
  assert (Hlist : List.map
                    (fun row =>
                       if DatabaseStorage.toUpdate (setHoursZero tz now) (snd row)
                       then (fst row, DatabaseStorage.markExpired (snd row))
                       else row) (map_to_list (members s))
                  = map_to_list (members s)).
  { rewrite <- (List.map_id (map_to_list (members s))) at 2.
    apply List.map_ext_in. intros [id m] Hin. apply in_membersList in Hin.
    cbn [snd]. rewrite (Hnone id m Hin). reflexivity. }
  rewrite Hlist in Hresult.
  unfold after, result in *.
  destruct (DatabaseStorage.getMembers tz now s) as [r s']. cbn in *.
  congruence.
Qed.

End SweepMore.

(** X6. After a sweep, another sweep for the same day or an earlier one
    changes nothing: the store is left as the first sweep left it, no entry
    is logged, and the rows listed are those the first sweep listed, which
    are the member rows of the store, in whatever order the engine yields
    them. *)
Theorem second_sweep_changes_nothing tz now1 now2 s :
  setHoursZero tz now2 <= setHoursZero tz now1 ->
  let s1 := after (DatabaseStorage.getMembers tz now1) s in
  let first := result (DatabaseStorage.getMembers tz now1) s in
  let second := result (DatabaseStorage.getMembers tz now2) s1 in
  after (DatabaseStorage.getMembers tz now2) s1 = s1
  /\ (forall row, In row second <-> In row first)
  /\ (forall id m, In (id, m) second <-> members s1 !! id = Some m)
  /\ length second = length first.
Proof.
  intros Hle. cbn zeta.
  assert (Hrun : DatabaseStorage.getMembers tz now2
                   (after (DatabaseStorage.getMembers tz now1) s)
                 = (result (DatabaseStorage.getMembers tz now1) s,
                    after (DatabaseStorage.getMembers tz now1) s)).
  { rewrite SweepMore.getMembers_nothing_due.
    - f_equal. rewrite SweepMore.swept_members, map_to_list_fmap.
      destruct (Sweep.getMembers_unfold tz now1 s) as [_ ->].
      apply List.map_ext. intros [id m]. unfold Outcome.swept. cbn.
      destruct (DatabaseStorage.toUpdate (setHoursZero tz now1) m); reflexivity.
    - intros id m. rewrite SweepMore.swept_members, lookup_fmap.
      destruct (members s !! id) as [m0 |]; [| discriminate].
      intros [= <-]. apply SweepMore.toUpdate_swept, Hle. }
  assert (Hafter : after (DatabaseStorage.getMembers tz now2)
                     (after (DatabaseStorage.getMembers tz now1) s)
                   = after (DatabaseStorage.getMembers tz now1) s)
    by (unfold after at 1; rewrite Hrun; reflexivity).
  assert (Hresult : result (DatabaseStorage.getMembers tz now2)
                      (after (DatabaseStorage.getMembers tz now1) s)
                    = result (DatabaseStorage.getMembers tz now1) s)
    by (unfold result at 1; rewrite Hrun; reflexivity).
  rewrite Hresult. clear Hrun Hresult.
  split; [exact Hafter |]. split; [reflexivity |]. split; [| reflexivity].
  intros id m.
  destruct (Sweep.getMembers_unfold tz now1 s) as [_ Hlist].
  cbn zeta in Hlist. rewrite Hlist.
  pose proof (Sweep.swept_lookup tz now1 s id) as Hlook. cbn zeta in Hlook.
  rewrite Hlook. split.
  - intros Hin. apply in_map_iff in Hin as ([id0 m0] & Heq & Hrow).
    apply Sweep.in_membersList in Hrow. cbn [fst snd] in Heq.
    destruct (DatabaseStorage.toUpdate (setHoursZero tz now1) m0) eqn:Hd;
      injection Heq as <- <-; rewrite Hrow, Hd; reflexivity.
  - intros Hpost.
    destruct (members s !! id) as [m0 |] eqn:Hm; [| discriminate Hpost].
    injection Hpost as <-. apply in_map_iff. exists (id, m0).
    split; [| apply Sweep.in_membersList, Hm].
    cbn [fst snd].
    destruct (DatabaseStorage.toUpdate (setHoursZero tz now1) m0); reflexivity.
Qed.

(** Two sweeps of the small store within the same morning. *)
Lemma second_sweep_changes_nothing_witness :
  after (DatabaseStorage.getMembers 0 (Fixture.now - 3600000))
    (after (DatabaseStorage.getMembers 0 Fixture.now) Fixture.store)
  = after (DatabaseStorage.getMembers 0 Fixture.now) Fixture.store.
Proof.
  destruct (second_sweep_changes_nothing 0 Fixture.now (Fixture.now - 3600000)
              Fixture.store) as [Hsame _];
    [vm_compute; discriminate | exact Hsame].
Defined.

(** X7. A verification that adds no time is undone by the next day's sweep.
    When the plan's type is none of [day], [week], [month] and [year] (as
    for every seeded plan), [verifyPayment] sets the member active with the
    base date itself as expiry: the member's old expiry if that is not past,
    now otherwise.  Any later [getMembers] whose day begins after that date
    sets the member [expired]. *)
Theorem verified_without_extension_expires_at_next_sweep tz now now' id adminId
    payment member admin plan s :
  payments s !! id = Some payment ->
  members s !! Payment.memberId payment = Some member ->
  users s !! adminId = Some admin ->
  membershipPlans s !! Payment.planId payment = Some plan ->
  MembershipPlan.durationType plan <> "day" ->
  MembershipPlan.durationType plan <> "week" ->
  MembershipPlan.durationType plan <> "month" ->
  MembershipPlan.durationType plan <> "year" ->
  DatabaseStorage.verifyBaseDate member now < setHoursZero tz now' ->
  let mid := Payment.memberId payment in
  let s1 := after (DatabaseStorage.verifyPayment tz now id adminId) s in
  let s2 := after (DatabaseStorage.getMembers tz now') s1 in
  Member.status <$> members s1 !! mid = Some (Some "active")
  /\ Member.expiryDate <$> members s1 !! mid
     = Some (Some (DatabaseStorage.verifyBaseDate member now))
  /\ Member.status <$> members s2 !! mid = Some (Some "expired")
  /\ Outcome.entriesFor "membership_expired" mid (activities s2)
     = S (Outcome.entriesFor "membership_expired" mid (activities s)).
Proof.
  intros Hpay Hmem Hadm Hplan H1 H2 H3 H4 Hlt. cbn zeta.
  assert (Hs1 : after (DatabaseStorage.verifyPayment tz now id adminId) s
                = Outcome.verifiedStore tz now id adminId payment member admin plan s).
  { unfold after.
    rewrite (StorageFacts.verifyPayment_found _ _ _ _ _ _ _ _ _
               Hpay Hmem Hadm Hplan). reflexivity. }
  rewrite Hs1. clear Hs1.
  set (s1 := Outcome.verifiedStore tz now id adminId payment member admin plan s).
  set (m1 := Member.merge member
               {| Member.setStatus := Some "active";
                  Member.setPlanId := Some (Payment.planId payment);
                  Member.setExpiryDate :=
                    Some (DatabaseStorage.verifyBaseDate member now) |}).
  assert (Hm1 : members s1 !! Payment.memberId payment = Some m1).
  { subst s1 m1. cbn [Outcome.verifiedStore members].
    rewrite lookup_insert_eq.
    rewrite (StorageFacts.verifyDurationSwitch_other _ _ _ H1 H2 H3 H4).
    reflexivity. }
  assert (Hdue : DatabaseStorage.toUpdate (setHoursZero tz now') m1 = true).
  { apply Sweep.toUpdate_due. split; [reflexivity |].
    eexists. split; [reflexivity | exact Hlt]. }
  split; [rewrite Hm1; reflexivity |].
  split; [rewrite Hm1; reflexivity |].
  split.
  - pose proof (Sweep.swept_lookup tz now' s1 (Payment.memberId payment)) as Hl.
    cbn zeta in Hl. rewrite Hl, Hm1, Hdue. reflexivity.
  - destruct (Sweep.getMembers_unfold tz now' s1) as [-> _].
    set (l := List.filter _ _).
    destruct (StorageFacts.forEach_sweep now' l s1) as (_ & -> & _).
    rewrite StorageFacts.entriesFor_app.
    subst l.
    rewrite (StorageFacts.entriesFor_expired_one now' (Payment.memberId payment)
               m1 (DatabaseStorage.toUpdate (setHoursZero tz now'))).
    + subst s1. cbn [Outcome.verifiedStore activities].
      rewrite StorageFacts.entriesFor_app.
      unfold Outcome.entriesFor at 2.
      cbn [List.filter Activity.activityType Activity.memberId]. cbn. lia.
    + apply (NoDup_fst_map_to_list (members s1)).
    + apply Sweep.in_membersList, Hm1.
    + exact Hdue.
Qed.

(** Luis's payment for the seeded monthly plan, verified at 10:00 on 15
    January: the sweep of the 16th finds him expired. *)
Lemma verified_without_extension_expires_at_next_sweep_witness :
  let s1 := after (DatabaseStorage.verifyPayment 0 Fixture.now 1 1) Fixture.store in
  let s2 := after (DatabaseStorage.getMembers 0 (Fixture.now + msPerDay)) s1 in
  Member.status <$> members s2 !! 2 = Some (Some "expired").
Proof.
  cbn zeta.
  destruct (verified_without_extension_expires_at_next_sweep 0 Fixture.now
              (Fixture.now + msPerDay) 1 1 (Fixture.pendingPayment 2 3)
              Fixture.luis Fixture.admin Fixture.mensual Fixture.store
              eq_refl eq_refl eq_refl eq_refl
              ltac:(discriminate) ltac:(discriminate)
              ltac:(discriminate) ltac:(discriminate)
              ltac:(vm_compute; reflexivity))
    as (_ & _ & Hexpired & _).
  exact Hexpired.
Defined.

(** X8. A membership activated by [createPayment] outlasts the day after
    the payment.  When the row is accepted, its status resolves to
    [verified] and the member and the plan are found, the expiry computed
    is at least two days after the payment date, for every plan; the date
    kept is its day, which is later than one day after the payment date; and
    a [getMembers] whose day begins no later than one day after the payment
    date leaves the member active. *)
Theorem created_membership_outlasts_the_next_day tz now now' paymentData member
    plan s :
  DatabaseStorage.resolveStatus (InsertPayment.status paymentData) = "verified" ->
  members s !! InsertPayment.memberId paymentData = Some member ->
  membershipPlans s !! InsertPayment.planId paymentData = Some plan ->
  Postgres.verifierHolds s (Outcome.insertedPayment now paymentData) = true ->
  let paymentDate :=
    match InsertPayment.paymentDate paymentData with
    | Some d => d
    | None => now
    end in
  setHoursZero tz now' <= paymentDate + msPerDay ->
  let mid := InsertPayment.memberId paymentData in
  let s1 := after (Postgres.createPayment tz now paymentData) s in
  let s2 := after (DatabaseStorage.getMembers tz now') s1 in
  let kept := Postgres.dateColumn (Outcome.createExpiry tz now paymentData plan) in
  paymentDate + 2 * msPerDay <= Outcome.createExpiry tz now paymentData plan
  /\ paymentDate + msPerDay < kept
  /\ Member.expiryDate <$> members s1 !! mid = Some (Some kept)
  /\ Member.status <$> members s2 !! mid = Some (Some "active")
  /\ members s2 !! mid = members s1 !! mid.
Proof.
  intros Hst Hmem Hplan Hver. cbn zeta. intros Hday.
  assert (Hs1 : after (Postgres.createPayment tz now paymentData) s
                = Outcome.datedCreatedStore tz now paymentData member plan s).
  { unfold after.
    rewrite (PostgresFacts.pg_createPayment_verified _ _ _ _ _ _ Hst Hmem Hplan Hver).
    reflexivity. }
  rewrite Hs1. clear Hs1.
  set (s1 := Outcome.datedCreatedStore tz now paymentData member plan s).
  pose proof (PostgresFacts.createExpiry_two_days tz now paymentData plan) as Hexp.
  pose proof (PostgresFacts.dateColumn_le
                (Outcome.createExpiry tz now paymentData plan)) as Hkept.
  set (kept := Postgres.dateColumn (Outcome.createExpiry tz now paymentData plan))
    in *.
  set (m1 := Member.merge member
               {| Member.setStatus := Some "active";
                  Member.setPlanId := Some (InsertPayment.planId paymentData);
                  Member.setExpiryDate := Some kept |}).
  assert (Hm1 : members s1 !! InsertPayment.memberId paymentData = Some m1)
    by apply lookup_insert_eq.
  assert (Hnot : DatabaseStorage.toUpdate (setHoursZero tz now') m1 = false).
  { destruct (DatabaseStorage.toUpdate (setHoursZero tz now') m1) eqn:Hd;
      [| reflexivity].
    apply Sweep.toUpdate_due in Hd as [_ (e & He & Hlt)].
    change (Some kept = Some e) in He.
    assert (He' : kept = e) by congruence.
    rewrite <- He' in Hlt. lia. }
  pose proof (Sweep.swept_lookup tz now' s1 (InsertPayment.memberId paymentData))
    as Hl.
  cbn zeta in Hl. rewrite Hm1, Hnot in Hl.
  split; [exact Hexp |]. split; [lia |].
  split; [rewrite Hm1; reflexivity |].
  split; [rewrite Hl; reflexivity |].
  rewrite Hl, Hm1. reflexivity.
Qed.

(** Luis pays the daily plan at 10:00 on 15 January; the sweep at 23:00 on
    the 16th still finds him active. *)
Lemma created_membership_outlasts_the_next_day_witness :
  let paymentData :=
    {| InsertPayment.memberId := 2; InsertPayment.amount := 600;
       InsertPayment.paymentDate := None;
       InsertPayment.paymentMethod := "efectivo"; InsertPayment.planId := 1;
       InsertPayment.status := None; InsertPayment.receiptUrl := None;
       InsertPayment.notes := None; InsertPayment.verifiedById := None;
       InsertPayment.verifiedAt := None |} in
  let s1 := after (Postgres.createPayment 0 Fixture.now paymentData)
              Fixture.store in
  Member.status <$>
    members (after (DatabaseStorage.getMembers 0 (civil 2024 1 16 82800000)) s1)
      !! 2 = Some (Some "active").
Proof.
  cbn zeta.
  match goal with
  | |- context [Postgres.createPayment _ _ ?pd] =>
      destruct (created_membership_outlasts_the_next_day 0 Fixture.now
                  (civil 2024 1 16 82800000) pd Fixture.luis Fixture.diario
                  Fixture.store eq_refl eq_refl eq_refl eq_refl
                  ltac:(vm_compute; discriminate))
        as (_ & _ & _ & Hactive & _)
  end.
  exact Hactive.
Defined.

(** The bound is the calendar's: five hours west of Greenwich, a daily plan
    paid at 10:00 local time on 15 January computes an expiry at 10:00 local
    time on the 17th, of which the date column keeps the 17th, midnight
    UTC, which is 19:00 local time on the 16th; the first sweep of the
    17th, local time, finds it past. *)
Example created_membership_expires_on_the_second_day :
  let tz := -5 * 3600000 in
  let paid := civil 2024 1 15 (10 * 3600000) - tz in
  let paymentData :=
    {| InsertPayment.memberId := 2; InsertPayment.amount := 600;
       InsertPayment.paymentDate := Some paid;
       InsertPayment.paymentMethod := "efectivo"; InsertPayment.planId := 1;
       InsertPayment.status := None; InsertPayment.receiptUrl := None;
       InsertPayment.notes := None; InsertPayment.verifiedById := None;
       InsertPayment.verifiedAt := None |} in
  let s1 := after (Postgres.createPayment tz paid paymentData) Fixture.store in
  let sweep := civil 2024 1 17 3600000 - tz in
  Outcome.createExpiry tz paid paymentData Fixture.diario
  = civil 2024 1 17 (10 * 3600000) - tz
  /\ Member.expiryDate <$> members s1 !! 2 = Some (Some (civil 2024 1 17 0))
  /\ setHoursZero tz sweep <= paid + 2 * msPerDay
  /\ Member.status <$>
       members (after (DatabaseStorage.getMembers tz sweep) s1) !! 2
     = Some (Some "expired").
Proof.
  cbn zeta. repeat split; try (vm_compute; reflexivity).
  vm_compute. discriminate.
Qed.

(** ** The lookups by e-mail and by user name, and the routes over them *)
Module LookupFacts.
Import Outcome StorageFacts QueryFacts.

Lemma in_usersList (us : gmap Z User.t) id u :
  In (id, u) (map_to_list us) <-> us !! id = Some u.
Proof. rewrite <- list_elem_of_In. apply elem_of_map_to_list. Qed.

Lemma getMemberByEmail_some email s row :
  result (DatabaseStorage.getMemberByEmail email) s = Some row ->
  members s !! fst row = Some (snd row) /\ Member.email (snd row) = email.
Proof.
  unfold result, DatabaseStorage.getMemberByEmail, gets. cbn [fst].
  intros H. apply find_some in H as [Hin Heq]. destruct row as [id m].
  apply Sweep.in_membersList in Hin. apply String.eqb_eq in Heq. auto.
Qed.

Lemma getMemberByEmail_none email s :
  result (DatabaseStorage.getMemberByEmail email) s = None <->
  forall id m, members s !! id = Some m -> Member.email m <> email.
Proof.
  unfold result, DatabaseStorage.getMemberByEmail, gets. cbn [fst]. split.
  - intros H id m Hm. apply Sweep.in_membersList in Hm.
    pose proof (find_none _ _ H _ Hm) as Hne. cbn in Hne.
    apply String.eqb_neq, Hne.
  - intros H.
    destruct (find _ _) as [[id m] |] eqn:Hf; [| reflexivity].
    apply find_some in Hf as [Hin Heq]. apply Sweep.in_membersList in Hin.
    apply String.eqb_eq in Heq. exfalso. exact (H id m Hin Heq).
Qed.

Lemma getMemberByEmail_the email s :
  (forall i j mi mj, members s !! i = Some mi -> members s !! j = Some mj ->
     Member.email mi = Member.email mj -> i = j) ->
  forall id m, members s !! id = Some m -> Member.email m = email ->
    result (DatabaseStorage.getMemberByEmail email) s = Some (id, m).
Proof.
  intros Huniq id m Hm He.
  destruct (result (DatabaseStorage.getMemberByEmail email) s) as [[j mj] |] eqn:Hr.
  - apply getMemberByEmail_some in Hr as [Hj Hej]. cbn in Hj, Hej.
    assert (j = id) by (apply (Huniq j id mj m Hj Hm); congruence).
    subst j. congruence.
  - exfalso. exact (proj1 (getMemberByEmail_none email s) Hr id m Hm He).
Qed.

Lemma getUserByUsername_some username s row :
  result (DatabaseStorage.getUserByUsername username) s = Some row ->
  users s !! fst row = Some (snd row) /\ User.username (snd row) = username.
Proof.
  unfold result, DatabaseStorage.getUserByUsername, gets. cbn [fst].
  intros H. apply find_some in H as [Hin Heq]. destruct row as [id u].
  apply in_usersList in Hin. apply String.eqb_eq in Heq. auto.
Qed.

Lemma getUserByUsername_none username s :
  result (DatabaseStorage.getUserByUsername username) s = None <->
  forall id u, users s !! id = Some u -> User.username u <> username.
Proof.
  unfold result, DatabaseStorage.getUserByUsername, gets. cbn [fst]. split.
  - intros H id u Hu. apply in_usersList in Hu.
    pose proof (find_none _ _ H _ Hu) as Hne. cbn in Hne.
    apply String.eqb_neq, Hne.
  - intros H.
    destruct (find _ _) as [[id u] |] eqn:Hf; [| reflexivity].
    apply find_some in Hf as [Hin Heq]. apply in_usersList in Hin.
    apply String.eqb_eq in Heq. exfalso. exact (H id u Hin Heq).
Qed.

(** The name the routes show for the plan of a payment. *)
Lemma mapAll_withPlanName rows s :
  Routes.mapAll rows Routes.withPlanName s
  = (List.map (fun row => (row, planNameOf s (snd row))) rows, s).
Proof.
  induction rows as [| row rows IH]; [reflexivity |].
  cbn [Routes.mapAll List.map]. unfold bind at 1.
  unfold Routes.withPlanName at 1, bind, DatabaseStorage.getMembershipPlan,
    gets, ret. cbn.
  unfold bind. rewrite IH. reflexivity.
Qed.

Lemma pendingPaymentsOf_eq email s :
  Routes.pendingPaymentsOf email s
  = (match result (DatabaseStorage.getMemberByEmail email) s with
     | Some member => Some (pendingRowsOf s (fst member))
     | None => None
     end, s).
Proof.
  unfold Routes.pendingPaymentsOf, bind at 1.
  unfold result, DatabaseStorage.getMemberByEmail at 1 2, gets. cbn [fst].
  destruct (find _ _) as [member |]; [| reflexivity].
  unfold bind, DatabaseStorage.getPaymentsByMember, gets.
  rewrite mapAll_withPlanName. reflexivity.
Qed.

End LookupFacts.

(** X9. [getMemberByEmail] answers with a stored member whose e-mail is the
    one asked for, and answers nothing exactly when no member has that
    e-mail; when no two members share an e-mail (the column is unique) the
    answer is the member with that e-mail.  The store is left as it was. *)
Theorem getMemberByEmail_finds_the_member email s :
  after (DatabaseStorage.getMemberByEmail email) s = s
  /\ (forall row,
        result (DatabaseStorage.getMemberByEmail email) s = Some row ->
        members s !! fst row = Some (snd row) /\ Member.email (snd row) = email)
  /\ (result (DatabaseStorage.getMemberByEmail email) s = None <->
      forall id m, members s !! id = Some m -> Member.email m <> email)
  /\ ((forall i j mi mj, members s !! i = Some mi -> members s !! j = Some mj ->
         Member.email mi = Member.email mj -> i = j) ->
      forall id m, members s !! id = Some m -> Member.email m = email ->
        result (DatabaseStorage.getMemberByEmail email) s = Some (id, m)).
Proof.
  split; [reflexivity |].
  split; [apply LookupFacts.getMemberByEmail_some |].
  split; [apply LookupFacts.getMemberByEmail_none |].
  apply LookupFacts.getMemberByEmail_the.
Qed.

(** In the small store the e-mail [Luis] is that of member 2. *)
Lemma getMemberByEmail_finds_the_member_witness :
  exists row, result (DatabaseStorage.getMemberByEmail "Luis") Fixture.store
              = Some row
              /\ members Fixture.store !! fst row = Some (snd row).
Proof.
  destruct (getMemberByEmail_finds_the_member "Luis" Fixture.store)
    as (_ & Hsome & _).
  exists (2, Fixture.luis).
  assert (H : result (DatabaseStorage.getMemberByEmail "Luis") Fixture.store
              = Some (2, Fixture.luis)) by (vm_compute; reflexivity).
  split; [exact H | exact (proj1 (Hsome _ H))].
Defined.

(** X10. [GET /api/user/pending-payments] only reads, and always answers 200
    with a list.  Every payment on the list is a stored payment with status
    [pending] that belongs to a member whose e-mail is the one looked up,
    and comes with the name of its plan or [Plan desconocido].  The e-mail
    looked up is the logged-in user's; the query parameter counts only when
    nobody is logged in, and then, no log-in being asked for, the list has
    every pending payment of the member with that e-mail (e-mails being
    unique).  Without a user and without an e-mail the list is empty. *)
Theorem userPendingPayments_looks_up_by_email user email s :
  let looked :=
    match user with
    | Some u => Some (User.email u)
    | None => Routes.truthyString email
    end in
  exists rows,
    Routes.userPendingPayments user email s = (Routes.Ok 200 rows, s)
    /\ (forall id p name, In (id, p, name) rows ->
          payments s !! id = Some p
          /\ Payment.status p = Some "pending"
          /\ name = Outcome.planNameOf s p
          /\ exists e m, looked = Some e
                         /\ members s !! Payment.memberId p = Some m
                         /\ Member.email m = e)
    /\ (looked = None -> rows = [])
    /\ (forall e, looked = Some e ->
          (forall i j mi mj, members s !! i = Some mi -> members s !! j = Some mj ->
             Member.email mi = Member.email mj -> i = j) ->
          forall id p m, payments s !! id = Some p ->
            Payment.status p = Some "pending" ->
            members s !! Payment.memberId p = Some m -> Member.email m = e ->
            In (id, p, Outcome.planNameOf s p) rows).
Proof.
  cbn zeta.
  set (looked := match user with
                 | Some u => Some (User.email u)
                 | None => Routes.truthyString email
                 end).
  set (rows := match looked with
               | Some e =>
                   match result (DatabaseStorage.getMemberByEmail e) s with
                   | Some member => Outcome.pendingRowsOf s (fst member)
                   | None => []
                   end
               | None => []
               end).
  exists rows.
  assert (Hrows : forall e id p name,
            looked = Some e -> In (id, p, name) rows <->
            exists member,
              result (DatabaseStorage.getMemberByEmail e) s = Some member
              /\ payments s !! id = Some p
              /\ Payment.memberId p = fst member
              /\ Payment.status p = Some "pending"
              /\ name = Outcome.planNameOf s p).
  { intros e id p name He. subst rows. rewrite He.
    destruct (result (DatabaseStorage.getMemberByEmail e) s) as [member |].
    - unfold Outcome.pendingRowsOf. rewrite in_map_iff. split.
      + intros ([j q] & [= <- <- <-] & Hin).
        apply filter_In in Hin as [Hin Hpend].
        apply filter_In in Hin as [Hin Hmem].
        cbn [snd] in *. apply QueryFacts.in_paymentsList in Hin.
        apply Z.eqb_eq in Hmem. apply QueryFacts.isPending_status in Hpend.
        exists member. auto.
      + intros (member' & [= <-] & Hp & Hmem & Hpend & ->).
        exists (id, p). split; [reflexivity |].
        apply filter_In. split; [| apply QueryFacts.isPending_status, Hpend].
        apply filter_In. split; [apply QueryFacts.in_paymentsList, Hp |].
        apply Z.eqb_eq, Hmem.
    - split; [intros [] |]. intros (member & Hm & _). discriminate Hm. }
  split; [| split; [| split]].
  - unfold Routes.userPendingPayments. subst rows looked.
    destruct user as [u |]; [| destruct (Routes.truthyString email) as [e |]].
    + unfold bind. rewrite LookupFacts.pendingPaymentsOf_eq.
      destruct (result _ s); reflexivity.
    + unfold bind. rewrite LookupFacts.pendingPaymentsOf_eq.
      destruct (result _ s); reflexivity.
    + reflexivity.
  - intros id p name Hin.
    destruct looked as [e |] eqn:He; [| destruct Hin].
    apply (Hrows e) in Hin as ([mid m] & Hfound & Hp & Hmem & Hpend & Hname);
      [| reflexivity].
    apply LookupFacts.getMemberByEmail_some in Hfound as [Hm Hemail].
    cbn [fst snd] in *.
    split; [exact Hp |]. split; [exact Hpend |]. split; [exact Hname |].
    exists e, m. rewrite Hmem. auto.
  - intros Hnone. subst rows. rewrite Hnone. reflexivity.
  - intros e He Huniq id p m Hp Hpend Hm Hemail.
    apply (Hrows e); [exact He |].
    exists (Payment.memberId p, m).
    split; [apply (LookupFacts.getMemberByEmail_the e s Huniq _ _ Hm Hemail) |].
    auto.
Qed.

(** Without logging in, asking for [Luis] lists his pending payment 1 with
    the name of its plan; a logged-in admin asking for [Luis] gets the
    admin's own, empty, list. *)
Lemma userPendingPayments_looks_up_by_email_witness :
  (exists rows,
     Routes.userPendingPayments None (Some "Luis") Fixture.store
     = (Routes.Ok 200 rows, Fixture.store)
     /\ forall id p name, In (id, p, name) rows ->
          Payment.status p = Some "pending")
  /\ result (Routes.userPendingPayments (Some Fixture.admin) (Some "Luis"))
       Fixture.store = Routes.Ok 200 [].
Proof.
  split.
  - destruct (userPendingPayments_looks_up_by_email None (Some "Luis")
                Fixture.store) as (rows & Hreply & Hsound & _).
    exists rows. split; [exact Hreply |].
    intros id p name Hin. exact (proj1 (proj2 (Hsound id p name Hin))).
  - vm_compute. reflexivity.
Defined.

(** X11. [POST /api/make-admin/:username].  When no user has that name the
    answer is 404 and nothing changes.  Otherwise a user with that name gets
    the role [admin], keeping its other columns; every other user, the
    members, the plans and the payments stay as they were; the answer is
    200 with the updated user; and the one entry logged, of type
    [admin_action], names neither a user nor a member. *)
Theorem makeAdmin_promotes_by_name now username s :
  ((forall id u, users s !! id = Some u -> User.username u <> username) ->
     Routes.makeAdmin now username s
     = (Routes.Fail 404 "Usuario no encontrado", s))
  /\ (forall id u,
        result (DatabaseStorage.getUserByUsername username) s = Some (id, u) ->
        let s' := after (Routes.makeAdmin now username) s in
        let promoted :=
          {| User.username := User.username u; User.password := User.password u;
             User.name := User.name u; User.role := "admin";
             User.email := User.email u |} in
        users s !! id = Some u
        /\ User.username u = username
        /\ users s' !! id = Some promoted
        /\ (forall j, j <> id -> users s' !! j = users s !! j)
        /\ members s' = members s
        /\ membershipPlans s' = membershipPlans s
        /\ payments s' = payments s
        /\ (exists entry,
              activities s' = activities s ++ [entry]
              /\ Activity.activityType entry = "admin_action"
              /\ Activity.userId entry = None
              /\ Activity.memberId entry = None)
        /\ result (Routes.makeAdmin now username) s
           = Routes.Ok 200
               ("Usuario " +:+ username +:+ " ahora es administrador",
                Some promoted)).
Proof.
  split.
  - intros Hnone. apply LookupFacts.getUserByUsername_none in Hnone.
    unfold Routes.makeAdmin, bind.
    unfold result in Hnone.
    destruct (DatabaseStorage.getUserByUsername username s) as [r s0] eqn:Hg.
    cbn in Hnone. subst r.
    unfold DatabaseStorage.getUserByUsername, gets in Hg.
    injection Hg as _ <-. reflexivity.
  - intros id u Hfound. cbn zeta.
    pose proof (LookupFacts.getUserByUsername_some _ _ _ Hfound) as [Hu Hname].
    cbn [fst snd] in Hu, Hname.
    assert (Hrun : Routes.makeAdmin now username s
                   = (Routes.Ok 200
                        ("Usuario " +:+ username +:+ " ahora es administrador",
                         Some (UserPatch.merge u
                                 {| UserPatch.setUsername := None;
                                    UserPatch.setPassword := None;
                                    UserPatch.setName := None;
                                    UserPatch.setRole := Some "admin";
                                    UserPatch.setEmail := None |})),
                      {| users :=
                           <[id := UserPatch.merge u
                                     {| UserPatch.setUsername := None;
                                        UserPatch.setPassword := None;
                                        UserPatch.setName := None;
                                        UserPatch.setRole := Some "admin";
                                        UserPatch.setEmail := None |}]> (users s);
                         membershipPlans := membershipPlans s;
                         members := members s;
                         payments := payments s;
                         activities :=
                           activities s ++
                           [ {| Activity.userId := None;
                                Activity.memberId := None;
                                Activity.activityType := "admin_action";
                                Activity.description :=
                                  "Usuario " +:+ username
                                  +:+ " promovido a administrador";
                                Activity.timestamp := now |} ];
                         paymentIdCounter := paymentIdCounter s |})).
    { unfold Routes.makeAdmin, bind.
      unfold result in Hfound.
      destruct (DatabaseStorage.getUserByUsername username s) as [r s0] eqn:Hg.
      cbn in Hfound. subst r.
      unfold DatabaseStorage.getUserByUsername, gets in Hg.
      injection Hg as _ <-.
      unfold DatabaseStorage.updateUser, DatabaseStorage.createActivity,
        modify, ret. cbn [fst]. rewrite Hu. reflexivity. }
    unfold after, result. rewrite Hrun.
    cbn [fst snd users members membershipPlans payments activities].
    split; [exact Hu |]. split; [exact Hname |].
    split; [apply lookup_insert_eq |].
    split; [intros j Hj; apply lookup_insert_ne; congruence |].
    repeat (split; [reflexivity |]).
    split; [| reflexivity].
    eexists. split; [reflexivity |]. repeat split.
Qed.

(** Nobody in the small store is called [eva]: the store is left alone. *)
Lemma makeAdmin_promotes_by_name_witness :
  Routes.makeAdmin Fixture.now "eva" Fixture.store
  = (Routes.Fail 404 "Usuario no encontrado", Fixture.store).
Proof.
  destruct (makeAdmin_promotes_by_name Fixture.now "eva" Fixture.store)
    as [Hmissing _].
  apply Hmissing. intros id u Hu.
  unfold Fixture.store in Hu. cbn [users] in Hu.
  apply lookup_singleton_Some in Hu as [_ <-]. discriminate.
Defined.

(** X12. [POST /api/payments].  Without a session the answer is 401.  With
    one, a body in which the member id, the plan id or the amount is missing
    or zero, or the payment method is missing or empty, is answered 400.  In
    both cases nothing changes.  For any other body the row to insert
    carries the current instant as payment date, whatever date the body
    carried.  When the row names a member or a plan that is not stored, or a
    verifier that is not a stored user, the insert is refused and the
    answer is 500: no table changes, and one key of the sequence is used up.
    Otherwise the answer is 201 with the row, stored under the next key;
    and with the status left out the member is set active with an expiry
    date later than one day after now. *)
Theorem postPayment_checks_and_stamps tz now paymentData s :
  Routes.postPayment false tz now paymentData s
  = (Routes.Fail 401 "No autorizado", s)
  /\ (Routes.truthyNumber (Routes.PaymentBody.memberId paymentData) = None
      \/ Routes.truthyNumber (Routes.PaymentBody.planId paymentData) = None
      \/ Routes.truthyNumber (Routes.PaymentBody.amount paymentData) = None
      \/ Routes.truthyString (Routes.PaymentBody.paymentMethod paymentData)
         = None ->
      Routes.postPayment true tz now paymentData s
      = (Routes.Fail 400 "Datos de pago incompletos", s))
  /\ (forall memberId planId amount paymentMethod,
        Routes.truthyNumber (Routes.PaymentBody.memberId paymentData)
        = Some memberId ->
        Routes.truthyNumber (Routes.PaymentBody.planId paymentData)
        = Some planId ->
        Routes.truthyNumber (Routes.PaymentBody.amount paymentData)
        = Some amount ->
        Routes.truthyString (Routes.PaymentBody.paymentMethod paymentData)
        = Some paymentMethod ->
        let reply := result (Routes.postPayment true tz now paymentData) s in
        let s' := after (Routes.postPayment true tz now paymentData) s in
        let row :=
          Outcome.insertedPayment now
            {| InsertPayment.memberId := memberId;
               InsertPayment.amount := amount;
               InsertPayment.paymentDate := Some now;
               InsertPayment.paymentMethod := paymentMethod;
               InsertPayment.planId := planId;
               InsertPayment.status := Routes.PaymentBody.status paymentData;
               InsertPayment.receiptUrl :=
                 Routes.PaymentBody.receiptUrl paymentData;
               InsertPayment.notes := Routes.PaymentBody.notes paymentData;
               InsertPayment.verifiedById :=
                 Routes.PaymentBody.verifiedById paymentData;
               InsertPayment.verifiedAt :=
                 Routes.PaymentBody.verifiedAt paymentData |} in
          Payment.paymentDate row = Some now
          /\ Payment.memberId row = memberId
          /\ Payment.planId row = planId
          /\ Payment.amount row = amount
          /\ Payment.paymentMethod row = paymentMethod
          /\ Payment.status row
             = Some (DatabaseStorage.resolveStatus
                       (Routes.PaymentBody.status paymentData))
          /\ memberId <> 0 /\ planId <> 0 /\ amount <> 0
          /\ (members s !! memberId = None
              \/ membershipPlans s !! planId = None
              \/ Postgres.verifierHolds s row = false ->
              reply = Routes.Fail 500 "Error interno del servidor"
              /\ users s' = users s
              /\ membershipPlans s' = membershipPlans s
              /\ members s' = members s
              /\ payments s' = payments s
              /\ activities s' = activities s
              /\ paymentIdCounter s' = paymentIdCounter s + 1)
          /\ (forall member plan,
                members s !! memberId = Some member ->
                membershipPlans s !! planId = Some plan ->
                Postgres.verifierHolds s row = true ->
                reply = Routes.Ok 201 (paymentIdCounter s, row)
                /\ payments s' !! paymentIdCounter s = Some row
                /\ (Routes.PaymentBody.status paymentData = None ->
                    exists expiry,
                      Member.expiryDate <$> members s' !! memberId
                      = Some (Some expiry)
                      /\ Member.status <$> members s' !! memberId
                         = Some (Some "active")
                      /\ now + msPerDay < expiry))).
Proof.
  split; [reflexivity |]. split.
  - intros Hbad. unfold Routes.postPayment. cbn [negb].
    destruct (Routes.truthyNumber (Routes.PaymentBody.memberId paymentData));
      [| reflexivity].
    destruct (Routes.truthyNumber (Routes.PaymentBody.planId paymentData));
      [| reflexivity].
    destruct (Routes.truthyNumber (Routes.PaymentBody.amount paymentData));
      [| reflexivity].
    destruct (Routes.truthyString (Routes.PaymentBody.paymentMethod paymentData));
      [| reflexivity].
    destruct Hbad as [H | [H | [H | H]]]; discriminate H.
  - intros memberId planId amount paymentMethod Hm Hp Ha Hpm. cbn zeta.
    unfold Routes.postPayment. cbn [negb]. rewrite Hm, Hp, Ha, Hpm.
    set (pd := {| InsertPayment.memberId := memberId;
                  InsertPayment.amount := amount;
                  InsertPayment.paymentDate := Some now;
                  InsertPayment.paymentMethod := paymentMethod;
                  InsertPayment.planId := planId;
                  InsertPayment.status := Routes.PaymentBody.status paymentData;
                  InsertPayment.receiptUrl :=
                    Routes.PaymentBody.receiptUrl paymentData;
                  InsertPayment.notes := Routes.PaymentBody.notes paymentData;
                  InsertPayment.verifiedById :=
                    Routes.PaymentBody.verifiedById paymentData;
                  InsertPayment.verifiedAt :=
                    Routes.PaymentBody.verifiedAt paymentData |}).
    do 6 (split; [reflexivity |]).
    assert (Hnz : forall x n, Routes.truthyNumber x = Some n -> n <> 0).
    { intros [x |] n; cbn; [| discriminate].
      destruct (Z.eqb_spec x 0); [discriminate |]. intros [= <-]. assumption. }
    split; [exact (Hnz _ _ Hm) |]. split; [exact (Hnz _ _ Hp) |].
    split; [exact (Hnz _ _ Ha) |].
    unfold Routes.tryCatch, result, after. split.
    + intros Hbad.
      assert (Href : Postgres.references s (Outcome.insertedPayment now pd)
                     = false).
      { unfold Postgres.references.
        cbn [Outcome.insertedPayment Payment.memberId Payment.planId
             InsertPayment.memberId InsertPayment.planId pd].
        destruct Hbad as [-> | [-> | ->]]; cbn [Postgres.found].
        - reflexivity.
        - apply andb_false_iff. left. apply andb_false_r.
        - apply andb_false_r. }
      rewrite (PostgresFacts.createPayment_refused _ _ _ _ Href).
      cbn. repeat split.
    + intros member plan Hmem Hplan Hver.
      destruct (String.eqb_spec
                  (DatabaseStorage.resolveStatus (InsertPayment.status pd))
                  "verified") as [Hst | Hst].
      * rewrite (PostgresFacts.pg_createPayment_verified tz now pd member plan s
                   Hst Hmem Hplan Hver).
        cbn [fst snd ret].
        split; [reflexivity |].
        split.
        { unfold Outcome.datedCreatedStore, Outcome.createdVerifiedStore.
          cbn [payments withMembers]. apply lookup_insert_eq. }
        intros _.
        exists (Postgres.dateColumn (Outcome.createExpiry tz now pd plan)).
        unfold Outcome.datedCreatedStore. cbn [members withMembers].
        cbn [InsertPayment.memberId pd].
        rewrite lookup_insert_eq. split; [reflexivity |]. split; [reflexivity |].
        pose proof (PostgresFacts.createExpiry_two_days tz now pd plan) as H2.
        pose proof (PostgresFacts.dateColumn_le
                      (Outcome.createExpiry tz now pd plan)) as Hk.
        cbn [InsertPayment.paymentDate pd] in H2. lia.
      * rewrite (PostgresFacts.pg_createPayment_unverified tz now pd member plan s
                   Hst Hmem Hplan).
        cbn [fst snd ret].
        split; [reflexivity |].
        split.
        { destruct (StorageFacts.createPayment_stored tz now pd s) as [_ ->].
          apply lookup_insert_eq. }
        intros Hnone. exfalso. apply Hst.
        cbn [InsertPayment.status pd]. rewrite Hnone. reflexivity.
Qed.

(** On the small store: a request without a session is turned away; a body
    without an amount is turned away; a body for member 9, who does not
    exist, ends in a 500; a body dated a year back is stored with today's
    date. *)
Lemma postPayment_checks_and_stamps_witness :
  let body (memberId amount : option Z) :=
    {| Routes.PaymentBody.memberId := memberId;
       Routes.PaymentBody.planId := Some 3;
       Routes.PaymentBody.amount := amount;
       Routes.PaymentBody.paymentMethod := Some "Yape";
       Routes.PaymentBody.paymentDate := Some (civil 2023 1 15 0);
       Routes.PaymentBody.status := None;
       Routes.PaymentBody.receiptUrl := None;
       Routes.PaymentBody.notes := None;
       Routes.PaymentBody.verifiedById := None;
       Routes.PaymentBody.verifiedAt := None |} in
  Routes.postPayment true 0 Fixture.now (body (Some 2) None) Fixture.store
  = (Routes.Fail 400 "Datos de pago incompletos", Fixture.store)
  /\ result (Routes.postPayment true 0 Fixture.now (body (Some 9) (Some 7000)))
       Fixture.store
     = Routes.Fail 500 "Error interno del servidor"
  /\ exists row,
       result (Routes.postPayment true 0 Fixture.now (body (Some 2) (Some 7000)))
         Fixture.store
       = Routes.Ok 201 (3, row)
       /\ Payment.paymentDate row = Some Fixture.now.
Proof.
  cbn zeta. split; [| split].
  - match goal with
    | |- Routes.postPayment _ _ _ ?b _ = _ =>
        destruct (postPayment_checks_and_stamps 0 Fixture.now b Fixture.store)
          as (_ & Hbad & _)
    end.
    apply Hbad. right. right. left. reflexivity.
  - match goal with
    | |- result (Routes.postPayment _ _ _ ?b) _ = _ =>
        destruct (postPayment_checks_and_stamps 0 Fixture.now b Fixture.store)
          as (_ & _ & Hgood)
    end.
    destruct (Hgood 9 3 7000 "Yape" eq_refl eq_refl eq_refl eq_refl)
      as (_ & _ & _ & _ & _ & _ & _ & _ & _ & Hrefused & _).
    apply Hrefused. left. reflexivity.
  - match goal with
    | |- context [Routes.postPayment _ _ _ ?b] =>
        destruct (postPayment_checks_and_stamps 0 Fixture.now b Fixture.store)
          as (_ & _ & Hgood)
    end.
    destruct (Hgood 2 3 7000 "Yape" eq_refl eq_refl eq_refl eq_refl)
      as (Hdate & _ & _ & _ & _ & _ & _ & _ & _ & _ & Hstored).
    eexists. split; [| exact Hdate].
    apply (Hstored Fixture.luis Fixture.mensual eq_refl eq_refl eq_refl).
Defined.

(** ** The activity lists *)
Module ActivityFacts.
Import JSArray.

Lemma insert_perm a l : Permutation (insertByTimestamp a l) (a :: l).
Proof.
  induction l as [| b l IH]; cbn; [reflexivity |].
  destruct (Activity.timestamp b <=? Activity.timestamp a); [reflexivity |].
  rewrite IH. apply perm_swap.
Qed.

Lemma sort_perm l : Permutation (sortByTimestampDesc l) l.
Proof.
  induction l as [| a l IH]; cbn; [reflexivity |].
  rewrite insert_perm. constructor. exact IH.
Qed.

Lemma insert_sorted a l :
  StronglySorted laterFirst l -> StronglySorted laterFirst (insertByTimestamp a l).
Proof.
  induction 1 as [| b l Hs IH Hall]; cbn; [repeat constructor |].
  destruct (Z.leb_spec (Activity.timestamp b) (Activity.timestamp a)) as [Hle | Hgt].
  - constructor; [constructor; assumption |].
    constructor; [exact Hle |]. unfold laterFirst in Hall.
    eapply Forall_impl; [exact Hall |]. unfold laterFirst. cbn. intros c Hc. lia.
  - constructor; [exact IH |].
    apply (Permutation_Forall (Permutation_sym (insert_perm a l))).
    constructor; [unfold laterFirst; lia | exact Hall].
Qed.

Lemma sort_sorted l : StronglySorted laterFirst (sortByTimestampDesc l).
Proof.
  induction l as [| a l IH]; cbn; [constructor |]. apply insert_sorted, IH.
Qed.

(** Entries of one and the same time keep the order they had. *)
Lemma insert_stable t a l :
  List.filter (fun b => Activity.timestamp b =? t) (insertByTimestamp a l)
  = List.filter (fun b => Activity.timestamp b =? t) (a :: l).
Proof.
  induction l as [| b l IH]; [reflexivity |]. cbn [insertByTimestamp].
  destruct (Z.leb_spec (Activity.timestamp b) (Activity.timestamp a)) as [Hle | Hgt];
    [reflexivity |].
  cbn [List.filter] in *. rewrite IH.
  destruct (Z.eqb_spec (Activity.timestamp b) t),
           (Z.eqb_spec (Activity.timestamp a) t); try reflexivity. lia.
Qed.

Lemma sort_stable t l :
  List.filter (fun b => Activity.timestamp b =? t) (sortByTimestampDesc l)
  = List.filter (fun b => Activity.timestamp b =? t) l.
Proof.
  induction l as [| a l IH]; [reflexivity |].
  cbn [sortByTimestampDesc foldr]. rewrite insert_stable.
  cbn [List.filter]. fold (sortByTimestampDesc l). rewrite IH. reflexivity.
Qed.

Lemma insert_front a l :
  Forall (fun b => Activity.timestamp b <= Activity.timestamp a) l ->
  insertByTimestamp a l = a :: l.
Proof.
  intros H. destruct l as [| b l]; [reflexivity |]. cbn.
  apply Forall_cons in H as [Hb _].
  destruct (Z.leb_spec (Activity.timestamp b) (Activity.timestamp a)); [reflexivity | lia].
Qed.

Lemma filter_le_head (p : Activity.t -> bool) b l :
  Forall (laterFirst b) l ->
  Forall (fun c => Activity.timestamp c <= Activity.timestamp b) (List.filter p l).
Proof.
  intros Hall. apply Forall_forall. intros c Hc.
  apply list_elem_of_In, filter_In in Hc as [Hc _].
  rewrite Forall_forall in Hall.
  exact (Hall c (proj2 (list_elem_of_In _ _) Hc)).
Qed.

Lemma filter_insert (p : Activity.t -> bool) a l :
  StronglySorted laterFirst l ->
  List.filter p (insertByTimestamp a l)
  = if p a then insertByTimestamp a (List.filter p l) else List.filter p l.
Proof.
  induction 1 as [| b l Hs IH Hall]; cbn [insertByTimestamp List.filter].
  - destruct (p a); reflexivity.
  - destruct (Z.leb_spec (Activity.timestamp b) (Activity.timestamp a)) as [Hle | Hgt].
    + cbn [List.filter]. destruct (p a); [| reflexivity].
      symmetry. apply insert_front.
      pose proof (filter_le_head p b l Hall) as Hf.
      destruct (p b); [constructor; [exact Hle |] |];
        (eapply Forall_impl; [exact Hf |]; cbn; intros c Hc; lia).
    + cbn [List.filter]. rewrite IH.
      destruct (p b), (p a); try reflexivity.
      cbn [insertByTimestamp].
      destruct (Z.leb_spec (Activity.timestamp b) (Activity.timestamp a));
        [lia | reflexivity].
Qed.

(** Filtering the sorted log and sorting the filtered log give one list. *)
Lemma filter_sort (p : Activity.t -> bool) l :
  List.filter p (sortByTimestampDesc l) = sortByTimestampDesc (List.filter p l).
Proof.
  induction l as [| a l IH]; [reflexivity |].
  cbn [sortByTimestampDesc foldr List.filter].
  fold (sortByTimestampDesc l).
  rewrite filter_insert by apply sort_sorted.
  rewrite IH. destruct (p a); reflexivity.
Qed.

Lemma sorted_app_order (l1 l2 : list Activity.t) :
  StronglySorted laterFirst (l1 ++ l2) ->
  forall a b, In a l1 -> In b l2 -> Activity.timestamp b <= Activity.timestamp a.
Proof.
  induction l1 as [| x l1 IH]; intros Hs a b Ha Hb; [destruct Ha |].
  cbn in Hs. apply StronglySorted_inv in Hs as [Hs Hall].
  destruct Ha as [<- | Ha].
  - rewrite Forall_forall in Hall.
    apply (Hall b). apply list_elem_of_In, in_or_app. right. exact Hb.
  - apply (IH Hs a b Ha Hb).
Qed.

End ActivityFacts.

(** X13. [MemStorage.getActivities] only reads and returns the whole log,
    nothing lost and nothing added, with the latest entry first; entries
    logged at one and the same instant come in the order they were logged.
    [MemStorage.getRecentActivities] returns the front of that list: for a
    limit of zero or more, as many entries as the limit, or all when there
    are fewer; for a negative limit, all but that many of the oldest.  No
    entry left out is later than an entry returned. *)
Theorem getActivities_latest_first limit s :
  let all := result MemStorage.getActivities s in
  let recent := result (MemStorage.getRecentActivities limit) s in
  after MemStorage.getActivities s = s
  /\ after (MemStorage.getRecentActivities limit) s = s
  /\ Permutation all (activities s)
  /\ StronglySorted JSArray.laterFirst all
  /\ (forall t,
        List.filter (fun a => Activity.timestamp a =? t) all
        = List.filter (fun a => Activity.timestamp a =? t) (activities s))
  /\ (exists rest,
        all = recent ++ rest
        /\ forall a b, In a recent -> In b rest ->
             Activity.timestamp b <= Activity.timestamp a)
  /\ (0 <= limit ->
        Z.of_nat (length recent) = Z.min limit (Z.of_nat (length (activities s))))
  /\ (limit < 0 ->
        Z.of_nat (length recent)
        = Z.max 0 (Z.of_nat (length (activities s)) + limit)).
Proof.
  cbn zeta.
  change (result MemStorage.getActivities s)
    with (JSArray.sortByTimestampDesc (activities s)).
  change (result (MemStorage.getRecentActivities limit) s)
    with (JSArray.slice0 (JSArray.sortByTimestampDesc (activities s)) limit).
  pose proof (ActivityFacts.sort_perm (activities s)) as Hperm.
  pose proof (ActivityFacts.sort_sorted (activities s)) as Hsorted.
  pose proof (Permutation_length Hperm) as Hlen.
  set (all := JSArray.sortByTimestampDesc (activities s)) in *.
  split; [reflexivity |]. split; [reflexivity |].
  split; [exact Hperm |]. split; [exact Hsorted |].
  split; [intros t; apply ActivityFacts.sort_stable |].
  assert (Hslice : exists n, JSArray.slice0 all limit = take n all).
  { unfold JSArray.slice0. destruct (limit <? 0); eexists; reflexivity. }
  split; [| split].
  - destruct Hslice as [n ->]. exists (drop n all).
    split; [symmetry; apply take_drop |].
    apply ActivityFacts.sorted_app_order. rewrite take_drop. exact Hsorted.
  - intros Hlim. unfold JSArray.slice0.
    destruct (Z.ltb_spec limit 0); [lia |].
    rewrite length_take, Hlen. lia.
  - intros Hlim. unfold JSArray.slice0.
    destruct (Z.ltb_spec limit 0); [| lia].
    rewrite length_take, Hlen. lia.
Qed.

(** A log of three entries, the middle one the latest. *)
Lemma getActivities_latest_first_witness :
  let entry (ty : string) (time : Z) :=
    {| Activity.userId := None; Activity.memberId := Some 1;
       Activity.activityType := ty; Activity.description := ty;
       Activity.timestamp := time |} in
  let s := withActivities
             (fun _ => [entry "a" 10; entry "b" 30; entry "c" 10])
             Fixture.store in
  result (MemStorage.getRecentActivities 2) s = [entry "b" 30; entry "a" 10]
  /\ Z.of_nat (length (result (MemStorage.getRecentActivities (-1)) s)) = 2.
Proof.
  cbn zeta. split; [vm_compute; reflexivity |].
  match goal with
  | |- context [result _ ?s] =>
      destruct (getActivities_latest_first (-1) s)
        as (_ & _ & _ & _ & _ & _ & _ & Hneg)
  end.
  rewrite (Hneg ltac:(lia)). reflexivity.
Defined.

(** X14. The activity list of a member.  [MemStorage] sorts the log and then
    keeps the member's entries; [DatabaseStorage] selects the member's
    entries and orders them.  Either way the list holds exactly the log's
    entries that carry the member's id, the latest first; the in-memory list
    keeps entries of one time in log order, and the two lists have the same
    entries the same number of times. *)
Theorem getMemberActivities_of_member memberId s :
  let mem := result (MemStorage.getMemberActivities memberId) s in
  let db := result (DatabaseStorage.getMemberActivities memberId) s in
  (forall a, In a mem <->
             In a (activities s) /\ Activity.memberId a = Some memberId)
  /\ StronglySorted JSArray.laterFirst mem
  /\ StronglySorted JSArray.laterFirst db
  /\ Permutation db mem
  /\ (forall t,
        List.filter (fun a => Activity.timestamp a =? t) mem
        = List.filter (fun a => Activity.timestamp a =? t)
            (List.filter (fun a => match Activity.memberId a with
                                   | Some m => m =? memberId
                                   | None => false
                                   end) (activities s)))
  /\ after (MemStorage.getMemberActivities memberId) s = s
  /\ after (DatabaseStorage.getMemberActivities memberId) s = s.
Proof.
  cbn zeta.
  set (p := fun a => match Activity.memberId a with
                     | Some m => m =? memberId
                     | None => false
                     end).
  change (result (MemStorage.getMemberActivities memberId) s)
    with (List.filter p (JSArray.sortByTimestampDesc (activities s))).
  change (result (DatabaseStorage.getMemberActivities memberId) s)
    with (JSArray.sortByTimestampDesc (List.filter p (activities s))).
  rewrite ActivityFacts.filter_sort.
  split; [| split; [| split; [| split; [| split; [| split]]]]];
    try reflexivity; try apply ActivityFacts.sort_sorted.
  - intros a.
    assert (Hin : In a (JSArray.sortByTimestampDesc (List.filter p (activities s)))
                  <-> In a (List.filter p (activities s))).
    { split; apply Permutation_in;
        [| symmetry]; apply ActivityFacts.sort_perm. }
    rewrite Hin, filter_In. subst p. cbn beta.
    destruct (Activity.memberId a) as [m |].
    + rewrite Z.eqb_eq. split; intros [H1 H2]; split; congruence.
    + split; intros [_ H]; discriminate H.
  - intros t. apply ActivityFacts.sort_stable.
Qed.
